(** * Production order analytics engine

    A shallow embedding of the retrieval engine [ExcaliburDataAnalyzer]
    (app/core/data_analyzer.py), of the aggregators of
    [DashboardAnalyticsController]
    (app/controllers/dashboard_analytics_controller.py) and of some of their
    callers in [OFController] (app/controllers/of_controller.py),
    [DashboardController] (app/controllers/dashboard_controller.py) and
    [DataService] (app/services/data_service.py).

    The SQL text sent to the database is embedded as list functions over the
    two tables [gpao.OF_DA] and [gpao.HISTO_OF_DA]; the pandas post-processing
    is embedded as functions over frames (lists of rows).  Numbers are exact
    rationals; a missing number is either Python's [None] or the float [nan],
    as pandas delivers it. *)

From Stdlib Require Import List String ZArith QArith Bool Lia.
From Stdlib Require Import Sorted DecimalString.
Import ListNotations.

Local Open Scope string_scope.
Local Open Scope Q_scope.

(** ** Python values and exceptions *)

Module Py.

(** A numeric cell of a frame.  [pd.read_sql] leaves the NULLs of a column
    that holds nothing else as [None] and turns the NULLs of a column that
    holds numbers into [nan]. *)
Inductive cell : Type :=
| PyNone
| NaN
| Num (q : Q).

Inductive exn : Type :=
| TypeError
| ZeroDivisionError
| KeyError.

Inductive outcome (A : Type) : Type :=
| Ok (a : A)
| Raise (e : exn).

Arguments Ok {A} a.
Arguments Raise {A} e.

Definition bind {A B : Type} (m : outcome A) (k : A -> outcome B) : outcome B :=
  match m with
  | Ok a => k a
  | Raise e => Raise e
  end.

Fixpoint mapM {A B : Type} (f : A -> outcome B) (l : list A) : outcome (list B) :=
  match l with
  | [] => Ok []
  | x :: t =>
      bind (f x) (fun y => bind (mapM f t) (fun ys => Ok (y :: ys)))
  end.

Definition Qnonzero (q : Q) : bool := negb (Qeq_bool q 0).

Definition Qgt_bool (a b : Q) : bool := negb (Qle_bool a b).

(** [bool(x)]: [None] and zero are falsy, [nan] is truthy. *)
Definition truthy (c : cell) : bool :=
  match c with
  | PyNone => false
  | NaN => true
  | Num q => Qnonzero q
  end.

(** [x != 0] *)
Definition ne_zero (c : cell) : bool :=
  match c with
  | PyNone => true
  | NaN => true
  | Num q => Qnonzero q
  end.

(** [x / y] on Python numbers. *)
Definition div (x y : cell) : outcome cell :=
  match x, y with
  | PyNone, _ => Raise TypeError
  | _, PyNone => Raise TypeError
  | NaN, NaN => Ok NaN
  | Num _, NaN => Ok NaN
  | NaN, Num b => if Qeq_bool b 0 then Raise ZeroDivisionError else Ok NaN
  | Num a, Num b =>
      if Qeq_bool b 0 then Raise ZeroDivisionError else Ok (Num (a / b))
  end.

(** [x > y]: any comparison with [nan] is [False]. *)
Definition gt (x y : cell) : outcome bool :=
  match x, y with
  | PyNone, _ => Raise TypeError
  | _, PyNone => Raise TypeError
  | Num a, Num b => Ok (Qgt_bool a b)
  | _, _ => Ok false
  end.

(** The mark [pd.isna] tests: both [None] and [nan] are missing values. *)
Definition isna (c : cell) : bool :=
  match c with
  | Num _ => false
  | _ => true
  end.

(** Truthiness of an [Optional[str]] argument: [None] and the empty string
    are falsy. *)
Definition truthy_str (o : option string) : bool :=
  match o with
  | Some s => negb (String.eqb s "")
  | None => false
  end.

End Py.

Import Py.

Notation "x <- m ;; k" := (Py.bind m (fun x => k))
  (at level 61, m at next level, right associativity).

(** ** Dates

    The date columns and the ['YYYY-MM-DD'] strings of the filter arguments
    are ordered chronologically; a date is represented by its day number. *)

Definition date : Type := Z.

(** ** SQL expressions: three-valued logic over nullable columns *)

Module Sql.

(** A comparison with a NULL operand is unknown ([None]). *)
Definition gt (x y : option Q) : option bool :=
  match x, y with
  | Some a, Some b => Some (Qgt_bool a b)
  | _, _ => None
  end.

Definition ge_date (x : option date) (d : date) : option bool :=
  match x with
  | Some a => Some (d <=? a)%Z
  | None => None
  end.

Definition le_date (x : option date) (d : date) : option bool :=
  match x with
  | Some a => Some (a <=? d)%Z
  | None => None
  end.

Definition eq_str (x y : option string) : option bool :=
  match x, y with
  | Some a, Some b => Some (String.eqb a b)
  | _, _ => None
  end.

Definition and3 (a b : option bool) : option bool :=
  match a, b with
  | Some false, _ => Some false
  | _, Some false => Some false
  | Some true, Some true => Some true
  | _, _ => None
  end.

(** [WHERE], [ON] and [CASE WHEN] keep a row or take a branch only when the
    condition is TRUE. *)
Definition holds (b : option bool) : bool :=
  match b with
  | Some true => true
  | _ => false
  end.

Definition COALESCE {A : Type} (x : option A) (d : A) : A :=
  match x with
  | Some a => a
  | None => d
  end.

(** [CAST(x AS FLOAT) / CAST(y AS FLOAT)]: NULL when an operand is NULL. *)
Definition div (x y : option Q) : option Q :=
  match x, y with
  | Some a, Some b => Some (a / b)
  | _, _ => None
  end.

Fixpoint somes {A : Type} (l : list (option A)) : list A :=
  match l with
  | [] => []
  | Some a :: t => a :: somes t
  | None :: t => somes t
  end.

Definition Qsum (l : list Q) : Q := fold_right Qplus 0 l.

Definition mean (l : list Q) : Q := Qsum l / inject_Z (Z.of_nat (List.length l)).

(** [AVG(e)] ignores the NULL values of [e] and is NULL over no value. *)
Definition AVG (l : list (option Q)) : option Q :=
  match somes l with
  | [] => None
  | v :: vs => Some (mean (v :: vs))
  end.

(** A NULL reaches the frame as [None]; [read_sql] below decides per column
    whether it stays so. *)
Definition to_cell (x : option Q) : cell :=
  match x with
  | Some q => Num q
  | None => PyNone
  end.

End Sql.

(** ** The two tables *)

Module Db.

(** One row of [gpao.OF_DA] or [gpao.HISTO_OF_DA], restricted to the columns
    the queries read.  [DATE_CLOTURE] exists in [HISTO_OF_DA] only; no query
    on [OF_DA] reads it. *)
Record row : Type := mk_row {
  NUMERO_OFDA : string;
  PRODUIT : option string;
  STATUT : string;
  LANCEMENT_AU_PLUS_TARD : option date;
  QUANTITE_DEMANDEE : option Q;
  CUMUL_ENTREES : option Q;
  DUREE_PREVUE : option Q;
  CUMUL_TEMPS_PASSES : option Q;
  LANCE_LE : option date;
  DATE_CLOTURE : option date;
  CATEGORIE : option string;
  CLIENT : option string
}.

Record database : Type := mk_database {
  OF_DA : list row;
  HISTO_OF_DA : list row
}.

End Db.

(** ** Frames *)

(** One row of a [pd.DataFrame] handled by the engine.  A column that a frame
    may lack is an [option]: [None] stands for the absent column.  The columns
    AFFAIRE, DESIGNATION, DISPO_DEMANDE, SECTEUR, PRIORITE, RESPONSABLE,
    DUREE_ESTIMEE_HISTORIQUE, Avancement_temps_historique and SEMAINE are
    carried along by the source without being read by any operation embedded
    here and are left out.  A status may be missing in a frame: [STATUT] is
    then [None].  [Alerte_temps] holds SQL's 1/0 or pandas' True/False, which
    Python compares equal. *)
Record row : Type := mk_row {
  NUMERO_OFDA : string;
  PRODUIT : option string;
  STATUT : option string;
  LANCEMENT_AU_PLUS_TARD : option date;
  QUANTITE_DEMANDEE : cell;
  CUMUL_ENTREES : cell;
  DUREE_PREVUE : cell;
  CUMUL_TEMPS_PASSES : cell;
  LANCE_LE : option date;
  DATA_CLOTURE : option date;
  FAMILLE_TECHNIQUE : string;
  CLIENT : string;
  TEMPS_UNITAIRE_HISTORIQUE : option cell;
  DATA_SOURCE : option string;
  COMPLETION_STATUS : option string;
  Avancement_PROD : option cell;
  Avancement_temps : option cell;
  Alerte_temps : option bool;
  EFFICACITE : option cell
}.

Definition DataFrame : Type := list row.

(** [df.empty] *)
Definition empty (df : DataFrame) : bool :=
  match df with
  | [] => true
  | _ :: _ => false
  end.

(** [row[col]] on a column that may be absent. *)
Definition getitem {A : Type} (col : option A) : outcome A :=
  match col with
  | Some v => Ok v
  | None => Raise KeyError
  end.

Definition set_Avancement_PROD (r : row) (v : cell) : row :=
  mk_row (NUMERO_OFDA r) (PRODUIT r) (STATUT r) (LANCEMENT_AU_PLUS_TARD r)
    (QUANTITE_DEMANDEE r) (CUMUL_ENTREES r) (DUREE_PREVUE r)
    (CUMUL_TEMPS_PASSES r) (LANCE_LE r) (DATA_CLOTURE r) (FAMILLE_TECHNIQUE r)
    (CLIENT r) (TEMPS_UNITAIRE_HISTORIQUE r) (DATA_SOURCE r)
    (COMPLETION_STATUS r) (Some v) (Avancement_temps r) (Alerte_temps r)
    (EFFICACITE r).

Definition set_Avancement_temps (r : row) (v : cell) : row :=
  mk_row (NUMERO_OFDA r) (PRODUIT r) (STATUT r) (LANCEMENT_AU_PLUS_TARD r)
    (QUANTITE_DEMANDEE r) (CUMUL_ENTREES r) (DUREE_PREVUE r)
    (CUMUL_TEMPS_PASSES r) (LANCE_LE r) (DATA_CLOTURE r) (FAMILLE_TECHNIQUE r)
    (CLIENT r) (TEMPS_UNITAIRE_HISTORIQUE r) (DATA_SOURCE r)
    (COMPLETION_STATUS r) (Avancement_PROD r) (Some v) (Alerte_temps r)
    (EFFICACITE r).

Definition set_Alerte_temps (r : row) (v : bool) : row :=
  mk_row (NUMERO_OFDA r) (PRODUIT r) (STATUT r) (LANCEMENT_AU_PLUS_TARD r)
    (QUANTITE_DEMANDEE r) (CUMUL_ENTREES r) (DUREE_PREVUE r)
    (CUMUL_TEMPS_PASSES r) (LANCE_LE r) (DATA_CLOTURE r) (FAMILLE_TECHNIQUE r)
    (CLIENT r) (TEMPS_UNITAIRE_HISTORIQUE r) (DATA_SOURCE r)
    (COMPLETION_STATUS r) (Avancement_PROD r) (Avancement_temps r) (Some v)
    (EFFICACITE r).

Definition set_DATA_SOURCE (r : row) (v : string) : row :=
  mk_row (NUMERO_OFDA r) (PRODUIT r) (STATUT r) (LANCEMENT_AU_PLUS_TARD r)
    (QUANTITE_DEMANDEE r) (CUMUL_ENTREES r) (DUREE_PREVUE r)
    (CUMUL_TEMPS_PASSES r) (LANCE_LE r) (DATA_CLOTURE r) (FAMILLE_TECHNIQUE r)
    (CLIENT r) (TEMPS_UNITAIRE_HISTORIQUE r) (Some v)
    (COMPLETION_STATUS r) (Avancement_PROD r) (Avancement_temps r)
    (Alerte_temps r) (EFFICACITE r).

Definition set_COMPLETION_STATUS (r : row) (v : string) : row :=
  mk_row (NUMERO_OFDA r) (PRODUIT r) (STATUT r) (LANCEMENT_AU_PLUS_TARD r)
    (QUANTITE_DEMANDEE r) (CUMUL_ENTREES r) (DUREE_PREVUE r)
    (CUMUL_TEMPS_PASSES r) (LANCE_LE r) (DATA_CLOTURE r) (FAMILLE_TECHNIQUE r)
    (CLIENT r) (TEMPS_UNITAIRE_HISTORIQUE r) (DATA_SOURCE r)
    (Some v) (Avancement_PROD r) (Avancement_temps r)
    (Alerte_temps r) (EFFICACITE r).

Definition set_EFFICACITE (r : row) (v : cell) : row :=
  mk_row (NUMERO_OFDA r) (PRODUIT r) (STATUT r) (LANCEMENT_AU_PLUS_TARD r)
    (QUANTITE_DEMANDEE r) (CUMUL_ENTREES r) (DUREE_PREVUE r)
    (CUMUL_TEMPS_PASSES r) (LANCE_LE r) (DATA_CLOTURE r) (FAMILLE_TECHNIQUE r)
    (CLIENT r) (TEMPS_UNITAIRE_HISTORIQUE r) (DATA_SOURCE r)
    (COMPLETION_STATUS r) (Avancement_PROD r) (Avancement_temps r)
    (Alerte_temps r) (Some v).

(** *** [pd.read_sql]: from SQL values to frame cells

    With [coerce_float] (the default) a numeric column whose values are all
    NULL stays an object column of [None]; a column mixing numbers and NULLs
    becomes a float column where each NULL is [nan]. *)

Definition null_marker (col : list cell) : cell :=
  if forallb isna col then PyNone else NaN.

Definition coerce (marker c : cell) : cell :=
  match c with
  | Num q => Num q
  | _ => marker
  end.

Definition column (f : row -> option cell) (rows : list row) : list cell :=
  map (fun r => match f r with Some c => c | None => PyNone end) rows.

Definition coerce_row (mQD mCE mDP mTP mTU mAP mAT : cell) (r : row) : row :=
  mk_row (NUMERO_OFDA r) (PRODUIT r) (STATUT r) (LANCEMENT_AU_PLUS_TARD r)
    (coerce mQD (QUANTITE_DEMANDEE r)) (coerce mCE (CUMUL_ENTREES r))
    (coerce mDP (DUREE_PREVUE r)) (coerce mTP (CUMUL_TEMPS_PASSES r))
    (LANCE_LE r) (DATA_CLOTURE r) (FAMILLE_TECHNIQUE r) (CLIENT r)
    (option_map (coerce mTU) (TEMPS_UNITAIRE_HISTORIQUE r))
    (DATA_SOURCE r) (COMPLETION_STATUS r)
    (option_map (coerce mAP) (Avancement_PROD r))
    (option_map (coerce mAT) (Avancement_temps r))
    (Alerte_temps r) (EFFICACITE r).

Definition read_sql (rows : list row) : DataFrame :=
  map (coerce_row
         (null_marker (map QUANTITE_DEMANDEE rows))
         (null_marker (map CUMUL_ENTREES rows))
         (null_marker (map DUREE_PREVUE rows))
         (null_marker (map CUMUL_TEMPS_PASSES rows))
         (null_marker (column TEMPS_UNITAIRE_HISTORIQUE rows))
         (null_marker (column Avancement_PROD rows))
         (null_marker (column Avancement_temps rows)))
      rows.

(** ** The SQL text of the engine *)

Definition sentinel_famille : string := "Non définie".
Definition sentinel_client : string := "Non défini".

(** *** The historical baseline: sub-query [hist_avg] *)

(** The grouping key [HISTO.PRODUIT, HISTO.CATEGORIE].  [GROUP BY] puts the
    NULLs of a column in one group. *)
Definition key : Type := (option string * option string)%type.

Definition opt_str_eqb (a b : option string) : bool :=
  match a, b with
  | Some x, Some y => String.eqb x y
  | None, None => true
  | _, _ => false
  end.

Definition key_eqb (k1 k2 : key) : bool :=
  opt_str_eqb (fst k1) (fst k2) && opt_str_eqb (snd k1) (snd k2).

Definition key_of (h : Db.row) : key := (Db.PRODUIT h, Db.CATEGORIE h).

Fixpoint distinct (l : list key) : list key :=
  match l with
  | [] => []
  | k :: t => k :: filter (fun k' => negb (key_eqb k k')) (distinct t)
  end.

(** [WHERE HISTO.CUMUL_ENTREES > 0 AND HISTO.CUMUL_TEMPS_PASSES > 0] *)
Definition hist_where (h : Db.row) : bool :=
  Sql.holds (Sql.and3 (Sql.gt (Db.CUMUL_ENTREES h) (Some 0))
                      (Sql.gt (Db.CUMUL_TEMPS_PASSES h) (Some 0))).

(** [CASE WHEN den > 0 THEN CAST(num AS FLOAT) / CAST(den AS FLOAT) ELSE 0 END] *)
Definition case_ratio (num den : option Q) : option Q :=
  if Sql.holds (Sql.gt den (Some 0)) then Sql.div num den else Some 0.

Definition hist_avg (HISTO : list Db.row) : list (key * option Q) :=
  let kept := filter hist_where HISTO in
  map (fun k =>
         (k, Sql.AVG
               (map (fun h => case_ratio (Db.CUMUL_TEMPS_PASSES h) (Db.CUMUL_ENTREES h))
                    (filter (fun h => key_eqb (key_of h) k) kept))))
      (distinct (map key_of kept)).

(** [ON ofda.PRODUIT = hist_avg.PRODUIT AND ofda.CATEGORIE = hist_avg.CATEGORIE] *)
Definition on_clause (a : Db.row) (g : key * option Q) : bool :=
  Sql.holds (Sql.and3 (Sql.eq_str (Db.PRODUIT a) (fst (fst g)))
                      (Sql.eq_str (Db.CATEGORIE a) (snd (fst g)))).

(** [LEFT JOIN]: every left row once per matching right row, or once with
    NULL when nothing matches. *)
Definition left_join (ofda : list Db.row) (avgs : list (key * option Q))
  : list (Db.row * option Q) :=
  flat_map (fun a =>
              match filter (on_clause a) avgs with
              | [] => [(a, None)]
              | g :: gs => map (fun g' => (a, snd g')) (g :: gs)
              end) ofda.

(** *** The [SELECT] lists *)

Definition in_T_A (s : string) : bool := String.eqb s "T" || String.eqb s "A".

(** [x in ['T', 'A']] on a cell of the status column: a missing status is in
    no list. *)
Definition status_in_T_A (x : option string) : bool :=
  match x with
  | Some s => in_T_A s
  | None => false
  end.

Definition select_active (j : Db.row * option Q) : row :=
  let a := fst j in
  mk_row (Db.NUMERO_OFDA a) (Db.PRODUIT a) (Some (Db.STATUT a))
    (Db.LANCEMENT_AU_PLUS_TARD a)
    (Sql.to_cell (Db.QUANTITE_DEMANDEE a)) (Sql.to_cell (Db.CUMUL_ENTREES a))
    (Sql.to_cell (Db.DUREE_PREVUE a)) (Sql.to_cell (Db.CUMUL_TEMPS_PASSES a))
    (Db.LANCE_LE a)
    None
    (Sql.COALESCE (Db.CATEGORIE a) sentinel_famille)
    (Sql.COALESCE (Db.CLIENT a) sentinel_client)
    (Some (Num (Sql.COALESCE (snd j) 0)))
    (Some "ACTIVE")
    (Some (if in_T_A (Db.STATUT a) then "COMPLETED" else "IN_PROGRESS"))
    (Some (Sql.to_cell (case_ratio (Db.CUMUL_ENTREES a) (Db.QUANTITE_DEMANDEE a))))
    (Some (Sql.to_cell (case_ratio (Db.CUMUL_TEMPS_PASSES a) (Db.DUREE_PREVUE a))))
    (Some (Sql.holds
             (Sql.and3 (Sql.gt (Db.DUREE_PREVUE a) (Some 0))
                       (Sql.gt (Db.CUMUL_TEMPS_PASSES a) (Db.DUREE_PREVUE a)))))
    None.

Definition select_histo (h : Db.row) : row :=
  mk_row (Db.NUMERO_OFDA h) (Db.PRODUIT h) (Some (Db.STATUT h))
    (Db.LANCEMENT_AU_PLUS_TARD h)
    (Sql.to_cell (Db.QUANTITE_DEMANDEE h)) (Sql.to_cell (Db.CUMUL_ENTREES h))
    (Sql.to_cell (Db.DUREE_PREVUE h)) (Sql.to_cell (Db.CUMUL_TEMPS_PASSES h))
    (Db.LANCE_LE h)
    (Db.DATE_CLOTURE h)
    (Sql.COALESCE (Db.CATEGORIE h) sentinel_famille)
    (Sql.COALESCE (Db.CLIENT h) sentinel_client)
    (Some (Sql.to_cell (case_ratio (Db.CUMUL_TEMPS_PASSES h) (Db.CUMUL_ENTREES h))))
    (Some "HISTORICAL")
    (Some "COMPLETED")
    (Some (Sql.to_cell (case_ratio (Db.CUMUL_ENTREES h) (Db.QUANTITE_DEMANDEE h))))
    (Some (Sql.to_cell (case_ratio (Db.CUMUL_TEMPS_PASSES h) (Db.DUREE_PREVUE h))))
    (Some false)
    None.

(** *** [WHERE] clauses appended for the truthy arguments *)

(** [if arg: query += " AND col = ?"] *)
Definition str_clause (arg : option string) (col : string) : bool :=
  if truthy_str arg then Sql.holds (Sql.eq_str (Some col) arg) else true.

(** [if date_debut: query += " AND col >= ?"]; a date argument is [None] when
    it is [None] or the empty string. *)
Definition debut_clause (arg : option date) (col : option date) : bool :=
  match arg with
  | Some d => Sql.holds (Sql.ge_date col d)
  | None => true
  end.

Definition fin_clause (arg : option date) (col : option date) : bool :=
  match arg with
  | Some d => Sql.holds (Sql.le_date col d)
  | None => true
  end.

(** [NUMERO_OFDA LIKE 'F%'] *)
Definition like_F (s : string) : bool := String.prefix "F" s.

(** *** [ORDER BY col DESC]

    NULL sorts below every date.  Rows with equal keys keep their relative
    order here; the database promises no order among them. *)

Definition date_leb (x y : option date) : bool :=
  match x, y with
  | None, _ => true
  | Some _, None => false
  | Some a, Some b => (a <=? b)%Z
  end.

Fixpoint insert_desc {A : Type} (k : A -> option date) (x : A) (l : list A) : list A :=
  match l with
  | [] => [x]
  | y :: t => if date_leb (k y) (k x) then x :: y :: t else y :: insert_desc k x t
  end.

Definition order_by_desc {A : Type} (k : A -> option date) (l : list A) : list A :=
  fold_right (insert_desc k) [] l.

(** *** The two statements

    [get_of_data] and [get_of_data_with_lance_le_filter] send the same
    statement over [OF_DA] up to the column their date clauses name, and so
    do the two historical functions over [HISTO_OF_DA]; [date_col] is that
    column. *)

Definition of_da_query (date_col : Db.row -> option date) (db : Db.database)
  (date_debut date_fin : option date)
  (statut_filter famille_filter client_filter : option string) : list row :=
  let joined := left_join (Db.OF_DA db) (hist_avg (Db.HISTO_OF_DA db)) in
  let kept :=
    filter (fun j =>
              let a := fst j in
              like_F (Db.NUMERO_OFDA a)
              && str_clause statut_filter (Db.STATUT a)
              && debut_clause date_debut (date_col a)
              && fin_clause date_fin (date_col a)
              && str_clause famille_filter (Sql.COALESCE (Db.CATEGORIE a) sentinel_famille)
              && str_clause client_filter (Sql.COALESCE (Db.CLIENT a) sentinel_client))
           joined in
  map select_active
      (order_by_desc (fun j => Db.LANCEMENT_AU_PLUS_TARD (fst j)) kept).

Definition histo_of_da_query (date_col : Db.row -> option date) (db : Db.database)
  (date_debut date_fin : option date)
  (famille_filter client_filter : option string) : list row :=
  let kept :=
    filter (fun h =>
              like_F (Db.NUMERO_OFDA h)
              && debut_clause date_debut (date_col h)
              && fin_clause date_fin (date_col h)
              && str_clause famille_filter (Sql.COALESCE (Db.CATEGORIE h) sentinel_famille)
              && str_clause client_filter (Sql.COALESCE (Db.CLIENT h) sentinel_client))
           (Db.HISTO_OF_DA db) in
  map select_histo (order_by_desc Db.LANCEMENT_AU_PLUS_TARD kept).

(** ** The analyzer object and the query layer *)

(** The attributes of [ExcaliburDataAnalyzer] that the embedded methods read
    or write: whether [self.connection] and [self.engine] are set, and whether
    the attribute [_sample_data_created] exists. *)
Record analyzer : Type := mk_analyzer {
  connection : bool;
  engine : bool;
  _sample_data_created : bool
}.

(** What the outside world does during one call of [execute_query]: whether
    [pd.read_sql] through the SQLAlchemy engine returns, whether
    [pyodbc.connect] succeeds and an engine can be created when [_connect]
    runs, whether [pd.read_sql] through the pyodbc connection returns, and
    whether it returns after the reconnection. *)
Record link : Type := mk_link {
  engine_read_ok : bool;
  connect_ok : bool;
  engine_ok : bool;
  conn_read_ok : bool;
  retry_read_ok : bool
}.

Definition _connect (lk : link) (self : analyzer) : analyzer :=
  if connect_ok lk
  then mk_analyzer true (engine_ok lk) (_sample_data_created self)
  else mk_analyzer false false (_sample_data_created self).

(** The pyodbc half of [execute_query]. *)
Definition execute_query_pyodbc (self : analyzer) (lk : link) (answer : DataFrame)
  : analyzer * DataFrame :=
  let self1 := if connection self then self else _connect lk self in
  if negb (connection self1) then (self1, [])
  else if conn_read_ok lk then (self1, answer)
  else
    let self2 := _connect lk self1 in
    if connection self2 && retry_read_ok lk then (self2, answer)
    else (self2, []).

(** [execute_query]: [answer] is the frame the statement evaluates to; every
    failure ends in [pd.DataFrame()], the empty frame. *)
Definition execute_query (self : analyzer) (lk : link) (answer : DataFrame)
  : analyzer * DataFrame :=
  if engine self then
    if engine_read_ok lk then (self, answer)
    else execute_query_pyodbc self lk answer
  else execute_query_pyodbc self lk answer.

(** ** Sample data *)

(** The clock and the random generator read by [_create_sample_data]:
    [rand i k] is the raw value behind the [k]-th draw of iteration [i]. *)
Record entropy : Type := mk_entropy {
  now : date;
  rand : nat -> nat -> Z
}.

Definition randint (a b r : Z) : Z := (a + r mod (b - a + 1))%Z.

Definition choice {A : Type} (l : list A) (d : A) (r : Z) : A :=
  nth (Z.to_nat (r mod Z.of_nat (List.length l))) l d.

Definition decimal (n : nat) : string := NilZero.string_of_uint (Nat.to_uint n).

(** The format [0Nd]. *)
Definition zfill (width : nat) (s : string) : string :=
  String.concat "" (repeat "0" (width - String.length s)) ++ s.

Definition familles : list string :=
  ["Mécanique"; "Électronique"; "Assemblage"; "Usinage"; "Soudure"].

Definition clients : list string :=
  ["Client A"; "Client B"; "Client C"; "Client D"; "Client E"].

Definition statuts : list string := ["C"; "T"; "A"].

Definition sample_record (e : entropy) (i : nat) : row :=
  let days_offset := randint (-180) 30 (rand e i 0%nat) in
  let launch_date := (now e + days_offset)%Z in
  let quantite_demandee := randint 10 1000 (rand e i 1%nat) in
  let cumul_entrees := randint 0 quantite_demandee (rand e i 2%nat) in
  let duree_prevue := randint 10 200 (rand e i 3%nat) in
  let cumul_temps_passes := randint 0 (3 * duree_prevue / 2) (rand e i 4%nat) in
  mk_row ("F" ++ zfill 4 (decimal (1000 + i)))
    (Some ("PROD_" ++ zfill 3 (decimal i)))
    (Some (choice statuts "C" (rand e i 5%nat)))
    (Some launch_date)
    (Num (inject_Z quantite_demandee)) (Num (inject_Z cumul_entrees))
    (Num (inject_Z duree_prevue)) (Num (inject_Z cumul_temps_passes))
    (Some launch_date)
    (if choice [true; false] true (rand e i 7%nat)
     then Some (now e + days_offset + randint 30 60 (rand e i 8%nat))%Z
     else None)
    (choice familles "" (rand e i 9%nat))
    (choice clients "" (rand e i 10%nat))
    None None None None None None None.

Definition _create_sample_data (e : entropy) : DataFrame :=
  map (sample_record e) (seq 0 50).

(** ** [get_of_data] *)

(** Lines 291-307: the filters applied to the sample frame. *)
Definition sample_filters (date_debut date_fin : option date)
  (statut_filter famille_filter client_filter : option string)
  (df : DataFrame) : DataFrame :=
  let df := if truthy_str statut_filter
            then filter (fun r => opt_str_eqb (STATUT r) statut_filter) df
            else df in
  let df := if truthy_str famille_filter
            then filter (fun r => opt_str_eqb (Some (FAMILLE_TECHNIQUE r)) famille_filter) df
            else df in
  let df := if truthy_str client_filter
            then filter (fun r => opt_str_eqb (Some (CLIENT r)) client_filter) df
            else df in
  let df := match date_debut with
            | Some d => filter (fun r => match LANCEMENT_AU_PLUS_TARD r with
                                         | Some a => (d <=? a)%Z
                                         | None => false
                                         end) df
            | None => df
            end in
  match date_fin with
  | Some d => filter (fun r => match LANCEMENT_AU_PLUS_TARD r with
                               | Some a => (a <=? d)%Z
                               | None => false
                               end) df
  | None => df
  end.

(** [lambda row: num / den if den and den != 0 else 0] *)
Definition ratio_lambda (num den : cell) : outcome cell :=
  if truthy den && ne_zero den then div num den else Ok (Num 0).

(** [lambda row: row['Avancement_PROD'] / row['Avancement_temps']
     if row['Avancement_temps'] and row['Avancement_temps'] != 0 else 1.0] *)
Definition efficacite_lambda (r : row) : outcome cell :=
  t <- getitem (Avancement_temps r) ;;
  if truthy t && ne_zero t
  then p <- getitem (Avancement_PROD r) ;; div p t
  else Ok (Num 1).

(** [df[col] = df.apply(f, axis=1)] *)
Definition assign {A : Type} (set : row -> A -> row) (f : row -> outcome A)
  (df : DataFrame) : outcome DataFrame :=
  mapM (fun r => v <- f r ;; Ok (set r v)) df.

(** [if 'DATA_SOURCE' not in df.columns: df['DATA_SOURCE'] = 'ACTIVE'] *)
Definition default_DATA_SOURCE (r : row) : row :=
  match DATA_SOURCE r with
  | None => set_DATA_SOURCE r "ACTIVE"
  | Some _ => r
  end.

(** [if 'COMPLETION_STATUS' not in df.columns:
       df['COMPLETION_STATUS'] = df['STATUT'].apply(
           lambda x: 'COMPLETED' if x in ['T', 'A'] else 'IN_PROGRESS')] *)
Definition default_COMPLETION_STATUS (r : row) : row :=
  match COMPLETION_STATUS r with
  | None => set_COMPLETION_STATUS r
              (if status_in_T_A (STATUT r) then "COMPLETED" else "IN_PROGRESS")
  | Some _ => r
  end.

Arguments default_DATA_SOURCE : simpl never.
Arguments default_COMPLETION_STATUS : simpl never.

(** Lines 309-346: the block run on a non-empty frame. *)
Definition calculated_columns (alerte_filter : option bool) (df : DataFrame)
  : outcome DataFrame :=
  df <- assign set_Avancement_PROD
          (fun r => ratio_lambda (CUMUL_ENTREES r) (QUANTITE_DEMANDEE r)) df ;;
  df <- assign set_Avancement_temps
          (fun r => ratio_lambda (CUMUL_TEMPS_PASSES r) (DUREE_PREVUE r)) df ;;
  df <- assign set_Alerte_temps
          (fun r => t <- getitem (Avancement_temps r) ;;
                    p <- getitem (Avancement_PROD r) ;;
                    gt t p) df ;;
  let df := map default_DATA_SOURCE df in
  let df := map default_COMPLETION_STATUS df in
  let df := match alerte_filter with
            | Some true => filter (fun r => match Alerte_temps r with
                                            | Some b => b
                                            | None => false
                                            end) df
            | _ => df
            end in
  assign set_EFFICACITE efficacite_lambda df.

Definition get_of_data (self : analyzer) (lk : link) (db : Db.database)
  (e : entropy) (date_debut date_fin : option date)
  (statut_filter famille_filter client_filter : option string)
  (alerte_filter : option bool) : analyzer * outcome DataFrame :=
  let '(self, df) :=
    execute_query self lk
      (read_sql (of_da_query Db.LANCEMENT_AU_PLUS_TARD db date_debut date_fin
                   statut_filter famille_filter client_filter)) in
  let '(self, df) :=
    if empty df && negb (_sample_data_created self)
    then (mk_analyzer (connection self) (engine self) true,
          sample_filters date_debut date_fin statut_filter famille_filter
            client_filter (_create_sample_data e))
    else (self, df) in
  (self, if negb (empty df) then calculated_columns alerte_filter df else Ok df).

(** ** The other retrieval functions *)

Definition get_histo_of_data (self : analyzer) (lk : link) (db : Db.database)
  (date_debut date_fin : option date)
  (famille_filter client_filter : option string) : analyzer * DataFrame :=
  execute_query self lk
    (read_sql (histo_of_da_query Db.DATE_CLOTURE db date_debut date_fin
                 famille_filter client_filter)).

(** [df[df['Alerte_temps'] == v]]; the statement always selects the column. *)
Definition alerte_is (v : bool) (r : row) : bool :=
  match Alerte_temps r with
  | Some b => Bool.eqb b v
  | None => false
  end.

Definition get_of_data_with_lance_le_filter (self : analyzer) (lk : link)
  (db : Db.database) (date_debut date_fin : option date)
  (statut_filter famille_filter client_filter : option string)
  (alerte_filter : option bool) : analyzer * DataFrame :=
  let '(self, df) :=
    execute_query self lk
      (read_sql (of_da_query Db.LANCE_LE db date_debut date_fin
                   statut_filter famille_filter client_filter)) in
  if empty df then (self, [])
  else
    (self,
     match alerte_filter with
     | Some true => filter (alerte_is true) df
     | Some false => filter (alerte_is false) df
     | None => df
     end).

Definition get_histo_of_data_with_lance_le_filter (self : analyzer) (lk : link)
  (db : Db.database) (date_debut date_fin : option date)
  (famille_filter client_filter : option string) : analyzer * DataFrame :=
  execute_query self lk
    (read_sql (histo_of_da_query Db.LANCE_LE db date_debut date_fin
                 famille_filter client_filter)).

(** [get_combined_of_data]; [lk_active] and [lk_histo] are the states of the
    link during its two queries.  [pd.concat] of two frames with the same
    columns appends the rows of the second to those of the first. *)
Definition get_combined_of_data (self : analyzer) (lk_active lk_histo : link)
  (db : Db.database) (date_debut date_fin : option date)
  (statut_filter famille_filter client_filter : option string)
  (alerte_filter : option bool) (include_historical : bool)
  : analyzer * DataFrame :=
  let '(self, active_data) :=
    get_of_data_with_lance_le_filter self lk_active db date_debut date_fin
      statut_filter famille_filter client_filter alerte_filter in
  if negb include_historical then (self, active_data)
  else
    let '(self, historical_data) :=
      get_histo_of_data_with_lance_le_filter self lk_histo db date_debut
        date_fin famille_filter client_filter in
    (self,
     if negb (empty active_data) && negb (empty historical_data)
     then (active_data ++ historical_data)%list
     else if negb (empty active_data) then active_data
     else if negb (empty historical_data) then historical_data
     else []).

(** ** The status aggregator of the dashboard controller *)

(** The dictionary returned by [_get_status_distribution]: [{}] or the three
    entries "counts", "percentages" and "total".  A Python dictionary is kept
    as an association list with one entry per key.  [total] is [len(data)]
    and counts the rows without status as well. *)
Inductive status_distribution : Type :=
| EmptyDict
| Distribution (counts : list (string * nat)) (percentages : list (string * Q))
    (total : nat).

(** The statuses that [value_counts()] sees: it leaves out the rows whose
    status is missing ([dropna=True]). *)
Definition observed (data : DataFrame) : list string :=
  Sql.somes (map STATUT data).

Definition count_status (s : string) (data : DataFrame) : nat :=
  count_occ string_dec (observed data) s.

(** [data['STATUT'].value_counts().to_dict()] *)
Definition value_counts (data : DataFrame) : list (string * nat) :=
  map (fun s => (s, count_status s data)) (nodup string_dec (observed data)).

Definition percentage (count total : nat) : Q :=
  inject_Z (Z.of_nat count) / inject_Z (Z.of_nat total) * 100.

Definition _get_status_distribution (data : DataFrame) : status_distribution :=
  if empty data then EmptyDict
  else
    let status_counts := value_counts data in
    let total := List.length data in
    let status_percentages :=
      map (fun sc => (fst sc, percentage (snd sc) total)) status_counts in
    Distribution status_counts status_percentages total.



(** ** Row-wise reading of [calculated_columns]

    What lines 309-346 do to one row that survives the alert filter. *)
Definition calc_row (r0 : row) : outcome row :=
  v1 <- ratio_lambda (CUMUL_ENTREES r0) (QUANTITE_DEMANDEE r0) ;;
  let r1 := set_Avancement_PROD r0 v1 in
  v2 <- ratio_lambda (CUMUL_TEMPS_PASSES r1) (DUREE_PREVUE r1) ;;
  let r2 := set_Avancement_temps r1 v2 in
  v3 <- (t <- getitem (Avancement_temps r2) ;;
         p <- getitem (Avancement_PROD r2) ;;
         gt t p) ;;
  let r3 := set_Alerte_temps r2 v3 in
  let r5 := default_COMPLETION_STATUS (default_DATA_SOURCE r3) in
  v6 <- efficacite_lambda r5 ;;
  Ok (set_EFFICACITE r5 v6).

(** ** Vocabulary of the specification *)

(** The division policy of the specification:
    [safe_div(num, den) = num/den if den not null and den != 0 else 0],
    over numbers. *)
Definition safe_div (num : Q) (den : cell) : Q :=
  match den with
  | Num d => if Qeq_bool d 0 then 0 else num / d
  | _ => 0
  end.

(** "time_alert = true when planned_duration > 0 AND time_spent >
    planned_duration" *)
Definition time_overrun (planned spent : Q) : bool :=
  Qgt_bool planned 0 && Qgt_bool spent planned.

Definition is_positive (x : option Q) : bool :=
  match x with
  | Some q => Qgt_bool q 0
  | None => false
  end.

(** The historical rows of the pair [(p, c)] "with both time_spent > 0 and
    quantity_produced > 0". *)
Definition qualifies (p c : string) (h : Db.row) : bool :=
  opt_str_eqb (Db.PRODUIT h) (Some p)
  && opt_str_eqb (Db.CATEGORIE h) (Some c)
  && is_positive (Db.CUMUL_ENTREES h)
  && is_positive (Db.CUMUL_TEMPS_PASSES h).

(** [time_spent / quantity_produced] *)
Definition unit_time (h : Db.row) : Q :=
  match Db.CUMUL_TEMPS_PASSES h, Db.CUMUL_ENTREES h with
  | Some t, Some q => t / q
  | _, _ => 0
  end.

(** The baseline in the words of the specification: the mean over the
    qualifying rows, and 0 when there is none. *)
Definition avg_unit_time (p c : string) (HISTO : list Db.row) : Q :=
  match filter (qualifies p c) HISTO with
  | [] => 0
  | h :: hs => Sql.mean (map unit_time (h :: hs))
  end.

(** The column is present and holds the number [q]. *)
Definition has (col : option cell) (q : Q) : Prop :=
  match col with
  | Some (Num x) => x == q
  | _ => False
  end.

(** "sorted descending by launch_deadline" *)
Definition sorted_desc (df : DataFrame) : Prop :=
  StronglySorted (fun x y => date_leb y x = true) (map LANCEMENT_AU_PLUS_TARD df).

(** The rows of [df] all come from [source]: same order number as one of
    its rows. *)
Definition rows_from (source df : DataFrame) : Prop :=
  forall r, In r df -> In (NUMERO_OFDA r) (map NUMERO_OFDA source).

(** ** Concrete tables and surroundings used below *)

Definition link_up : link := mk_link true true true true true.
Definition link_down : link := mk_link false false false false false.
Definition fresh : analyzer := mk_analyzer true true false.
Definition entropy0 : entropy := mk_entropy 0%Z (fun _ _ => 0%Z).

Definition order (numero : string) (deadline launch : Z)
  (quantite entrees duree temps : option Q) : Db.row :=
  Db.mk_row numero (Some "P1") "C" (Some deadline) quantite entrees duree temps
    (Some launch) None (Some "USINAGE") (Some "ACME").

Definition archived (numero : string) (deadline launch closure : Z)
  (quantite entrees duree temps : option Q) : Db.row :=
  Db.mk_row numero (Some "P1") "T" (Some deadline) quantite entrees duree temps
    (Some launch) (Some closure) (Some "USINAGE") (Some "ACME").

(** Scenario A of the specification: one active row with
    quantity_requested=100, quantity_produced=50, planned_duration=10,
    time_spent=10. *)
Definition scenario_A : Db.database :=
  Db.mk_database [order "F0001" 100 90 (Some 100) (Some 50) (Some 10) (Some 10)] [].

(** Two active rows, the first with a NULL requested quantity. *)
Definition null_denominator : Db.database :=
  Db.mk_database
    [order "F0001" 100 90 None (Some 5) (Some 10) (Some 4);
     order "F0002" 100 90 (Some 100) (Some 50) (Some 10) (Some 10)] [].

(** One active row with a NULL requested quantity: the column holds
    nothing else. *)
Definition lone_null_denominator : Db.database :=
  Db.mk_database [order "F0001" 100 90 None (Some 5) (Some 10) (Some 4)] [].

(** Deadline and launch dates, and closure and launch dates, diverge. *)
Definition diverging_dates : Db.database :=
  Db.mk_database
    [order "F0001" 10 50 (Some 100) (Some 50) (Some 10) (Some 10);
     order "F0002" 50 10 (Some 100) (Some 50) (Some 10) (Some 10)]
    [archived "F0003" 30 50 10 (Some 100) (Some 100) (Some 10) (Some 10);
     archived "F0004" 30 10 50 (Some 100) (Some 100) (Some 10) (Some 10)].

(** One alerted row (12 hours spent for 10 planned), one that is not. *)
Definition one_alert : Db.database :=
  Db.mk_database
    [order "F0001" 100 90 (Some 100) (Some 50) (Some 10) (Some 12);
     order "F0002" 100 90 (Some 100) (Some 50) (Some 10) (Some 4)] [].

(** An active order due on day 5, an archived one due on day 10. *)
Definition later_history : Db.database :=
  Db.mk_database
    [order "F0001" 5 1 (Some 100) (Some 50) (Some 10) (Some 10)]
    [archived "F0002" 10 1 20 (Some 100) (Some 100) (Some 10) (Some 10)].

(** An archived order that took 30 hours for 10 planned. *)
Definition late_history : Db.database :=
  Db.mk_database []
    [archived "F0002" 10 1 20 (Some 100) (Some 100) (Some 10) (Some 30)].

(** History of product P1 in family USINAGE: 2 and 4 hours per unit, and a
    row with nothing produced. *)
Definition with_history : Db.database :=
  Db.mk_database
    [order "F0001" 100 90 (Some 100) (Some 50) (Some 10) (Some 10)]
    [archived "F0002" 10 1 20 (Some 10) (Some 10) (Some 10) (Some 20);
     archived "F0003" 10 1 20 (Some 10) (Some 5) (Some 10) (Some 20);
     archived "F0004" 10 1 20 (Some 10) (Some 0) (Some 10) (Some 20)].

(** The row that [get_of_data] returns for scenario A. *)
Definition scenario_A_row : row :=
  mk_row "F0001" (Some "P1") (Some "C") (Some 100%Z)
    (Num 100) (Num 50) (Num 10) (Num 10) (Some 90%Z) None "USINAGE" "ACME"
    (Some (Num 0)) (Some "ACTIVE") (Some "IN_PROGRESS")
    (Some (Num (50 / 100))) (Some (Num (10 / 10))) (Some true)
    (Some (Num ((50 / 100) / (10 / 10)))).

(** The row that [get_histo_of_data] returns for [late_history]. *)
Definition late_history_row : row :=
  mk_row "F0002" (Some "P1") (Some "T") (Some 10%Z)
    (Num 100) (Num 100) (Num 10) (Num 30) (Some 1%Z) (Some 20%Z)
    "USINAGE" "ACME"
    (Some (Num (30 / 100))) (Some "HISTORICAL") (Some "COMPLETED")
    (Some (Num (100 / 100))) (Some (Num (30 / 10))) (Some false) None.

(** The first row of a frame, and the frame of an outcome. *)
Definition first_row (df : DataFrame) : row := hd scenario_A_row df.

Definition frame_or_empty (o : outcome DataFrame) : DataFrame :=
  match o with
  | Ok df => df
  | Raise _ => []
  end.

(** An analyzer whose connection could not be established. *)
Definition offline : analyzer := mk_analyzer false false false.

(** An analyzer without connection that has created sample data before. *)
Definition offline_again : analyzer := mk_analyzer false false true.

(** Claim C2 as stated: whatever the query layer did, when it hands back no
    row the frame returned by [get_of_data] holds only rows handed back by
    the query layer. *)
Definition never_synthetic : Prop :=
  forall (self : analyzer) (lk : link) (db : Db.database) (e : entropy)
         (date_debut date_fin : option date)
         (statut_filter famille_filter client_filter : option string)
         (alerte_filter : option bool) (df : DataFrame),
    let obtained :=
      snd (execute_query self lk
             (read_sql (of_da_query Db.LANCEMENT_AU_PLUS_TARD db date_debut
                          date_fin statut_filter famille_filter client_filter))) in
    obtained = [] ->
    snd (get_of_data self lk db e date_debut date_fin statut_filter
           famille_filter client_filter alerte_filter) = Ok df ->
    rows_from obtained df.



Definition frame_of (db : Db.database) : DataFrame :=
  read_sql (of_da_query Db.LANCEMENT_AU_PLUS_TARD db None None None None None).

(** [get_of_data()] with no argument, under [entropy0]. *)
Definition get_of_data_all (self : analyzer) (lk : link) (db : Db.database)
  : analyzer * outcome DataFrame :=
  get_of_data self lk db entropy0 None None None None None None.

(** [a] may stand before [b] in a descending order on the key [k]. *)
Definition before {A : Type} (k : A -> option date) (a b : A) : Prop :=
  date_leb (k b) (k a) = true.

(** ** Further functions of the analyzer *)

(** The condition under which [execute_query] hands back the frame of its
    statement, read off its branches: the engine read succeeds, or a pyodbc
    connection exists or can be made and the read succeeds at once or after
    one reconnection. *)
Definition delivers (self : analyzer) (lk : link) : bool :=
  (engine self && engine_read_ok lk)
  || ((connection self || connect_ok lk)
      && (conn_read_ok lk || (connect_ok lk && retry_read_ok lk))).

(** [get_comprehensive_of_data]: [famille_filter], [client_filter] and
    [alerte_filter] keep their default [None]. *)
Definition get_comprehensive_of_data (self : analyzer) (lk_active lk_histo : link)
  (db : Db.database) (date_debut date_fin : option date)
  (statut_filter : option string) (include_historical : bool)
  : analyzer * DataFrame :=
  get_combined_of_data self lk_active lk_histo db date_debut date_fin
    statut_filter None None None include_historical.

(** [get_charge_data], [get_backlog_data] and [get_personnel_data] build
    frames with three columns and no row. *)
Definition get_charge_data : list (string * Q * Q) := [].
Definition get_backlog_data : list (string * string * date) := [].
Definition get_personnel_data : list (string * string * string) := [].

Module Dashboard.
Record t : Type := mk {
  main_of_data : DataFrame;
  charge_data : list (string * Q * Q);
  backlog_data : list (string * string * date);
  personnel_data : list (string * string * string)
}.
End Dashboard.

Definition get_dashboard_data (self : analyzer) (lk_active lk_histo : link)
  (db : Db.database) (date_debut date_fin : option date)
  (statut_filter : option string) : analyzer * Dashboard.t :=
  let '(self, main_of_data) :=
    get_comprehensive_of_data self lk_active lk_histo db date_debut date_fin
      statut_filter true in
  (self,
   Dashboard.mk main_of_data get_charge_data get_backlog_data get_personnel_data).

(** ** Reading the statements and the lambdas row by row *)

(** [ratio_lambda] divides [None]: the denominator passes the guard and the
    numerator is [None]. *)
Definition none_over (num den : cell) : bool :=
  truthy den && ne_zero den
  && match num with
     | PyNone => true
     | _ => false
     end.

Definition divides_none (r : row) : bool :=
  none_over (CUMUL_ENTREES r) (QUANTITE_DEMANDEE r)
  || none_over (CUMUL_TEMPS_PASSES r) (DUREE_PREVUE r).

(** The [WHERE] clause of the statement over [OF_DA]. *)
Definition of_da_where (date_col : Db.row -> option date)
  (date_debut date_fin : option date)
  (statut_filter famille_filter client_filter : option string) (a : Db.row) : bool :=
  like_F (Db.NUMERO_OFDA a)
  && str_clause statut_filter (Db.STATUT a)
  && debut_clause date_debut (date_col a)
  && fin_clause date_fin (date_col a)
  && str_clause famille_filter (Sql.COALESCE (Db.CATEGORIE a) sentinel_famille)
  && str_clause client_filter (Sql.COALESCE (Db.CLIENT a) sentinel_client).

(** The value that the join with [hist_avg] attaches to the order [a]. *)
Definition hist_avg_of (HISTO : list Db.row) (a : Db.row) : option Q :=
  match filter (on_clause a) (hist_avg HISTO) with
  | [] => None
  | g :: _ => snd g
  end.

(** The [CASE] expression of the progress columns read on the cells of a
    frame: [None] is a missing value. *)
Definition statement_ratio (num den : cell) : option Q :=
  match den with
  | Num d =>
      if Qgt_bool d 0
      then match num with
           | Num n => Some (n / d)
           | _ => None
           end
      else Some 0
  | _ => Some 0
  end.

(** A column value agrees with an optional number: the number, or a missing
    value. *)
Definition agrees (col : option cell) (v : option Q) : Prop :=
  match col, v with
  | Some (Num x), Some q => x = q
  | Some c, None => isna c = true
  | _, _ => False
  end.

(** ** Further functions of the dashboard controller *)

(** ['col' in data.columns].  A frame made by [pd.concat] has a column as soon
    as one of its parts has it; the rows of the other part hold [nan] there. *)
Definition in_columns {A : Type} (col : row -> option A) (data : DataFrame) : bool :=
  existsb (fun r => match col r with Some _ => true | None => false end) data.

Definition cell_of (col : option cell) : cell :=
  match col with
  | Some c => c
  | None => NaN
  end.

(** Element-wise comparison of a column with a number: [False] on a missing
    value. *)
Definition lt_scalar (c : cell) (q : Q) : bool :=
  match c with
  | Num x => Qgt_bool q x
  | _ => false
  end.

Definition gt_scalar (c : cell) (q : Q) : bool :=
  match c with
  | Num x => Qgt_bool x q
  | _ => false
  end.

Definition le_scalar (c : cell) (q : Q) : bool :=
  match c with
  | Num x => Qle_bool x q
  | _ => false
  end.

(** The numbers of a column; [Series.sum] and [Series.mean] skip the missing
    values. *)
Fixpoint numbers (col : list cell) : list Q :=
  match col with
  | [] => []
  | Num q :: t => q :: numbers t
  | _ :: t => numbers t
  end.

Definition series_sum (col : list cell) : Q := Sql.Qsum (numbers col).

Definition series_mean (col : list cell) : cell :=
  match numbers col with
  | [] => NaN
  | q :: qs => Num (Sql.mean (q :: qs))
  end.

Definition times_100 (c : cell) : cell :=
  match c with
  | Num q => Num (q * 100)
  | other => other
  end.

(** [len(data[data[col] == v])] on a column of strings. *)
Definition count_eq (col : row -> option string) (v : string) (data : DataFrame) : nat :=
  List.length (filter (fun r => opt_str_eqb (col r) (Some v)) data).

(** [data['Alerte_temps'] == 1] *)
Definition alerted (r : row) : bool :=
  match Alerte_temps r with
  | Some b => b
  | None => false
  end.

Module Kpis.
Record t : Type := mk {
  total_orders : nat;
  active_orders : nat;
  historical_orders : nat;
  completed_orders : nat;
  completion_rate : Q;
  total_quantity_demanded : Q;
  total_quantity_produced : Q;
  production_rate : Q;
  avg_advancement : cell;
  avg_unit_time : cell;
  total_time_spent : Q;
  alerts_count : nat;
  alert_rate : Q
}.
End Kpis.

(** [_calculate_overview_kpis]; [None] is the dictionary [{}].  The columns
    QUANTITE_DEMANDEE, CUMUL_ENTREES and CUMUL_TEMPS_PASSES are in every
    frame, so the tests on them succeed. *)
Definition _calculate_overview_kpis (data : DataFrame) : option Kpis.t :=
  if empty data then None
  else
    let total_orders := List.length data in
    let active_orders :=
      if in_columns DATA_SOURCE data then count_eq DATA_SOURCE "ACTIVE" data else 0%nat in
    let historical_orders :=
      if in_columns DATA_SOURCE data then count_eq DATA_SOURCE "HISTORICAL" data else 0%nat in
    let completed_orders :=
      if in_columns COMPLETION_STATUS data
      then count_eq COMPLETION_STATUS "COMPLETED" data else 0%nat in
    let total_quantity_demanded := series_sum (map QUANTITE_DEMANDEE data) in
    let total_quantity_produced := series_sum (map CUMUL_ENTREES data) in
    let avg_advancement :=
      if in_columns Avancement_PROD data
      then times_100 (series_mean (map (fun r => cell_of (Avancement_PROD r)) data))
      else Num 0 in
    let avg_unit_time :=
      if in_columns TEMPS_UNITAIRE_HISTORIQUE data
      then series_mean (map (fun r => cell_of (TEMPS_UNITAIRE_HISTORIQUE r)) data)
      else Num 0 in
    let total_time_spent := series_sum (map CUMUL_TEMPS_PASSES data) in
    let alerts_count :=
      if in_columns Alerte_temps data
      then List.length (filter alerted data) else 0%nat in
    Some (Kpis.mk total_orders active_orders historical_orders completed_orders
            (if (0 <? total_orders)%nat
             then percentage completed_orders total_orders else 0)
            total_quantity_demanded total_quantity_produced
            (if Qgt_bool total_quantity_demanded 0
             then total_quantity_produced / total_quantity_demanded * 100 else 0)
            avg_advancement avg_unit_time total_time_spent alerts_count
            (if (0 <? total_orders)%nat
             then percentage alerts_count total_orders else 0)).

Module Activity.
Record t : Type := mk {
  NUMERO_OFDA : string;
  PRODUIT : option string;
  STATUT : option string;
  LANCEMENT_AU_PLUS_TARD : option date;
  Avancement_PROD : cell
}.
End Activity.

(** [_get_recent_activity]: the ten rows with the latest deadlines, rows
    without deadline last.  Every frame has the deadline column, so the guard
    on it is the one on [data.empty]; rows with equal deadlines keep their
    relative order, which [sort_values] does not promise.  Selecting a column
    the frame lacks raises [KeyError]. *)
Definition _get_recent_activity (data : DataFrame) : outcome (list Activity.t) :=
  if empty data then Ok []
  else
    let recent_data := firstn 10 (order_by_desc LANCEMENT_AU_PLUS_TARD data) in
    if in_columns Avancement_PROD data
    then Ok (map (fun r => Activity.mk (NUMERO_OFDA r) (PRODUIT r) (STATUT r)
                             (LANCEMENT_AU_PLUS_TARD r) (cell_of (Avancement_PROD r)))
               recent_data)
    else Raise KeyError.

Module Alert.
Record t : Type := mk {
  type : string;
  severity : string;
  count : nat;
  message : string
}.
End Alert.

Definition low_advancement (r : row) : bool :=
  lt_scalar (cell_of (Avancement_PROD r)) (3 # 10).

Definition _get_overview_alerts (data : DataFrame) : list Alert.t :=
  if empty data then []
  else
    let alerts := [] in
    let alerts :=
      if in_columns Alerte_temps data then
        let time_alerts := filter alerted data in
        if negb (empty time_alerts)
        then (alerts ++
              [Alert.mk "time_overrun" "warning" (List.length time_alerts)
                 (decimal (List.length time_alerts)
                  ++ " commandes dépassent le temps prévu")])%list
        else alerts
      else alerts in
    if in_columns Avancement_PROD data then
      let low := filter low_advancement data in
      if negb (empty low)
      then (alerts ++
            [Alert.mk "low_advancement" "info" (List.length low)
               (decimal (List.length low)
                ++ " commandes avec avancement faible (<30%)")])%list
      else alerts
    else alerts.

(** *** [get_dynamic_statuses] *)

(** [execute_query] on a statement whose frame has other columns than the
    order frames: the same branches over any row type. *)
Definition execute_query_pyodbc_on {A : Type} (self : analyzer) (lk : link)
  (answer : list A) : analyzer * list A :=
  let self1 := if connection self then self else _connect lk self in
  if negb (connection self1) then (self1, [])
  else if conn_read_ok lk then (self1, answer)
  else
    let self2 := _connect lk self1 in
    if connection self2 && retry_read_ok lk then (self2, answer)
    else (self2, []).

Definition execute_query_on {A : Type} (self : analyzer) (lk : link)
  (answer : list A) : analyzer * list A :=
  if engine self then
    if engine_read_ok lk then (self, answer)
    else execute_query_pyodbc_on self lk answer
  else execute_query_pyodbc_on self lk answer.





Module Statuses.
Record t : Type := mk {
  active_statuses : list string;
  historical_statuses : list string;
  all_statuses : list string;
  status_descriptions : list (string * string)
}.
End Statuses.


(** *** Distributions of progress and of efficiency *)

Module Buckets.
Record t : Type := mk {
  first : nat;
  second : nat;
  third : nat;
  fourth : nat
}.
Definition total (b : t) : nat := (first b + second b + third b + fourth b)%nat.
End Buckets.

Module Advancement.
Record current : Type := mk_current {
  avg_production_advancement : option cell;
  production_advancement_distribution : option Buckets.t;
  avg_time_advancement : option cell
}.
Record historical : Type := mk_historical {
  completion_rate : Q;
  total_completed : nat;
  avg_unit_time : option cell
}.
Record t : Type := mk {
  current_metrics : current;
  historical_metrics : option historical
}.
End Advancement.

Definition count_where (p : cell -> bool) (col : list cell) : nat :=
  List.length (filter p col).

(** The keys "0-25%", "25-50%", "50-75%" and "75-100%". *)
Definition production_advancement_distribution (col : list cell) : Buckets.t :=
  Buckets.mk
    (count_where (fun c => le_scalar c (25 # 100)) col)
    (count_where (fun c => gt_scalar c (25 # 100) && le_scalar c (5 # 10)) col)
    (count_where (fun c => gt_scalar c (5 # 10) && le_scalar c (75 # 100)) col)
    (count_where (fun c => gt_scalar c (75 # 100)) col).

(** [_calculate_advancement_metrics]; an entry of "current_metrics" that is
    not set is [None], and the entry "comparison" stays empty. *)
Definition _calculate_advancement_metrics (current_data historical_data : DataFrame)
  : Advancement.t :=
  Advancement.mk
    (if negb (empty current_data) then
       let prod := map (fun r => cell_of (Avancement_PROD r)) current_data in
       Advancement.mk_current
         (if in_columns Avancement_PROD current_data
          then Some (times_100 (series_mean prod)) else None)
         (if in_columns Avancement_PROD current_data
          then Some (production_advancement_distribution prod) else None)
         (if in_columns Avancement_temps current_data
          then Some (times_100
                       (series_mean
                          (map (fun r => cell_of (Avancement_temps r))
                               current_data)))
          else None)
     else Advancement.mk_current None None None)
    (if negb (empty historical_data) then
       Some (Advancement.mk_historical 100 (List.length historical_data)
               (if in_columns TEMPS_UNITAIRE_HISTORIQUE historical_data
                then Some (series_mean
                             (map (fun r => cell_of (TEMPS_UNITAIRE_HISTORIQUE r))
                                  historical_data))
                else None))
     else None).

(** The rows kept for the efficiency ratio:
    [(Avancement_temps > 0) & Avancement_PROD.notna() & Avancement_temps.notna()],
    and their ratio [Avancement_PROD / Avancement_temps]. *)
Definition efficiency_row (r : row) : bool :=
  gt_scalar (cell_of (Avancement_temps r)) 0
  && negb (isna (cell_of (Avancement_PROD r)))
  && negb (isna (cell_of (Avancement_temps r))).

Definition efficiency_ratio (r : row) : Q :=
  match cell_of (Avancement_PROD r), cell_of (Avancement_temps r) with
  | Num p, Num t => p / t
  | _, _ => 0
  end.

(** The keys "below_50%", "50-80%", "80-100%" and "above_100%". *)
Definition efficiency_distribution (ratios : list Q) : Buckets.t :=
  Buckets.mk
    (List.length (filter (fun x => Qgt_bool (5 # 10) x) ratios))
    (List.length (filter (fun x => Qle_bool (5 # 10) x && Qgt_bool (8 # 10) x) ratios))
    (List.length (filter (fun x => Qle_bool (8 # 10) x && Qle_bool x 1) ratios))
    (List.length (filter (fun x => Qgt_bool x 1) ratios)).

Module Efficiency.
Record current : Type := mk_current {
  avg_efficiency : Q;
  efficiency_distribution : Buckets.t
}.
Record historical : Type := mk_historical {
  completion_rate : Q;
  note : string
}.
Record t : Type := mk {
  current_efficiency : option current;
  historical_efficiency : option historical
}.
End Efficiency.

(** [_get_efficiency_trends]; the entry "trends" stays empty. *)
Definition _get_efficiency_trends (current_data historical_data : DataFrame)
  : Efficiency.t :=
  Efficiency.mk
    (if negb (empty current_data)
        && in_columns Avancement_PROD current_data
        && in_columns Avancement_temps current_data
     then
       let efficiency_data := filter efficiency_row current_data in
       if negb (empty efficiency_data)
       then
         let ratios := map efficiency_ratio efficiency_data in
         Some (Efficiency.mk_current (Sql.mean ratios) (efficiency_distribution ratios))
       else None
     else None)
    (if negb (empty historical_data)
     then Some (Efficiency.mk_historical 100
                  "All historical records are completed orders")
     else None).

(** ** The order controller *)

(** What a controller method hands to its caller: its dictionary, or the
    [Exception] it raises in place of the one caught, whose message starts
    with [context] and goes on with the text of [cause]. *)
Inductive response (A : Type) : Type :=
| Done (a : A)
| Failed (context : string) (cause : exn).

Arguments Done {A} a.
Arguments Failed {A} context cause.

Definition wrap {A B : Type} (context : string) (f : A -> B) (o : outcome A)
  : response B :=
  match o with
  | Ok a => Done (f a)
  | Raise e => Failed context e
  end.

Module OfList.
Record t : Type := mk {
  of_list : list row;
  count : nat
}.
End OfList.

(** [get_of_en_cours]: the status defaults to ['C'] when it [is None]. *)
Definition get_of_en_cours (self : analyzer) (lk : link) (db : Db.database)
  (e : entropy) (date_debut date_fin : option date)
  (statut_filter famille_filter client_filter : option string)
  : analyzer * response OfList.t :=
  let statut_filter :=
    match statut_filter with
    | None => Some "C"
    | Some s => Some s
    end in
  let '(self, of_data) :=
    get_of_data self lk db e date_debut date_fin statut_filter famille_filter
      client_filter None in
  (self,
   wrap "Error getting OF en cours: "
     (fun of_data => OfList.mk (if negb (empty of_data) then of_data else [])
                       (List.length of_data))
     of_data).

(** [df.head(n)]: the first [n] rows, or all but the last [-n] when [n] is
    negative. *)
Definition head (n : Z) (df : DataFrame) : DataFrame :=
  if (0 <=? n)%Z then firstn (Z.to_nat n) df
  else firstn (List.length df - Z.to_nat (- n)) df.

(** [df['DATA_SOURCE'].value_counts().to_dict()], which leaves out the rows
    without a tag, as an association list with one entry per key. *)
Definition source_value_counts (df : DataFrame) : list (string * nat) :=
  let col := Sql.somes (map DATA_SOURCE df) in
  map (fun s => (s, count_occ string_dec col s)) (nodup string_dec col).

Module Filtered.
Record t : Type := mk {
  of_list : list row;
  count : nat;
  source_counts : list (string * nat)
}.
End Filtered.

(** [get_of_with_filters]; the entry "filters_applied" repeats the arguments
    and is left out. *)
Definition get_of_with_filters (self : analyzer) (lk_active lk_histo : link)
  (db : Db.database) (e : entropy) (date_debut date_fin : option date)
  (statut_filter famille_filter client_filter : option string)
  (alerte_filter : option bool) (limit : option Z) (include_historical : bool)
  : analyzer * response Filtered.t :=
  let '(self, of_data) :=
    if include_historical then
      let '(self, df) :=
        get_combined_of_data self lk_active lk_histo db date_debut date_fin
          statut_filter famille_filter client_filter alerte_filter true in
      (self, Ok df)
    else
      get_of_data self lk_active db e date_debut date_fin statut_filter
        famille_filter client_filter alerte_filter in
  (self,
   wrap "Error getting filtered OF: "
     (fun of_data =>
        let of_data :=
          match limit with
          | Some n =>
              if negb (n =? 0)%Z && negb (empty of_data)
              then head n of_data else of_data
          | None => of_data
          end in
        let source_counts :=
          if include_historical && negb (empty of_data)
             && in_columns DATA_SOURCE of_data
          then source_value_counts of_data else [] in
        Filtered.mk (if negb (empty of_data) then of_data else [])
          (List.length of_data) source_counts)
     of_data).

(** ** The life of an analyzer *)

(** [__init__]: no connection, no engine, no attribute [_sample_data_created],
    then [_connect]. *)
Definition __init__ (lk : link) : analyzer :=
  _connect lk (mk_analyzer false false false).

(** ** Closing the connection and probing it *)

(** [_close_connection]: both handles are dropped; what [dispose] or [close]
    raises is swallowed. *)
Definition _close_connection (self : analyzer) : analyzer :=
  let self :=
    if engine self
    then mk_analyzer (connection self) false (_sample_data_created self)
    else self in
  if connection self
  then mk_analyzer false (engine self) (_sample_data_created self)
  else self.

(** [DataService.test_connection] (app/services/data_service.py): the
    statement [SELECT 1 as test] has one row; [execute_query] raises nothing
    for the [except] branch to catch. *)
Definition test_connection (self : analyzer) (lk : link) : analyzer * bool :=
  let '(self, result) := execute_query_on self lk [1%Z] in
  (self,
   negb match result with
        | [] => true
        | _ :: _ => false
        end).

Module DatabaseInfo.
Record t : Type := mk {
  connected : bool;
  analyzer_type : string;
  status : string
}.
End DatabaseInfo.

Definition get_database_info (self : analyzer) (lk : link)
  : analyzer * DatabaseInfo.t :=
  let '(self, is_connected) := test_connection self lk in
  (self,
   DatabaseInfo.mk is_connected "ExcaliburDataAnalyzer"
     (if is_connected then "healthy" else "disconnected")).

(** ** Unit times and status distributions of the dashboard controller *)

Module UnitTimes.
Record change : Type := mk_change {
  difference : Q;
  percentage_change : Q
}.
Record t : Type := mk {
  current_avg_unit_time : cell;
  historical_avg_unit_time : cell;
  comparison : option change
}.
End UnitTimes.

(** The value an entry of [_analyze_unit_times] ends with: the mean of the
    baseline column, or the 0 it starts with. *)
Definition unit_time_mean (data : DataFrame) : cell :=
  if negb (empty data) && in_columns TEMPS_UNITAIRE_HISTORIQUE data
  then series_mean (map (fun r => cell_of (TEMPS_UNITAIRE_HISTORIQUE r)) data)
  else Num 0.

(** [_analyze_unit_times]; a comparison of [nan] with 0 is [False], and the
    entry "by_family" stays empty. *)
Definition _analyze_unit_times (current_data historical_data : DataFrame)
  : UnitTimes.t :=
  let current_avg_unit_time := unit_time_mean current_data in
  let historical_avg_unit_time := unit_time_mean historical_data in
  UnitTimes.mk current_avg_unit_time historical_avg_unit_time
    (if gt_scalar current_avg_unit_time 0 && gt_scalar historical_avg_unit_time 0
     then match current_avg_unit_time, historical_avg_unit_time with
          | Num c, Num h =>
              Some (UnitTimes.mk_change (c - h) ((c - h) / h * 100))
          | _, _ => None
          end
     else None).

Module StatusAnalysis.
Record historical : Type := mk_historical {
  counts : list (string * nat);
  percentages : list (string * Q);
  total : nat;
  note : string
}.
Record t : Type := mk {
  active_distribution : status_distribution;
  historical_distribution : option historical
}.
End StatusAnalysis.


Module Transitions.
Record t : Type := mk {
  transitions_available : bool;
  note : string;
  current_status_summary : status_distribution
}.
End Transitions.


(** ** Orders by status *)

Definition valid_statuses : list string := ["C"; "T"; "A"].

Module ByStatus.
Record t : Type := mk {
  of_list : list row;
  count : nat;
  status : string
}.
End ByStatus.

(** What [get_of_by_status] hands to its caller: its dictionary, or the
    [Exception] raised in place of the one caught, which is the [ValueError]
    of the validation, with its whole message, or an exception of
    [get_of_data]. *)
Inductive by_status_response : Type :=
| Listed (d : ByStatus.t)
| Invalid (message : string)
| Broken (context : string) (cause : exn).

Definition get_of_by_status (self : analyzer) (lk : link) (db : Db.database)
  (e : entropy) (status : string) : analyzer * by_status_response :=
  let context := "Error getting OF by status " ++ status ++ ": " in
  if negb (existsb (String.eqb status) valid_statuses)
  then (self,
        Invalid (context ++ "Invalid status. Must be one of: ['C', 'T', 'A']"))
  else
    let '(self, of_data) :=
      get_of_data self lk db e None None (Some status) None None None in
    (self,
     match of_data with
     | Ok of_data =>
         Listed (ByStatus.mk (if negb (empty of_data) then of_data else [])
                   (List.length of_data) status)
     | Raise x => Broken context x
     end).

(** ** Filter options of the dashboard *)

Module FilterOptions.
Record t : Type := mk {
  date_range_min : option date;
  date_range_max : option date;
  total_records : nat;
  message : option string;
  error : option exn
}.
End FilterOptions.

(** [DashboardController.get_filter_options]
    (app/controllers/dashboard_controller.py).  [dates] are the deadlines left
    by [dropna()]; an exception of [get_of_data] ends in the dictionary with
    the entry "error". *)
Definition get_filter_options (self : analyzer) (lk : link) (db : Db.database)
  (e : entropy) : analyzer * FilterOptions.t :=
  let '(self, of_data) :=
    get_of_data self lk db e None None None None None None in
  (self,
   match of_data with
   | Ok of_data =>
       if empty of_data then FilterOptions.mk None None 0 None None
       else
         let dates := Sql.somes (map LANCEMENT_AU_PLUS_TARD of_data) in
         let date_range :=
           match dates with
           | [] => (None, None)
           | d :: t => (Some (fold_right Z.min d t), Some (fold_right Z.max d t))
           end in
         FilterOptions.mk (fst date_range) (snd date_range)
           (List.length of_data)
           (Some "Only date range filtering is available") None
   | Raise x => FilterOptions.mk None None 0 None (Some x)
   end).

(** ** States of an analyzer

    The analyzers that a program can hold: one made by [__init__], after any
    number of calls of the methods embedded above, each under its own state of
    the link. *)
Inductive reachable : analyzer -> Prop :=
| after_init (lk : link) : reachable (__init__ lk)
| after_connect (lk : link) (self : analyzer) :
    reachable self -> reachable (_connect lk self)
| after_close (self : analyzer) :
    reachable self -> reachable (_close_connection self)
| after_execute_query (lk : link) (answer : DataFrame) (self : analyzer) :
    reachable self -> reachable (fst (execute_query self lk answer))
| after_get_of_data (lk : link) (db : Db.database) (e : entropy)
    (date_debut date_fin : option date)
    (statut_filter famille_filter client_filter : option string)
    (alerte_filter : option bool) (self : analyzer) :
    reachable self ->
    reachable (fst (get_of_data self lk db e date_debut date_fin statut_filter
                      famille_filter client_filter alerte_filter))
| after_get_histo_of_data (lk : link) (db : Db.database)
    (date_debut date_fin : option date)
    (famille_filter client_filter : option string) (self : analyzer) :
    reachable self ->
    reachable (fst (get_histo_of_data self lk db date_debut date_fin
                      famille_filter client_filter))
| after_get_combined_of_data (lk_active lk_histo : link) (db : Db.database)
    (date_debut date_fin : option date)
    (statut_filter famille_filter client_filter : option string)
    (alerte_filter : option bool) (include_historical : bool) (self : analyzer) :
    reachable self ->
    reachable (fst (get_combined_of_data self lk_active lk_histo db date_debut
                      date_fin statut_filter famille_filter client_filter
                      alerte_filter include_historical)).

(** * Properties *)

(** ** The exception monad *)

Lemma bind_Ok {A B : Type} (m : outcome A) (k : A -> outcome B) (b : B) :
  Py.bind m k = Ok b -> exists a, m = Ok a /\ k a = Ok b.
Proof.
  destruct m as [a | e]; simpl; intros H.
  - exists a. split; [reflexivity | exact H].
  - discriminate H.
Qed.

(** [bind_inv H v Hv]: from [H : (x <- m ;; k) = Ok b] to [Hv : m = Ok v]
    and [H : k v = Ok b]. *)
Ltac bind_inv H v Hv :=
  apply bind_Ok in H; destruct H as [v [Hv H]].

Lemma mapM_In {A B : Type} (f : A -> outcome B) (l : list A) :
  forall l', mapM f l = Ok l' ->
  forall y, In y l' -> exists x, In x l /\ f x = Ok y.
Proof.
  induction l as [| x t IH]; simpl; intros l' H y Hy.
  - inversion H; subst. contradiction.
  - apply bind_Ok in H. destruct H as [y0 [Hx H]].
    apply bind_Ok in H. destruct H as [ys [Ht H]].
    inversion H; subst. destruct Hy as [-> | Hy].
    + exists x. split; [left; reflexivity | exact Hx].
    + destruct (IH ys Ht y Hy) as [x' [Hin Hf]].
      exists x'. split; [right; exact Hin | exact Hf].
Qed.

Lemma assign_In {A : Type} (set : row -> A -> row) (f : row -> outcome A)
  (df df' : DataFrame) :
  assign set f df = Ok df' ->
  forall r', In r' df' -> exists r v, In r df /\ f r = Ok v /\ r' = set r v.
Proof.
  intros H r' Hr'. unfold assign in H.
  destruct (mapM_In _ _ _ H r' Hr') as [r [Hin Hf]].
  apply bind_Ok in Hf. destruct Hf as [v [Hv Hs]].
  inversion Hs; subst. exists r, v. auto.
Qed.

(** ** Ordering keeps the rows *)

Lemma In_insert_desc {A : Type} (k : A -> option date) (x y : A) (l : list A) :
  In y (insert_desc k x l) <-> y = x \/ In y l.
Proof.
  induction l as [| z t IH]; simpl.
  - intuition congruence.
  - destruct (date_leb (k z) (k x)); simpl; [intuition congruence |].
    rewrite IH. intuition congruence.
Qed.

Lemma In_order_by_desc {A : Type} (k : A -> option date) (y : A) (l : list A) :
  In y (order_by_desc k l) <-> In y l.
Proof.
  unfold order_by_desc. induction l as [| x t IH]; simpl; [tauto |].
  rewrite In_insert_desc, IH. intuition congruence.
Qed.

(** ** The query layer *)

Lemma execute_query_frame (self : analyzer) (lk : link) (answer : DataFrame) :
  snd (execute_query self lk answer) = answer \/
  snd (execute_query self lk answer) = [].
Proof.
  unfold execute_query, execute_query_pyodbc, _connect.
  destruct self as [c g s], lk as [a b c' d e]; simpl.
  destruct g, a, c, b, d, e, c'; simpl; auto.
Qed.

Lemma execute_query_flag (self : analyzer) (lk : link) (answer : DataFrame) :
  _sample_data_created (fst (execute_query self lk answer)) =
  _sample_data_created self.
Proof.
  unfold execute_query, execute_query_pyodbc, _connect.
  destruct self as [c g s], lk as [a b c' d e]; simpl.
  destruct g, a, c, b, d, e, c'; simpl; auto.
Qed.

Lemma execute_query_In (self : analyzer) (lk : link) (answer : DataFrame) (r : row) :
  In r (snd (execute_query self lk answer)) -> In r answer.
Proof.
  destruct (execute_query_frame self lk answer) as [-> | ->]; simpl; tauto.
Qed.

Lemma null_marker_isna (col : list cell) : isna (null_marker col) = true.
Proof. unfold null_marker. destruct (forallb isna col); reflexivity. Qed.

Lemma read_sql_In (rows : list row) (r : row) :
  In r (read_sql rows) ->
  exists s mQD mCE mDP mTP mTU mAP mAT,
    In s rows /\ r = coerce_row mQD mCE mDP mTP mTU mAP mAT s /\
    isna mQD = true /\ isna mCE = true /\ isna mDP = true /\ isna mTP = true.
Proof.
  unfold read_sql. rewrite in_map_iff. intros [s [Hs Hin]].
  eexists s, _, _, _, _, _, _, _.
  split; [exact Hin |]. split; [symmetry; exact Hs |].
  repeat split; apply null_marker_isna.
Qed.

Lemma coerce_to_cell (m : cell) (x : option Q) :
  isna m = true ->
  coerce m (Sql.to_cell x) =
  match x with
  | Some q => Num q
  | None => m
  end.
Proof. destruct x; reflexivity. Qed.

(** ** [calculated_columns], row by row *)

Lemma calculated_columns_rows (alerte_filter : option bool) (df df' : DataFrame) :
  calculated_columns alerte_filter df = Ok df' ->
  forall r', In r' df' -> exists r0, In r0 df /\ calc_row r0 = Ok r'.
Proof.
  unfold calculated_columns. intros H r' Hr'.
  bind_inv H df1 H1.
  bind_inv H df2 H2.
  bind_inv H df3 H3.
  destruct (assign_In _ _ _ _ H r' Hr') as [r5 [v6 [Hin5 [Hv6 ->]]]].
  assert (Hin4 : In r5 (map default_COMPLETION_STATUS
                          (map default_DATA_SOURCE df3))).
  { destruct alerte_filter as [[|] |]; try exact Hin5.
    apply filter_In in Hin5. tauto. }
  apply in_map_iff in Hin4. destruct Hin4 as [r4 [<- Hin4]].
  apply in_map_iff in Hin4. destruct Hin4 as [r3 [<- Hin3]].
  destruct (assign_In _ _ _ _ H3 r3 Hin3) as [r2 [v3 [Hin2 [Hv3 ->]]]].
  destruct (assign_In _ _ _ _ H2 r2 Hin2) as [r1 [v2 [Hin1 [Hv2 ->]]]].
  destruct (assign_In _ _ _ _ H1 r1 Hin1) as [r0 [v1 [Hin0 [Hv1 ->]]]].
  exists r0. split; [exact Hin0 |].
  unfold calc_row. rewrite Hv1. cbn [Py.bind].
  rewrite Hv2. cbn [Py.bind]. rewrite Hv3. cbn [Py.bind].
  rewrite Hv6. reflexivity.
Qed.

Lemma get_of_data_rows (self : analyzer) (lk : link) (db : Db.database)
  (e : entropy) (date_debut date_fin : option date)
  (statut_filter famille_filter client_filter : option string)
  (alerte_filter : option bool) (df : DataFrame) :
  snd (get_of_data self lk db e date_debut date_fin statut_filter
         famille_filter client_filter alerte_filter) = Ok df ->
  forall r, In r df ->
  exists r0,
    calc_row r0 = Ok r /\
    (In r0 (snd (execute_query self lk
                   (read_sql (of_da_query Db.LANCEMENT_AU_PLUS_TARD db
                                date_debut date_fin statut_filter
                                famille_filter client_filter)))) \/
     (snd (execute_query self lk
             (read_sql (of_da_query Db.LANCEMENT_AU_PLUS_TARD db
                          date_debut date_fin statut_filter
                          famille_filter client_filter))) = [] /\
      In r0 (sample_filters date_debut date_fin statut_filter famille_filter
               client_filter (_create_sample_data e)))).
Proof.
  unfold get_of_data.
  destruct (execute_query self lk _) as [self1 df1]. cbn [snd].
  destruct (empty df1 && negb (_sample_data_created self1)) eqn:B.
  - cbn [snd]. intros H r Hr.
    assert (E1 : df1 = []).
    { destruct df1; [reflexivity | discriminate B]. }
    destruct (sample_filters _ _ _ _ _ _) as [| x t] eqn:E; cbn [empty negb] in H.
    + inversion H; subst. contradiction.
    + destruct (calculated_columns_rows _ _ _ H r Hr) as [r0 [Hin H0]]. eauto.
  - cbn [snd]. intros H r Hr.
    destruct df1 as [| x t]; cbn [empty negb] in H.
    + inversion H; subst. contradiction.
    + destruct (calculated_columns_rows _ _ _ H r Hr) as [r0 [Hin H0]]. eauto.
Qed.

(** The two default columns leave every other column as it is. *)
Lemma defaults_keep (r : row) :
  let r' := default_COMPLETION_STATUS (default_DATA_SOURCE r) in
  (NUMERO_OFDA r' = NUMERO_OFDA r /\ PRODUIT r' = PRODUIT r /\
   STATUT r' = STATUT r /\
   LANCEMENT_AU_PLUS_TARD r' = LANCEMENT_AU_PLUS_TARD r /\
   LANCE_LE r' = LANCE_LE r /\
   FAMILLE_TECHNIQUE r' = FAMILLE_TECHNIQUE r /\
   TEMPS_UNITAIRE_HISTORIQUE r' = TEMPS_UNITAIRE_HISTORIQUE r) /\
  (QUANTITE_DEMANDEE r' = QUANTITE_DEMANDEE r /\
   CUMUL_ENTREES r' = CUMUL_ENTREES r /\
   DUREE_PREVUE r' = DUREE_PREVUE r /\
   CUMUL_TEMPS_PASSES r' = CUMUL_TEMPS_PASSES r) /\
  (Avancement_PROD r' = Avancement_PROD r /\
   Avancement_temps r' = Avancement_temps r /\
   Alerte_temps r' = Alerte_temps r).
Proof.
  unfold default_COMPLETION_STATUS, default_DATA_SOURCE.
  destruct (DATA_SOURCE r); cbn; destruct (COMPLETION_STATUS r); cbn;
    repeat split; reflexivity.
Qed.

Lemma calc_row_inv (r0 r : row) :
  calc_row r0 = Ok r ->
  exists v1 v2 v3 v6,
    ratio_lambda (CUMUL_ENTREES r0) (QUANTITE_DEMANDEE r0) = Ok v1 /\
    ratio_lambda (CUMUL_TEMPS_PASSES r0) (DUREE_PREVUE r0) = Ok v2 /\
    gt v2 v1 = Ok v3 /\
    (if truthy v2 && ne_zero v2 then div v1 v2 else Ok (Num 1)) = Ok v6 /\
    Avancement_PROD r = Some v1 /\
    Avancement_temps r = Some v2 /\
    Alerte_temps r = Some v3 /\
    EFFICACITE r = Some v6 /\
    QUANTITE_DEMANDEE r = QUANTITE_DEMANDEE r0 /\
    CUMUL_ENTREES r = CUMUL_ENTREES r0 /\
    DUREE_PREVUE r = DUREE_PREVUE r0 /\
    CUMUL_TEMPS_PASSES r = CUMUL_TEMPS_PASSES r0 /\
    NUMERO_OFDA r = NUMERO_OFDA r0.
Proof.
  unfold calc_row. intros H.
  bind_inv H v1 H1.
  bind_inv H v2 H2.
  bind_inv H v3 H3.
  bind_inv H v6 H6.
  cbn in H2, H3.
  destruct (defaults_keep
              (set_Alerte_temps
                 (set_Avancement_temps (set_Avancement_PROD r0 v1) v2) v3))
    as ((Kn & _) & (Kq & Ke & Kd & Kt) & (Kp & Ka & Kl)).
  unfold efficacite_lambda in H6. rewrite Kp, Ka in H6. cbn in H6.
  exists v1, v2, v3, v6.
  inversion H; subst r; clear H. cbn.
  rewrite Kn, Kq, Ke, Kd, Kt, Kp, Ka, Kl. cbn.
  repeat split; assumption.
Qed.

Lemma ratio_lambda_value (num den v : cell) :
  ratio_lambda num den = Ok v -> v = NaN \/ exists q, v = Num q.
Proof.
  unfold ratio_lambda.
  destruct (truthy den && ne_zero den); [| intros H; inversion H; eauto].
  destruct num as [| | n], den as [| | d]; simpl; try discriminate;
    try destruct (Qeq_bool d 0); intros H; inversion H; eauto.
Qed.

Lemma ratio_lambda_safe_div (n : Q) (den v : cell) :
  den <> NaN -> ratio_lambda (Num n) den = Ok v -> v = Num (safe_div n den).
Proof.
  unfold ratio_lambda, safe_div, truthy, ne_zero, Qnonzero, div.
  destruct den as [| | d]; cbn [negb andb]; intros Hd H.
  - inversion H. reflexivity.
  - congruence.
  - destruct (Qeq_bool d 0) eqn:E; cbn [negb andb] in H;
      inversion H; reflexivity.
Qed.

Lemma safe_div_nonneg (n : Q) (den : cell) :
  0 <= n -> (forall d, den = Num d -> 0 <= d) -> 0 <= safe_div n den.
Proof.
  intros Hn Hd. unfold safe_div. destruct den as [| | d]; try apply Qle_refl.
  destruct (Qeq_bool d 0) eqn:E; [apply Qle_refl |].
  apply Qeq_bool_neq in E. specialize (Hd d eq_refl).
  apply Qle_shift_div_l; [| rewrite Qmult_0_l; exact Hn].
  destruct (Qle_lt_or_eq _ _ Hd) as [H | H]; [exact H |].
  exfalso. apply E. symmetry. exact H.
Qed.

(** What [get_of_data] computes for a row whose numerators are numbers and
    whose denominators are numbers or [None]: the division policy of the
    specification. *)
Lemma progress_safe_div (self : analyzer) (lk : link) (db : Db.database)
  (e : entropy) (date_debut date_fin : option date)
  (statut_filter famille_filter client_filter : option string)
  (alerte_filter : option bool) (df : DataFrame) (r : row) (n t : Q) :
  snd (get_of_data self lk db e date_debut date_fin statut_filter
         famille_filter client_filter alerte_filter) = Ok df ->
  In r df ->
  CUMUL_ENTREES r = Num n -> CUMUL_TEMPS_PASSES r = Num t ->
  QUANTITE_DEMANDEE r <> NaN -> DUREE_PREVUE r <> NaN ->
  Avancement_PROD r = Some (Num (safe_div n (QUANTITE_DEMANDEE r))) /\
  Avancement_temps r = Some (Num (safe_div t (DUREE_PREVUE r))) /\
  (0 <= n -> (forall d, QUANTITE_DEMANDEE r = Num d -> 0 <= d) ->
   0 <= safe_div n (QUANTITE_DEMANDEE r)) /\
  (0 <= t -> (forall d, DUREE_PREVUE r = Num d -> 0 <= d) ->
   0 <= safe_div t (DUREE_PREVUE r)).
Proof.
  intros H Hr Hn Ht Hq Hd.
  destruct (get_of_data_rows _ _ _ _ _ _ _ _ _ _ _ H r Hr) as [r0 [H0 _]].
  destruct (calc_row_inv _ _ H0)
    as (v1 & v2 & v3 & v6 & H1 & H2 & _ & _ & Ep & Et & _ & _ & Eq & En & Ed & Es & _).
  rewrite <- Eq, <- En in H1. rewrite <- Ed, <- Es in H2.
  rewrite Hn in H1. rewrite Ht in H2.
  apply ratio_lambda_safe_div in H1; [| exact Hq].
  apply ratio_lambda_safe_div in H2; [| exact Hd].
  subst v1 v2. repeat split; try assumption; apply safe_div_nonneg.
Qed.

(** C8 (evaluation at the failing input).  A NULL requested quantity in a
    column that also holds numbers reaches the frame as [nan]; [nan] is
    truthy and differs from 0, so [get_of_data] divides by it and stores [nan]
    as production progress, where the [CASE] expression of its own statement,
    returned unchanged by [get_of_data_with_lance_le_filter], gives 0. *)
Theorem progress_nan_on_null_denominator (e : entropy) :
  map Db.QUANTITE_DEMANDEE (Db.OF_DA null_denominator) = [None; Some 100] /\
  (exists r1 r2,
     snd (get_of_data fresh link_up null_denominator e
            None None None None None None) = Ok [r1; r2] /\
     NUMERO_OFDA r1 = "F0001" /\
     QUANTITE_DEMANDEE r1 = NaN /\
     CUMUL_ENTREES r1 = Num 5 /\
     Avancement_PROD r1 = Some NaN) /\
  map Avancement_PROD
    (snd (get_of_data_with_lance_le_filter fresh link_up null_denominator
            None None None None None None))
  = [Some (Num 0); Some (Num (50 # 100))].
Proof.
  split; [reflexivity |]. split.
  - eexists _, _. split; [vm_compute; reflexivity |].
    repeat split.
  - vm_compute. reflexivity.
Qed.

(** When the NULL is alone in its column it reaches the frame as [None],
    which is falsy: the production progress is 0. *)
Example progress_zero_on_none_denominator :
  map (fun r => (QUANTITE_DEMANDEE r, Avancement_PROD r))
    (frame_or_empty (snd (get_of_data_all fresh link_up lone_null_denominator)))
  = [(PyNone, Some (Num 0))].
Proof. vm_compute. reflexivity. Qed.

(** C4.  In every row returned by [get_of_data] whose production progress is
    a number [p], the time progress [t] is present; the efficiency is 1 when
    [t] is 0, [p / t] when [t] is another number, and the float quotient by
    [nan] ([nan]) when [t] is [nan]. *)
Theorem efficiency_rule (self : analyzer) (lk : link) (db : Db.database)
  (e : entropy) (date_debut date_fin : option date)
  (statut_filter famille_filter client_filter : option string)
  (alerte_filter : option bool) (df : DataFrame) (r : row) (p : Q) :
  snd (get_of_data self lk db e date_debut date_fin statut_filter
         famille_filter client_filter alerte_filter) = Ok df ->
  In r df ->
  Avancement_PROD r = Some (Num p) ->
  exists t,
    Avancement_temps r = Some t /\
    (forall q, t = Num q -> q == 0 -> EFFICACITE r = Some (Num 1)) /\
    (forall q, t = Num q -> ~ q == 0 -> EFFICACITE r = Some (Num (p / q))) /\
    (t = NaN -> EFFICACITE r = Some NaN) /\
    t <> PyNone.
Proof.
  intros H Hr Hp.
  destruct (get_of_data_rows _ _ _ _ _ _ _ _ _ _ _ H r Hr) as [r0 [H0 _]].
  destruct (calc_row_inv _ _ H0)
    as (v1 & v2 & v3 & v6 & _ & H2 & _ & H6 & Ep & Et & _ & Ee & _).
  rewrite Ep in Hp. inversion Hp; subst v1; clear Hp.
  exists v2. split; [exact Et |]. rewrite Ee.
  destruct (ratio_lambda_value _ _ _ H2) as [-> | [q ->]].
  - simpl in H6. inversion H6; subst v6.
    refine (conj _ (conj _ (conj _ _))); try discriminate; reflexivity.
  - unfold truthy, ne_zero, Qnonzero, div in H6.
    destruct (Qeq_bool q 0) eqn:E; cbn [negb andb] in H6;
      inversion H6; subst v6;
      refine (conj _ (conj _ (conj _ _))); try discriminate;
      intros q' Hq' Hz; inversion Hq'; subst q'.
    + reflexivity.
    + apply Qeq_bool_iff in E. contradiction.
    + apply Qeq_bool_neq in E. contradiction.
    + reflexivity.
Qed.

Lemma efficiency_rule_witness :
  exists t,
    Avancement_temps scenario_A_row = Some t /\
    (forall q, t = Num q -> q == 0 -> EFFICACITE scenario_A_row = Some (Num 1)) /\
    (forall q, t = Num q -> ~ q == 0 ->
               EFFICACITE scenario_A_row = Some (Num ((50 # 100) / q))) /\
    (t = NaN -> EFFICACITE scenario_A_row = Some NaN) /\
    t <> PyNone.
Proof.
  apply (efficiency_rule fresh link_up scenario_A entropy0
           None None None None None None [scenario_A_row] scenario_A_row (50 # 100)).
  - vm_compute. reflexivity.
  - left. reflexivity.
  - reflexivity.
Defined.

(** ** Rows of the two statements *)

Lemma calc_row_keeps (r0 r : row) :
  calc_row r0 = Ok r ->
  NUMERO_OFDA r = NUMERO_OFDA r0 /\
  PRODUIT r = PRODUIT r0 /\
  STATUT r = STATUT r0 /\
  LANCEMENT_AU_PLUS_TARD r = LANCEMENT_AU_PLUS_TARD r0 /\
  LANCE_LE r = LANCE_LE r0 /\
  FAMILLE_TECHNIQUE r = FAMILLE_TECHNIQUE r0 /\
  TEMPS_UNITAIRE_HISTORIQUE r = TEMPS_UNITAIRE_HISTORIQUE r0.
Proof.
  unfold calc_row. intros H.
  bind_inv H v1 H1.
  bind_inv H v2 H2.
  bind_inv H v3 H3.
  bind_inv H v6 H6.
  destruct (defaults_keep
              (set_Alerte_temps
                 (set_Avancement_temps (set_Avancement_PROD r0 v1) v2) v3))
    as (K & _).
  inversion H; subst r; clear H. exact K.
Qed.

Lemma histo_of_da_query_row (date_col : Db.row -> option date)
  (db : Db.database) (date_debut date_fin : option date)
  (famille_filter client_filter : option string) (s : row) :
  In s (histo_of_da_query date_col db date_debut date_fin famille_filter
          client_filter) ->
  exists h,
    In h (Db.HISTO_OF_DA db) /\ s = select_histo h /\
    debut_clause date_debut (date_col h) = true /\
    fin_clause date_fin (date_col h) = true.
Proof.
  unfold histo_of_da_query. rewrite in_map_iff. intros [h [<- Hin]].
  apply In_order_by_desc in Hin. apply filter_In in Hin.
  destruct Hin as [Hin Hw]. repeat rewrite andb_true_iff in Hw.
  exists h. intuition.
Qed.

Lemma left_join_left (ofda : list Db.row) (avgs : list (key * option Q))
  (a : Db.row) (v : option Q) :
  In (a, v) (left_join ofda avgs) -> In a ofda.
Proof.
  unfold left_join. rewrite in_flat_map. intros [a' [Hin H]].
  destruct (filter (on_clause a') avgs) as [| g gs].
  - destruct H as [H | []]. inversion H; subst. exact Hin.
  - apply in_map_iff in H. destruct H as [g' [H _]].
    inversion H; subst. exact Hin.
Qed.

Lemma of_da_query_row (date_col : Db.row -> option date)
  (db : Db.database) (date_debut date_fin : option date)
  (statut_filter famille_filter client_filter : option string) (s : row) :
  In s (of_da_query date_col db date_debut date_fin statut_filter
          famille_filter client_filter) ->
  exists a v,
    In (a, v) (left_join (Db.OF_DA db) (hist_avg (Db.HISTO_OF_DA db))) /\
    s = select_active (a, v) /\
    debut_clause date_debut (date_col a) = true /\
    fin_clause date_fin (date_col a) = true.
Proof.
  unfold of_da_query. rewrite in_map_iff. intros [[a v] [<- Hin]].
  apply In_order_by_desc in Hin. apply filter_In in Hin.
  destruct Hin as [Hin Hw]. cbn [fst] in Hw.
  repeat rewrite andb_true_iff in Hw.
  exists a, v. intuition.
Qed.

Lemma date_clauses (debut fin : date) (col : option date) :
  debut_clause (Some debut) col = true ->
  fin_clause (Some fin) col = true ->
  exists d, col = Some d /\ (debut <= d <= fin)%Z.
Proof.
  unfold debut_clause, fin_clause.
  destruct col as [d |]; simpl; [| discriminate].
  destruct (debut <=? d)%Z eqn:E1; [| discriminate].
  destruct (d <=? fin)%Z eqn:E2; [| discriminate].
  intros _ _. exists d. split; [reflexivity | lia].
Qed.

Lemma sample_filters_dates (debut fin : date)
  (statut_filter famille_filter client_filter : option string)
  (df : DataFrame) (r : row) :
  In r (sample_filters (Some debut) (Some fin) statut_filter famille_filter
          client_filter df) ->
  exists d, LANCEMENT_AU_PLUS_TARD r = Some d /\ (debut <= d <= fin)%Z.
Proof.
  unfold sample_filters. intros H.
  apply filter_In in H. destruct H as [H Hf].
  apply filter_In in H. destruct H as [_ Hd].
  destruct (LANCEMENT_AU_PLUS_TARD r) as [d |]; [| discriminate].
  exists d. split; [reflexivity | lia].
Qed.

(** ** Historical rows *)

(** C6.  Every row returned by [get_histo_of_data] or by
    [get_histo_of_data_with_lance_le_filter] has COMPLETION_STATUS
    "COMPLETED" and Alerte_temps 0, whatever its durations. *)
Theorem historical_rows_completed (self : analyzer) (lk : link)
  (db : Db.database) (date_debut date_fin : option date)
  (famille_filter client_filter : option string) (r : row) :
  In r (snd (get_histo_of_data self lk db date_debut date_fin
               famille_filter client_filter)) \/
  In r (snd (get_histo_of_data_with_lance_le_filter self lk db date_debut
               date_fin famille_filter client_filter)) ->
  COMPLETION_STATUS r = Some "COMPLETED" /\ Alerte_temps r = Some false.
Proof.
  unfold get_histo_of_data, get_histo_of_data_with_lance_le_filter.
  intros [H | H]; apply execute_query_In in H; apply read_sql_In in H;
    destruct H as (s & m1 & m2 & m3 & m4 & m5 & m6 & m7 & Hs & -> & _);
    apply histo_of_da_query_row in Hs;
    destruct Hs as (h & _ & -> & _); split; reflexivity.
Qed.

Lemma historical_rows_completed_witness :
  CUMUL_TEMPS_PASSES late_history_row = Num 30 /\
  DUREE_PREVUE late_history_row = Num 10 /\
  COMPLETION_STATUS late_history_row = Some "COMPLETED" /\
  Alerte_temps late_history_row = Some false.
Proof.
  split; [reflexivity |]. split; [reflexivity |].
  apply (historical_rows_completed fresh link_up late_history None None None None).
  left. vm_compute. left. reflexivity.
Defined.

(** ** The time alert *)

(** The rule of the specification is the one the statement computes and
    [get_of_data_with_lance_le_filter] returns: the alert is raised exactly
    for a positive planned duration exceeded by the time spent. *)
Lemma lance_le_alert_is_time_overrun (self : analyzer) (lk : link)
  (db : Db.database) (date_debut date_fin : option date)
  (statut_filter famille_filter client_filter : option string)
  (alerte_filter : option bool) (r : row) :
  In r (snd (get_of_data_with_lance_le_filter self lk db date_debut date_fin
               statut_filter famille_filter client_filter alerte_filter)) ->
  Alerte_temps r =
  Some match DUREE_PREVUE r, CUMUL_TEMPS_PASSES r with
       | Num planned, Num spent => time_overrun planned spent
       | _, _ => false
       end.
Proof.
  unfold get_of_data_with_lance_le_filter.
  destruct (execute_query self lk _) as [self1 df] eqn:E.
  assert (Hsub : forall x, In x df ->
                 In x (read_sql (of_da_query Db.LANCE_LE db date_debut date_fin
                                   statut_filter famille_filter client_filter))).
  { intros x Hx. apply (execute_query_In self lk). rewrite E. exact Hx. }
  intros H.
  assert (Hr : In r df).
  { destruct (empty df); [contradiction |]. cbn [snd] in H.
    destruct alerte_filter as [[|] |]; try apply filter_In in H; tauto. }
  apply Hsub in Hr. apply read_sql_In in Hr.
  destruct Hr as (s & m1 & m2 & m3 & m4 & m5 & m6 & m7 & Hs & -> & _ & _ & H3 & H4).
  apply of_da_query_row in Hs. destruct Hs as (a & v & _ & -> & _).
  cbn. rewrite (coerce_to_cell _ _ H3), (coerce_to_cell _ _ H4).
  unfold time_overrun.
  destruct (Db.DUREE_PREVUE a) as [d |], (Db.CUMUL_TEMPS_PASSES a) as [t |];
    cbn.
  - destruct (Qgt_bool d 0), (Qgt_bool t d); reflexivity.
  - destruct (Qgt_bool d 0); destruct m4; try discriminate; reflexivity.
  - destruct m3; try discriminate; reflexivity.
  - destruct m3; try discriminate; reflexivity.
Qed.

(** C1 (evaluation at the failing input).  On scenario A [get_of_data]
    returns one row with production progress 1/2, time progress 1 and
    efficiency 1/2, but with the alert raised: it overwrites the alert of its
    statement by "time progress > production progress" (1 > 1/2), while the
    planned duration is not exceeded and [get_of_data_with_lance_le_filter]
    reports no alert for the same row. *)
Theorem alert_raised_in_scenario_A (e : entropy) :
  snd (get_of_data fresh link_up scenario_A e None None None None None None)
  = Ok [scenario_A_row] /\
  has (Avancement_PROD scenario_A_row) (1 # 2) /\
  has (Avancement_temps scenario_A_row) 1 /\
  has (EFFICACITE scenario_A_row) (1 # 2) /\
  Alerte_temps scenario_A_row = Some true /\
  time_overrun 10 10 = false /\
  map Alerte_temps
    (snd (get_of_data_with_lance_le_filter fresh link_up scenario_A
            None None None None None None)) = [Some false].
Proof.
  split; [vm_compute; reflexivity |].
  repeat split; reflexivity.
Qed.

(** What [get_of_data] stores instead: the comparison of the two progress
    ratios. *)
Lemma get_of_data_alert_compares_progress (self : analyzer) (lk : link)
  (db : Db.database) (e : entropy) (date_debut date_fin : option date)
  (statut_filter famille_filter client_filter : option string)
  (alerte_filter : option bool) (df : DataFrame) (r : row) :
  snd (get_of_data self lk db e date_debut date_fin statut_filter
         famille_filter client_filter alerte_filter) = Ok df ->
  In r df ->
  exists t p b,
    Avancement_temps r = Some t /\ Avancement_PROD r = Some p /\
    gt t p = Ok b /\ Alerte_temps r = Some b.
Proof.
  intros H Hr.
  destruct (get_of_data_rows _ _ _ _ _ _ _ _ _ _ _ H r Hr) as [r0 [H0 _]].
  destruct (calc_row_inv _ _ H0)
    as (v1 & v2 & v3 & v6 & _ & _ & H3 & _ & Ep & Et & Ea & _).
  exists v2, v1, v3. auto.
Qed.

(** ** The alert filter *)

(** C10.  [get_of_data] does with [alerte_filter=False] what it does without
    the argument; [get_of_data_with_lance_le_filter] keeps only the rows whose
    Alerte_temps is 0; on a table with one alerted and one other row the
    first returns both rows and the second only the row without alert. *)
Theorem alerte_filter_False_differs :
  (forall self lk db e date_debut date_fin statut_filter famille_filter
          client_filter,
     get_of_data self lk db e date_debut date_fin statut_filter
       famille_filter client_filter (Some false) =
     get_of_data self lk db e date_debut date_fin statut_filter
       famille_filter client_filter None) /\
  (forall self lk db date_debut date_fin statut_filter famille_filter
          client_filter r,
     In r (snd (get_of_data_with_lance_le_filter self lk db date_debut
                  date_fin statut_filter famille_filter client_filter
                  (Some false))) ->
     Alerte_temps r = Some false) /\
  (exists db,
     map (fun r => (NUMERO_OFDA r, Alerte_temps r))
       (snd (get_of_data_with_lance_le_filter fresh link_up db
               None None None None None None))
     = [("F0001", Some true); ("F0002", Some false)] /\
     map (fun r => (NUMERO_OFDA r, Alerte_temps r))
       (frame_or_empty
          (snd (get_of_data fresh link_up db entropy0
                  None None None None None (Some false))))
     = [("F0001", Some true); ("F0002", Some false)] /\
     map (fun r => (NUMERO_OFDA r, Alerte_temps r))
       (snd (get_of_data_with_lance_le_filter fresh link_up db
               None None None None None (Some false)))
     = [("F0002", Some false)]).
Proof.
  split; [reflexivity |]. split.
  - intros self lk db dd df sf ff cf r.
    unfold get_of_data_with_lance_le_filter.
    destruct (execute_query self lk _) as [self1 frame].
    destruct (empty frame); [contradiction |]. cbn [snd].
    intros H. apply filter_In in H. destruct H as [_ H].
    unfold alerte_is in H.
    destruct (Alerte_temps r) as [[|] |]; try discriminate. reflexivity.
  - exists one_alert. repeat split; vm_compute; reflexivity.
Qed.

Lemma alerte_filter_False_differs_witness :
  Alerte_temps
    (first_row
       (snd (get_of_data_with_lance_le_filter fresh link_up one_alert
               None None None None None (Some false)))) = Some false.
Proof.
  apply (proj1 (proj2 alerte_filter_False_differs)
           fresh link_up one_alert None None None None None).
  vm_compute. left. reflexivity.
Defined.

(** ** The two date policies *)

(** C3.  With both date arguments given, [get_of_data] returns rows whose
    LANCEMENT_AU_PLUS_TARD lies in the range and [get_histo_of_data] rows
    whose closure date does, while the two [lance_le] functions return rows
    whose LANCE_LE does; on tables where these dates diverge the deadline
    policy and the launch policy select different orders from both
    sources. *)
Theorem date_policies_differ :
  (forall self lk db e debut fin statut_filter famille_filter client_filter
          alerte_filter df r,
     snd (get_of_data self lk db e (Some debut) (Some fin) statut_filter
            famille_filter client_filter alerte_filter) = Ok df ->
     In r df ->
     exists d, LANCEMENT_AU_PLUS_TARD r = Some d /\ (debut <= d <= fin)%Z) /\
  (forall self lk db debut fin famille_filter client_filter r,
     In r (snd (get_histo_of_data self lk db (Some debut) (Some fin)
                  famille_filter client_filter)) ->
     exists d, DATA_CLOTURE r = Some d /\ (debut <= d <= fin)%Z) /\
  (forall self lk db debut fin statut_filter famille_filter client_filter
          alerte_filter r,
     In r (snd (get_of_data_with_lance_le_filter self lk db (Some debut)
                  (Some fin) statut_filter famille_filter client_filter
                  alerte_filter)) ->
     exists d, LANCE_LE r = Some d /\ (debut <= d <= fin)%Z) /\
  (forall self lk db debut fin famille_filter client_filter r,
     In r (snd (get_histo_of_data_with_lance_le_filter self lk db
                  (Some debut) (Some fin) famille_filter client_filter)) ->
     exists d, LANCE_LE r = Some d /\ (debut <= d <= fin)%Z) /\
  (exists db debut fin,
     (exists a, In a (Db.OF_DA db) /\
                Db.LANCEMENT_AU_PLUS_TARD a <> Db.LANCE_LE a) /\
     (exists h, In h (Db.HISTO_OF_DA db) /\
                Db.DATE_CLOTURE h <> Db.LANCE_LE h) /\
     map NUMERO_OFDA
       (frame_or_empty
          (snd (get_of_data fresh link_up db entropy0 (Some debut) (Some fin)
                  None None None None))) = ["F0001"] /\
     map NUMERO_OFDA
       (snd (get_histo_of_data fresh link_up db (Some debut) (Some fin)
               None None)) = ["F0003"] /\
     map NUMERO_OFDA
       (snd (get_combined_of_data fresh link_up link_up db (Some debut)
               (Some fin) None None None None true)) = ["F0002"; "F0004"]).
Proof.
  split; [| split; [| split; [| split]]].
  - intros self lk db e debut fin sf ff cf af df r H Hr.
    destruct (get_of_data_rows _ _ _ _ _ _ _ _ _ _ _ H r Hr) as [r0 [H0 Hsrc]].
    destruct (calc_row_keeps _ _ H0) as (_ & _ & _ & -> & _).
    destruct Hsrc as [Hq | Hs].
    + apply execute_query_In in Hq. apply read_sql_In in Hq.
      destruct Hq as (s & m1 & m2 & m3 & m4 & m5 & m6 & m7 & Hs & -> & _).
      apply of_da_query_row in Hs. destruct Hs as (a & v & _ & -> & Hd & Hf).
      cbn. exact (date_clauses _ _ _ Hd Hf).
    + exact (sample_filters_dates _ _ _ _ _ _ _ (proj2 Hs)).
  - intros self lk db debut fin ff cf r H.
    unfold get_histo_of_data in H.
    apply execute_query_In in H. apply read_sql_In in H.
    destruct H as (s & m1 & m2 & m3 & m4 & m5 & m6 & m7 & Hs & -> & _).
    apply histo_of_da_query_row in Hs. destruct Hs as (h & _ & -> & Hd & Hf).
    cbn. exact (date_clauses _ _ _ Hd Hf).
  - intros self lk db debut fin sf ff cf af r.
    unfold get_of_data_with_lance_le_filter.
    destruct (execute_query self lk _) as [self1 df] eqn:E. intros H.
    assert (Hr : In r df).
    { destruct (empty df); [contradiction |]. cbn [snd] in H.
      destruct af as [[|] |]; try apply filter_In in H; tauto. }
    assert (Hq : In r (snd (execute_query self lk
                   (read_sql (of_da_query Db.LANCE_LE db (Some debut)
                                (Some fin) sf ff cf))))).
    { rewrite E. exact Hr. }
    apply execute_query_In in Hq. apply read_sql_In in Hq.
    destruct Hq as (s & m1 & m2 & m3 & m4 & m5 & m6 & m7 & Hs & -> & _).
    apply of_da_query_row in Hs. destruct Hs as (a & v & _ & -> & Hd & Hf).
    cbn. exact (date_clauses _ _ _ Hd Hf).
  - intros self lk db debut fin ff cf r H.
    unfold get_histo_of_data_with_lance_le_filter in H.
    apply execute_query_In in H. apply read_sql_In in H.
    destruct H as (s & m1 & m2 & m3 & m4 & m5 & m6 & m7 & Hs & -> & _).
    apply histo_of_da_query_row in Hs. destruct Hs as (h & _ & -> & Hd & Hf).
    cbn. exact (date_clauses _ _ _ Hd Hf).
  - exists diverging_dates, 0%Z, 20%Z.
    split; [| split; [| repeat split; vm_compute; reflexivity]].
    + eexists. split; [left; reflexivity | discriminate].
    + eexists. split; [left; reflexivity | discriminate].
Qed.

Lemma date_policies_differ_witness :
  (exists d,
     LANCEMENT_AU_PLUS_TARD
       (first_row
          (frame_or_empty
             (snd (get_of_data fresh link_up diverging_dates entropy0
                     (Some 0%Z) (Some 20%Z) None None None None)))) = Some d /\
     (0 <= d <= 20)%Z) /\
  (exists d,
     DATA_CLOTURE
       (first_row
          (snd (get_histo_of_data fresh link_up diverging_dates
                  (Some 0%Z) (Some 20%Z) None None))) = Some d /\
     (0 <= d <= 20)%Z) /\
  (exists d,
     LANCE_LE
       (first_row
          (snd (get_of_data_with_lance_le_filter fresh link_up diverging_dates
                  (Some 0%Z) (Some 20%Z) None None None None))) = Some d /\
     (0 <= d <= 20)%Z) /\
  (exists d,
     LANCE_LE
       (first_row
          (snd (get_histo_of_data_with_lance_le_filter fresh link_up
                  diverging_dates (Some 0%Z) (Some 20%Z) None None))) = Some d /\
     (0 <= d <= 20)%Z).
Proof.
  destruct date_policies_differ as (H1 & H2 & H3 & H4 & _).
  split; [| split; [| split]].
  - apply (H1 fresh link_up diverging_dates entropy0 0%Z 20%Z None None None None
             (frame_or_empty
                (snd (get_of_data fresh link_up diverging_dates entropy0
                        (Some 0%Z) (Some 20%Z) None None None None)))).
    + vm_compute. reflexivity.
    + vm_compute. left. reflexivity.
  - apply (H2 fresh link_up diverging_dates 0%Z 20%Z None None).
    vm_compute. left. reflexivity.
  - apply (H3 fresh link_up diverging_dates 0%Z 20%Z None None None None).
    vm_compute. left. reflexivity.
  - apply (H4 fresh link_up diverging_dates 0%Z 20%Z None None).
    vm_compute. left. reflexivity.
Defined.

(** ** The historical baseline *)

Lemma opt_str_eqb_eq (a b : option string) : opt_str_eqb a b = true <-> a = b.
Proof.
  destruct a as [x |], b as [y |]; simpl; try (split; congruence).
  rewrite String.eqb_eq. split; congruence.
Qed.

Lemma key_eqb_eq (k1 k2 : key) : key_eqb k1 k2 = true <-> k1 = k2.
Proof.
  destruct k1 as [a1 b1], k2 as [a2 b2]. unfold key_eqb. simpl.
  rewrite andb_true_iff, !opt_str_eqb_eq. split.
  - intros [-> ->]. reflexivity.
  - intros H. inversion H. auto.
Qed.

Lemma distinct_In (k : key) (l : list key) : In k (distinct l) <-> In k l.
Proof.
  induction l as [| x t IH]; simpl; [tauto |].
  rewrite filter_In, IH. split.
  - tauto.
  - intros [-> | H]; [left; reflexivity |].
    destruct (key_eqb x k) eqn:E.
    + apply key_eqb_eq in E. left. exact E.
    + right. split; [exact H | reflexivity].
Qed.

Lemma on_clause_key (a : Db.row) (g : key * option Q) (p c : string) :
  Db.PRODUIT a = Some p -> Db.CATEGORIE a = Some c ->
  (on_clause a g = true <-> fst g = (Some p, Some c)).
Proof.
  intros Hp Hc. unfold on_clause. rewrite Hp, Hc.
  destruct g as [[gp gc] v]. simpl.
  destruct gp as [x |], gc as [y |]; simpl;
    try destruct (String.eqb_spec p x); try destruct (String.eqb_spec c y);
    simpl; split; congruence.
Qed.

Lemma left_join_value (ofda : list Db.row) (avgs : list (key * option Q))
  (a : Db.row) (v : option Q) :
  In (a, v) (left_join ofda avgs) ->
  (filter (on_clause a) avgs = [] /\ v = None) \/
  (exists g, In g avgs /\ on_clause a g = true /\ v = snd g).
Proof.
  unfold left_join. rewrite in_flat_map. intros [a' [_ H]].
  destruct (filter (on_clause a') avgs) as [| g gs] eqn:E.
  - destruct H as [H | []]. inversion H; subst. left. auto.
  - apply in_map_iff in H. destruct H as [g' [H Hin]].
    inversion H; subst. right. exists g'.
    rewrite <- E in Hin. apply filter_In in Hin. tauto.
Qed.

Lemma hist_avg_In (HISTO : list Db.row) (g : key * option Q) :
  In g (hist_avg HISTO) <->
  In (fst g) (map key_of (filter hist_where HISTO)) /\
  snd g = Sql.AVG
            (map (fun h => case_ratio (Db.CUMUL_TEMPS_PASSES h) (Db.CUMUL_ENTREES h))
                 (filter (fun h => key_eqb (key_of h) (fst g))
                         (filter hist_where HISTO))).
Proof.
  unfold hist_avg. rewrite in_map_iff. split.
  - intros [k [<- Hk]]. apply (proj1 (distinct_In _ _)) in Hk.
    split; [exact Hk | reflexivity].
  - intros [Hk Hv]. exists (fst g). split.
    + destruct g as [k v]. simpl in *. rewrite Hv. reflexivity.
    + apply (proj2 (distinct_In _ _)). exact Hk.
Qed.

Lemma qualifies_split (p c : string) (h : Db.row) :
  qualifies p c h = hist_where h && key_eqb (key_of h) (Some p, Some c).
Proof.
  unfold qualifies, hist_where, key_eqb, key_of, is_positive. cbn [fst snd].
  destruct (opt_str_eqb (Db.PRODUIT h) (Some p)),
           (opt_str_eqb (Db.CATEGORIE h) (Some c)),
           (Db.CUMUL_ENTREES h) as [q |], (Db.CUMUL_TEMPS_PASSES h) as [s |];
    cbn; try reflexivity;
    try destruct (Qgt_bool q 0); try destruct (Qgt_bool s 0); reflexivity.
Qed.

Lemma qualifies_ratio (p c : string) (h : Db.row) :
  qualifies p c h = true ->
  case_ratio (Db.CUMUL_TEMPS_PASSES h) (Db.CUMUL_ENTREES h) = Some (unit_time h).
Proof.
  unfold qualifies, is_positive, case_ratio, unit_time.
  rewrite !andb_true_iff. intros [[_ Hq] Hs].
  destruct (Db.CUMUL_ENTREES h) as [q |]; [| discriminate].
  destruct (Db.CUMUL_TEMPS_PASSES h) as [s |]; [| discriminate].
  cbn. rewrite Hq. reflexivity.
Qed.

(** The values averaged for the group [(p, c)] are the unit times of the
    qualifying rows, in table order. *)
Lemma group_values (p c : string) (HISTO : list Db.row) :
  Sql.somes
    (map (fun h => case_ratio (Db.CUMUL_TEMPS_PASSES h) (Db.CUMUL_ENTREES h))
         (filter (fun h => key_eqb (key_of h) (Some p, Some c))
                 (filter hist_where HISTO)))
  = map unit_time (filter (qualifies p c) HISTO).
Proof.
  induction HISTO as [| h t IH]; [reflexivity |].
  cbn [filter]. pose proof (qualifies_split p c h) as Hs.
  pose proof (qualifies_ratio p c h) as Hr.
  destruct (hist_where h); cbn [filter andb] in *.
  - destruct (key_eqb (key_of h) (Some p, Some c)); rewrite Hs.
    + cbn [map Sql.somes]. rewrite Hr by exact Hs. cbn [Sql.somes].
      f_equal. exact IH.
    + exact IH.
  - rewrite Hs. exact IH.
Qed.

Lemma qualifies_kept (p c : string) (h : Db.row) :
  qualifies p c h = true ->
  hist_where h = true /\ key_of h = (Some p, Some c).
Proof.
  unfold qualifies, hist_where, key_of, is_positive.
  rewrite !andb_true_iff, !opt_str_eqb_eq.
  intros [[[-> ->] Hq] Hs].
  destruct (Db.CUMUL_ENTREES h) as [q |]; [| discriminate].
  destruct (Db.CUMUL_TEMPS_PASSES h) as [s |]; [| discriminate].
  cbn. rewrite Hq, Hs. auto.
Qed.

Lemma joined_baseline (db : Db.database) (a : Db.row) (v : option Q)
  (p c : string) :
  In (a, v) (left_join (Db.OF_DA db) (hist_avg (Db.HISTO_OF_DA db))) ->
  Db.PRODUIT a = Some p -> Db.CATEGORIE a = Some c ->
  Sql.COALESCE v 0 = avg_unit_time p c (Db.HISTO_OF_DA db).
Proof.
  intros Hj Hp Hc. unfold avg_unit_time.
  destruct (left_join_value _ _ _ _ Hj) as [[Hnone ->] | [g [Hg [Hon ->]]]].
  - destruct (filter (qualifies p c) (Db.HISTO_OF_DA db)) as [| h hs] eqn:E;
      [reflexivity | exfalso].
    assert (Hh : In h (filter (qualifies p c) (Db.HISTO_OF_DA db)))
      by (rewrite E; left; reflexivity).
    apply filter_In in Hh. destruct Hh as [Hin Hq].
    apply qualifies_kept in Hq. destruct Hq as [Hw Hk].
    set (g := ((Some p, Some c),
               Sql.AVG (map (fun h => case_ratio (Db.CUMUL_TEMPS_PASSES h)
                                                 (Db.CUMUL_ENTREES h))
                            (filter (fun h => key_eqb (key_of h) (Some p, Some c))
                                    (filter hist_where (Db.HISTO_OF_DA db)))))).
    assert (Hg : In g (filter (on_clause a) (hist_avg (Db.HISTO_OF_DA db)))).
    { apply filter_In. split.
      - apply hist_avg_In. split; [| reflexivity].
        cbn [fst g]. rewrite <- Hk. apply in_map.
        apply filter_In. auto.
      - apply (on_clause_key a g p c Hp Hc). reflexivity. }
    rewrite Hnone in Hg. contradiction.
  - apply (on_clause_key a g p c Hp Hc) in Hon.
    apply hist_avg_In in Hg. destruct Hg as [_ Hv].
    rewrite Hv, Hon. unfold Sql.AVG. rewrite group_values.
    destruct (filter (qualifies p c) (Db.HISTO_OF_DA db)) as [| h hs];
      reflexivity.
Qed.

(** C7.  The baseline selected for an active order of product [p] and
    category [c] is the mean of time_spent / quantity_produced over the
    historical rows of [(p, c)] with both fields positive, and 0 when there
    is no such row; it reaches the frame of [get_of_data] unchanged.  Rows
    that do not qualify leave the mean as it is. *)
Theorem baseline_is_historical_mean :
  (forall date_col db date_debut date_fin statut_filter famille_filter
          client_filter s,
     In s (of_da_query date_col db date_debut date_fin statut_filter
             famille_filter client_filter) ->
     exists a v,
       In a (Db.OF_DA db) /\ s = select_active (a, v) /\
       forall p c,
         Db.PRODUIT a = Some p -> Db.CATEGORIE a = Some c ->
         has (TEMPS_UNITAIRE_HISTORIQUE s)
             (avg_unit_time p c (Db.HISTO_OF_DA db))) /\
  (forall self lk db e date_debut date_fin statut_filter famille_filter
          client_filter alerte_filter df r p c,
     snd (execute_query self lk
            (read_sql (of_da_query Db.LANCEMENT_AU_PLUS_TARD db date_debut
                         date_fin statut_filter famille_filter client_filter)))
     <> [] ->
     snd (get_of_data self lk db e date_debut date_fin statut_filter
            famille_filter client_filter alerte_filter) = Ok df ->
     In r df ->
     PRODUIT r = Some p -> FAMILLE_TECHNIQUE r = c -> c <> sentinel_famille ->
     has (TEMPS_UNITAIRE_HISTORIQUE r)
         (avg_unit_time p c (Db.HISTO_OF_DA db))) /\
  (forall p c HISTO,
     (forall h, In h HISTO -> qualifies p c h = false) ->
     avg_unit_time p c HISTO = 0) /\
  (forall p c HISTO h,
     qualifies p c h = false ->
     avg_unit_time p c (h :: HISTO) = avg_unit_time p c HISTO).
Proof.
  split; [| split; [| split]].
  - intros dc db dd df sf ff cf s Hs.
    apply of_da_query_row in Hs. destruct Hs as (a & v & Hj & -> & _).
    exists a, v. split; [exact (left_join_left _ _ _ _ Hj) |].
    split; [reflexivity |]. intros p c Hp Hc. cbn.
    rewrite (joined_baseline db a v p c Hj Hp Hc). apply Qeq_refl.
  - intros self lk db e dd df sf ff cf af frame r p c Hne H Hr Hp Hf Hc.
    destruct (get_of_data_rows _ _ _ _ _ _ _ _ _ _ _ H r Hr) as [r0 [H0 Hsrc]].
    destruct Hsrc as [Hq | [Hq _]]; [| contradiction].
    destruct (calc_row_keeps _ _ H0) as (_ & Ep & _ & _ & _ & Ef & Et).
    rewrite Et. rewrite Ep in Hp. rewrite Ef in Hf. clear Ep Ef Et.
    apply execute_query_In in Hq. apply read_sql_In in Hq.
    destruct Hq as (s & m1 & m2 & m3 & m4 & m5 & m6 & m7 & Hs & -> & _).
    apply of_da_query_row in Hs. destruct Hs as (a & v & Hj & -> & _).
    cbn in Hp, Hf |- *.
    assert (Hcat : Db.CATEGORIE a = Some c).
    { destruct (Db.CATEGORIE a) as [c' |]; cbn in Hf; congruence. }
    rewrite (joined_baseline db a v p c Hj Hp Hcat). apply Qeq_refl.
  - intros p c HISTO Hall. unfold avg_unit_time.
    destruct (filter (qualifies p c) HISTO) as [| h hs] eqn:E; [reflexivity |].
    assert (Hh : In h (filter (qualifies p c) HISTO))
      by (rewrite E; left; reflexivity).
    apply filter_In in Hh. destruct Hh as [Hin Hq].
    rewrite (Hall h Hin) in Hq. discriminate.
  - intros p c HISTO h Hq. unfold avg_unit_time. cbn [filter].
    rewrite Hq. reflexivity.
Qed.

Lemma baseline_is_historical_mean_witness :
  (exists a v,
     In a (Db.OF_DA with_history) /\
     first_row (of_da_query Db.LANCEMENT_AU_PLUS_TARD with_history
                  None None None None None) = select_active (a, v) /\
     forall p c,
       Db.PRODUIT a = Some p -> Db.CATEGORIE a = Some c ->
       has (TEMPS_UNITAIRE_HISTORIQUE
              (first_row (of_da_query Db.LANCEMENT_AU_PLUS_TARD with_history
                            None None None None None)))
           (avg_unit_time p c (Db.HISTO_OF_DA with_history))) /\
  has (TEMPS_UNITAIRE_HISTORIQUE
         (first_row
            (frame_or_empty
               (snd (get_of_data fresh link_up with_history entropy0
                       None None None None None None)))))
      (avg_unit_time "P1" "USINAGE" (Db.HISTO_OF_DA with_history)) /\
  avg_unit_time "P1" "USINAGE" (Db.HISTO_OF_DA with_history) == 3 /\
  avg_unit_time "P1" "SOUDURE" (Db.HISTO_OF_DA with_history) = 0 /\
  avg_unit_time "P1" "USINAGE"
    (archived "F0004" 10 1 20 (Some 10) (Some 0) (Some 10) (Some 20)
     :: firstn 2 (Db.HISTO_OF_DA with_history))
  = avg_unit_time "P1" "USINAGE" (firstn 2 (Db.HISTO_OF_DA with_history)).
Proof.
  destruct baseline_is_historical_mean as (HA & HB & HC & HD).
  split; [| split; [| split; [| split]]].
  - apply (HA Db.LANCEMENT_AU_PLUS_TARD with_history None None None None None).
    vm_compute. left. reflexivity.
  - apply (HB fresh link_up with_history entropy0 None None None None None None
             (frame_or_empty
                (snd (get_of_data fresh link_up with_history entropy0
                        None None None None None None)))).
    + vm_compute. discriminate.
    + vm_compute. reflexivity.
    + vm_compute. left. reflexivity.
    + vm_compute. reflexivity.
    + vm_compute. reflexivity.
    + vm_compute. discriminate.
  - vm_compute. reflexivity.
  - apply HC. intros h [<- | [<- | [<- | []]]]; reflexivity.
  - apply HD. reflexivity.
Defined.

(** ** Status distribution *)

Lemma count_occ_cons_sum (x : string) (xs keys : list string) :
  list_sum (map (count_occ string_dec (x :: xs)) keys) =
  (list_sum (map (count_occ string_dec xs) keys) + count_occ string_dec keys x)%nat.
Proof.
  induction keys as [| s t IH]; [reflexivity |].
  change (list_sum (map (count_occ string_dec (x :: xs)) (s :: t)))
    with (count_occ string_dec (x :: xs) s
          + list_sum (map (count_occ string_dec (x :: xs)) t))%nat.
  change (list_sum (map (count_occ string_dec xs) (s :: t)))
    with (count_occ string_dec xs s
          + list_sum (map (count_occ string_dec xs) t))%nat.
  rewrite IH. cbn [count_occ].
  destruct (string_dec x s) as [-> | Hne].
  - destruct (string_dec s s) as [_ | Hc]; [lia | contradiction].
  - destruct (string_dec s x) as [Heq | _]; [congruence | lia].
Qed.

Lemma count_occ_nodup_sum (l : list string) :
  list_sum (map (count_occ string_dec l) (nodup string_dec l)) = List.length l.
Proof.
  induction l as [| x xs IH]; [reflexivity |].
  cbn [nodup]. destruct (in_dec string_dec x xs) as [Hin | Hout].
  - rewrite count_occ_cons_sum, IH.
    assert (H1 : count_occ string_dec (nodup string_dec xs) x = 1%nat).
    { apply NoDup_count_occ'; [apply NoDup_nodup | apply nodup_In; exact Hin]. }
    rewrite H1. cbn [List.length]. lia.
  - change (list_sum (map (count_occ string_dec (x :: xs))
                          (x :: nodup string_dec xs)))
      with (count_occ string_dec (x :: xs) x
            + list_sum (map (count_occ string_dec (x :: xs))
                            (nodup string_dec xs)))%nat.
    rewrite count_occ_cons_sum, IH.
    assert (H0 : count_occ string_dec (nodup string_dec xs) x = 0%nat).
    { apply count_occ_not_In. rewrite nodup_In. exact Hout. }
    assert (H0' : count_occ string_dec xs x = 0%nat).
    { apply count_occ_not_In. exact Hout. }
    rewrite H0. cbn [count_occ].
    destruct (string_dec x x) as [_ | Hc]; [| contradiction].
    rewrite H0'. cbn [List.length]. lia.
Qed.









Example status_distribution_example :
  _get_status_distribution [scenario_A_row; late_history_row; scenario_A_row] =
  Distribution [("T", 1%nat); ("C", 2%nat)]
    [("T", percentage 1 3); ("C", percentage 2 3)] 3.
Proof. reflexivity. Qed.

(** ** Failures of the query layer and sample data *)

Lemma execute_query_all_reads_fail (self : analyzer) (lk : link)
  (answer : DataFrame) :
  engine_read_ok lk = false -> conn_read_ok lk = false ->
  retry_read_ok lk = false ->
  snd (execute_query self lk answer) = [].
Proof.
  unfold execute_query, execute_query_pyodbc, _connect.
  destruct self as [c g s], lk as [a b c' d e]; simpl.
  intros -> -> ->.
  destruct g, c, b; simpl; reflexivity.
Qed.

Lemma sample_filters_subset (date_debut date_fin : option date)
  (statut_filter famille_filter client_filter : option string)
  (df : DataFrame) (r : row) :
  In r (sample_filters date_debut date_fin statut_filter famille_filter
          client_filter df) -> In r df.
Proof.
  unfold sample_filters.
  destruct date_fin, date_debut, (truthy_str client_filter),
    (truthy_str famille_filter), (truthy_str statut_filter);
    intros H; repeat (apply filter_In in H; destruct H as [H _]); exact H.
Qed.

Lemma sample_data_length (e : entropy) : List.length (_create_sample_data e) = 50%nat.
Proof. unfold _create_sample_data. rewrite length_map, length_seq. reflexivity. Qed.

(** ** [get_of_data] returns a frame *)

Lemma mapM_returns {A B : Type} (f : A -> outcome B) (l : list A) :
  (forall x, In x l -> exists y, f x = Ok y) -> exists l', mapM f l = Ok l'.
Proof.
  induction l as [| x t IH]; intros H.
  - exists []. reflexivity.
  - destruct (H x (or_introl eq_refl)) as [y Hy].
    destruct IH as [ys Hys]; [intros z Hz; apply H; right; exact Hz |].
    exists (y :: ys). cbn [mapM]. rewrite Hy. cbn [Py.bind].
    rewrite Hys. reflexivity.
Qed.

Lemma ratio_lambda_returns (num den : cell) :
  num <> PyNone ->
  exists v, ratio_lambda num den = Ok v /\ v <> PyNone.
Proof.
  unfold ratio_lambda, truthy, ne_zero, Qnonzero, div. intros Hn.
  destruct num as [| | n]; [contradiction | |];
    destruct den as [| | d]; cbn [negb andb];
    try destruct (Qeq_bool d 0); cbn [negb andb];
    eexists; (split; [reflexivity | discriminate]).
Qed.

Lemma efficacite_lambda_returns (r : row) (p t : cell) :
  Avancement_PROD r = Some p -> Avancement_temps r = Some t ->
  p <> PyNone -> t <> PyNone ->
  exists v, efficacite_lambda r = Ok v.
Proof.
  intros Hp Ht Np Nt. unfold efficacite_lambda. rewrite Hp, Ht.
  cbn [getitem Py.bind]. unfold truthy, ne_zero, Qnonzero, div.
  destruct p as [| | p], t as [| | t]; try contradiction; cbn [negb andb];
    try destruct (Qeq_bool t 0); cbn [negb andb]; eauto.
Qed.

Lemma gt_returns (x y : cell) :
  x <> PyNone -> y <> PyNone -> exists b, gt x y = Ok b.
Proof. destruct x, y; try contradiction; cbn; eauto. Qed.

Lemma calc_row_returns (r0 : row) :
  CUMUL_ENTREES r0 <> PyNone -> CUMUL_TEMPS_PASSES r0 <> PyNone ->
  exists r, calc_row r0 = Ok r.
Proof.
  intros Hn Ht. unfold calc_row.
  destruct (ratio_lambda_returns _ (QUANTITE_DEMANDEE r0) Hn) as [v1 [-> H1]].
  cbn [Py.bind].
  change (CUMUL_TEMPS_PASSES (set_Avancement_PROD r0 v1))
    with (CUMUL_TEMPS_PASSES r0).
  change (DUREE_PREVUE (set_Avancement_PROD r0 v1)) with (DUREE_PREVUE r0).
  destruct (ratio_lambda_returns _ (DUREE_PREVUE r0) Ht) as [v2 [-> H2]].
  cbn -[gt efficacite_lambda].
  destruct (gt_returns v2 v1 H2 H1) as [b ->].
  cbn -[efficacite_lambda].
  destruct (defaults_keep
              (set_Alerte_temps
                 (set_Avancement_temps (set_Avancement_PROD r0 v1) v2) b))
    as (_ & _ & (Kp & Ka & _)).
  match goal with
  | |- exists r, (v6 <- efficacite_lambda ?r5 ;; _) = _ =>
      destruct (efficacite_lambda_returns r5 v1 v2 Kp Ka H1 H2) as [v6 ->]
  end.
  cbn [Py.bind]. eauto.
Qed.

Lemma calculated_columns_returns (alerte_filter : option bool) (df : DataFrame) :
  (forall r0, In r0 df ->
              CUMUL_ENTREES r0 <> PyNone /\ CUMUL_TEMPS_PASSES r0 <> PyNone) ->
  exists df', calculated_columns alerte_filter df = Ok df'.
Proof.
  intros Hsrc. unfold calculated_columns.
  destruct (mapM_returns
              (fun r => v <- ratio_lambda (CUMUL_ENTREES r) (QUANTITE_DEMANDEE r) ;;
                        Ok (set_Avancement_PROD r v)) df) as [df1 H1].
  { intros r Hr.
    destruct (ratio_lambda_returns _ (QUANTITE_DEMANDEE r) (proj1 (Hsrc r Hr)))
      as [v [-> _]]. cbn. eauto. }
  assert (I1 : forall r1, In r1 df1 ->
               CUMUL_TEMPS_PASSES r1 <> PyNone /\
               exists p, Avancement_PROD r1 = Some p /\ p <> PyNone).
  { intros r1 Hr1. destruct (assign_In _ _ _ _ H1 r1 Hr1) as (r & v & Hr & Hv & ->).
    split; [exact (proj2 (Hsrc r Hr)) |].
    exists v. split; [reflexivity |].
    destruct (ratio_lambda_returns _ (QUANTITE_DEMANDEE r) (proj1 (Hsrc r Hr)))
      as [v' [Hv' Hn]]. congruence. }
  unfold assign at 1. rewrite H1. cbn [Py.bind].
  destruct (mapM_returns
              (fun r => v <- ratio_lambda (CUMUL_TEMPS_PASSES r) (DUREE_PREVUE r) ;;
                        Ok (set_Avancement_temps r v)) df1) as [df2 H2].
  { intros r Hr.
    destruct (ratio_lambda_returns _ (DUREE_PREVUE r) (proj1 (I1 r Hr)))
      as [v [-> _]]. cbn. eauto. }
  assert (I2 : forall r2, In r2 df2 ->
               exists p t, Avancement_PROD r2 = Some p /\ p <> PyNone /\
                           Avancement_temps r2 = Some t /\ t <> PyNone).
  { intros r2 Hr2. destruct (assign_In _ _ _ _ H2 r2 Hr2) as (r & v & Hr & Hv & ->).
    destruct (I1 r Hr) as [Ht (p & Hp & Np)].
    exists p, v. repeat split; try assumption.
    destruct (ratio_lambda_returns _ (DUREE_PREVUE r) Ht) as [v' [Hv' Hn]].
    congruence. }
  unfold assign at 1. rewrite H2. cbn [Py.bind].
  destruct (mapM_returns
              (fun r => v <- (t <- getitem (Avancement_temps r) ;;
                              p <- getitem (Avancement_PROD r) ;; gt t p) ;;
                        Ok (set_Alerte_temps r v)) df2) as [df3 H3].
  { intros r Hr. destruct (I2 r Hr) as (p & t & -> & Np & -> & Nt).
    cbn [getitem Py.bind]. destruct (gt_returns t p Nt Np) as [b ->].
    cbn. eauto. }
  assert (I3 : forall r3, In r3 df3 ->
               exists p t, Avancement_PROD r3 = Some p /\ p <> PyNone /\
                           Avancement_temps r3 = Some t /\ t <> PyNone).
  { intros r3 Hr3. destruct (assign_In _ _ _ _ H3 r3 Hr3) as (r & v & Hr & Hv & ->).
    exact (I2 r Hr). }
  unfold assign at 1. rewrite H3. cbn [Py.bind].
  apply mapM_returns. intros r5 Hr5.
  assert (Hin : In r5 (map default_COMPLETION_STATUS
                         (map default_DATA_SOURCE df3))).
  { destruct alerte_filter as [[|] |]; try exact Hr5.
    apply filter_In in Hr5. tauto. }
  apply in_map_iff in Hin. destruct Hin as [r4 [<- Hin]].
  apply in_map_iff in Hin. destruct Hin as [r3 [<- Hin]].
  destruct (I3 r3 Hin) as (p & t & Hp & Np & Ht & Nt).
  destruct (defaults_keep r3) as (_ & _ & (Kp & Ka & _)).
  rewrite <- Kp in Hp. rewrite <- Ka in Ht.
  destruct (efficacite_lambda_returns _ p t Hp Ht Np Nt) as [v6 ->].
  cbn. eauto.
Qed.

(** [get_of_data] returns a frame whenever no numerator handed back by the
    query layer is [None]; the sample records hold numbers only. *)
Lemma get_of_data_returns (self : analyzer) (lk : link) (db : Db.database)
  (e : entropy) (date_debut date_fin : option date)
  (statut_filter famille_filter client_filter : option string)
  (alerte_filter : option bool) :
  (forall r0,
     In r0 (snd (execute_query self lk
                   (read_sql (of_da_query Db.LANCEMENT_AU_PLUS_TARD db
                                date_debut date_fin statut_filter
                                famille_filter client_filter)))) ->
     CUMUL_ENTREES r0 <> PyNone /\ CUMUL_TEMPS_PASSES r0 <> PyNone) ->
  exists df,
    snd (get_of_data self lk db e date_debut date_fin statut_filter
           famille_filter client_filter alerte_filter) = Ok df.
Proof.
  unfold get_of_data.
  destruct (execute_query self lk _) as [self1 df1]. cbn [snd]. intros Hsrc.
  destruct (empty df1 && negb (_sample_data_created self1)); cbn [snd].
  - destruct (empty (sample_filters _ _ _ _ _ _)) eqn:E; cbn [negb]; [eauto |].
    apply calculated_columns_returns. intros r0 Hr0.
    apply sample_filters_subset in Hr0. unfold _create_sample_data in Hr0.
    apply in_map_iff in Hr0. destruct Hr0 as [i [<- _]].
    split; discriminate.
  - destruct (empty df1); cbn [negb]; [eauto |].
    apply calculated_columns_returns. exact Hsrc.
Qed.

(** C2 (counterexample).  An analyzer that could not connect, over a link
    that stays down: the query layer hands back no row and [get_of_data]
    returns fabricated rows, the first numbered F1000. *)
Lemma synthetic_rows_after_failure : ~ never_synthetic.
Proof.
  intros H.
  specialize (H offline link_down scenario_A entropy0 None None None None None
                None
                (frame_or_empty
                   (snd (get_of_data offline link_down scenario_A entropy0
                           None None None None None None)))).
  cbv zeta in H.
  assert (H1 : snd (execute_query offline link_down
                      (read_sql (of_da_query Db.LANCEMENT_AU_PLUS_TARD
                                   scenario_A None None None None None))) = [])
    by reflexivity.
  assert (H2 : snd (get_of_data offline link_down scenario_A entropy0
                      None None None None None None)
               = Ok (frame_or_empty
                       (snd (get_of_data offline link_down scenario_A entropy0
                               None None None None None None))))
    by (vm_compute; reflexivity).
  specialize (H H1 H2
                (first_row
                   (frame_or_empty
                      (snd (get_of_data offline link_down scenario_A entropy0
                              None None None None None None))))).
  rewrite H1 in H. apply H. vm_compute. left. reflexivity.
Qed.

Example sample_rows_after_failure :
  map NUMERO_OFDA
    (firstn 3 (frame_or_empty
                 (snd (get_of_data offline link_down scenario_A entropy0
                         None None None None None None))))
  = ["F1000"; "F1001"; "F1002"].
Proof. vm_compute. reflexivity. Qed.

(** C2 (amended).  When every read fails [execute_query] returns the empty
    frame instead of an error.  When the query layer hands back no row and
    the analyzer has not created sample data before, [get_of_data] marks the
    analyzer and answers from the 50 generated sample records, filtered by
    its arguments; when it has, the answer is empty.  When the query layer
    hands back rows, every returned row is one of them. *)
Theorem sample_data_fallback (self : analyzer) (lk : link) (db : Db.database)
  (e : entropy) (date_debut date_fin : option date)
  (statut_filter famille_filter client_filter : option string)
  (alerte_filter : option bool) :
  let q := execute_query self lk
             (read_sql (of_da_query Db.LANCEMENT_AU_PLUS_TARD db date_debut
                          date_fin statut_filter famille_filter client_filter)) in
  let result := get_of_data self lk db e date_debut date_fin statut_filter
                  famille_filter client_filter alerte_filter in
  let sample := sample_filters date_debut date_fin statut_filter
                  famille_filter client_filter (_create_sample_data e) in
  (engine_read_ok lk = false -> conn_read_ok lk = false ->
   retry_read_ok lk = false -> snd q = []) /\
  (snd q = [] -> _sample_data_created self = false ->
   fst result = mk_analyzer (connection (fst q)) (engine (fst q)) true /\
   snd result = (if negb (empty sample)
                 then calculated_columns alerte_filter sample
                 else Ok sample) /\
   List.length (_create_sample_data e) = 50%nat /\
   forall df, snd result = Ok df -> rows_from (_create_sample_data e) df) /\
  (snd q = [] -> _sample_data_created self = true ->
   result = (fst q, Ok [])) /\
  (snd q <> [] ->
   fst result = fst q /\
   forall df, snd result = Ok df -> rows_from (snd q) df).
Proof.
  intros q result sample.
  split; [| split; [| split]].
  - apply execute_query_all_reads_fail.
  - intros Hq Hflag.
    assert (Hf : _sample_data_created (fst q) = false).
    { unfold q. rewrite execute_query_flag. exact Hflag. }
    assert (Hres : result =
              (mk_analyzer (connection (fst q)) (engine (fst q)) true,
               if negb (empty sample)
               then calculated_columns alerte_filter sample
               else Ok sample)).
    { unfold result, get_of_data. fold q. destruct q as [self1 df1].
      cbn [fst snd] in *. subst df1. rewrite Hf. reflexivity. }
    split; [rewrite Hres; reflexivity |].
    split; [rewrite Hres; reflexivity |].
    split; [apply sample_data_length |].
    intros df Hdf r Hr. unfold result in Hdf.
    destruct (get_of_data_rows _ _ _ _ _ _ _ _ _ _ _ Hdf r Hr) as [r0 [H0 Hsrc]].
    destruct (calc_row_keeps _ _ H0) as (-> & _).
    apply in_map. destruct Hsrc as [Hin | [_ Hin]].
    + fold q in Hin. rewrite Hq in Hin. contradiction.
    + exact (sample_filters_subset _ _ _ _ _ _ _ Hin).
  - intros Hq Hflag.
    assert (Hf : _sample_data_created (fst q) = true).
    { unfold q. rewrite execute_query_flag. exact Hflag. }
    unfold result, get_of_data. fold q. destruct q as [self1 df1].
    cbn [fst snd] in *. subst df1. rewrite Hf. reflexivity.
  - intros Hq. split.
    + unfold result, get_of_data. fold q. destruct q as [self1 df1].
      cbn [fst snd] in *. destruct df1; [contradiction | reflexivity].
    + intros df Hdf r Hr.
      destruct (get_of_data_rows _ _ _ _ _ _ _ _ _ _ _ Hdf r Hr) as [r0 [H0 Hsrc]].
      destruct (calc_row_keeps _ _ H0) as (-> & _).
      apply in_map. destruct Hsrc as [Hin | [Hnil _]].
      * exact Hin.
      * contradiction.
Qed.

Lemma sample_data_fallback_witness :
  snd (execute_query offline link_down (frame_of scenario_A)) = [] /\
  (fst (get_of_data_all offline link_down scenario_A)
     = mk_analyzer false false true /\
   List.length (_create_sample_data entropy0) = 50%nat /\
   rows_from (_create_sample_data entropy0)
     (frame_or_empty (snd (get_of_data_all offline link_down scenario_A)))) /\
  get_of_data_all offline_again link_down scenario_A = (offline_again, Ok []) /\
  rows_from (frame_of scenario_A)
    (frame_or_empty (snd (get_of_data_all fresh link_up scenario_A))).
Proof.
  split; [| split; [| split]].
  - apply (proj1 (sample_data_fallback offline link_down scenario_A entropy0
                    None None None None None None)); reflexivity.
  - destruct (proj1 (proj2 (sample_data_fallback offline link_down scenario_A
                              entropy0 None None None None None None))
                eq_refl eq_refl) as (H1 & _ & H3 & H4).
    split; [exact H1 |]. split; [exact H3 |].
    apply H4. vm_compute. reflexivity.
  - apply (proj1 (proj2 (proj2 (sample_data_fallback offline_again link_down
                                  scenario_A entropy0
                                  None None None None None None))));
      reflexivity.
  - assert (Hne : snd (execute_query fresh link_up (frame_of scenario_A)) <> [])
      by (vm_compute; discriminate).
    apply (proj2 (proj2 (proj2 (proj2 (sample_data_fallback fresh link_up
                                         scenario_A entropy0
                                         None None None None None None))) Hne)).
    vm_compute. reflexivity.
Defined.

(** ** Ordering of the merged frame *)

Section Ordering.

Variable A : Type.
Variable k : A -> option date.

Lemma date_leb_total (x y : option date) :
  date_leb x y = false -> date_leb y x = true.
Proof.
  destruct x as [a |], y as [b |]; simpl; try congruence.
  intros H. apply Z.leb_gt in H. apply Z.leb_le. lia.
Qed.

Lemma date_leb_trans (x y z : option date) :
  date_leb x y = true -> date_leb y z = true -> date_leb x z = true.
Proof.
  destruct x as [a |], y as [b |], z as [c |]; simpl; try congruence.
  rewrite !Z.leb_le. lia.
Qed.

Lemma insert_desc_sorted (x : A) (l : list A) :
  StronglySorted (before k) l -> StronglySorted (before k) (insert_desc k x l).
Proof.
  induction 1 as [| y t Hs IH Hy]; simpl.
  - constructor; constructor.
  - destruct (date_leb (k y) (k x)) eqn:E.
    + constructor.
      * constructor; assumption.
      * constructor; [exact E |].
        rewrite Forall_forall in Hy |- *. intros z Hz.
        unfold before in *. eapply date_leb_trans; [apply Hy, Hz | exact E].
    + constructor; [exact IH |].
      rewrite Forall_forall in Hy |- *. intros z Hz.
      apply In_insert_desc in Hz. destruct Hz as [-> | Hz].
      * unfold before. apply date_leb_total. exact E.
      * apply Hy, Hz.
Qed.

Lemma order_by_desc_sorted (l : list A) :
  StronglySorted (before k) (order_by_desc k l).
Proof.
  unfold order_by_desc. induction l as [| x t IH]; simpl.
  - constructor.
  - apply insert_desc_sorted. exact IH.
Qed.

Lemma filter_sorted (R : A -> A -> Prop) (f : A -> bool) (l : list A) :
  StronglySorted R l -> StronglySorted R (filter f l).
Proof.
  induction 1 as [| y t Hs IH Hy]; simpl; [constructor |].
  destruct (f y); [| exact IH].
  constructor; [exact IH |].
  rewrite Forall_forall in Hy |- *. intros z Hz.
  apply filter_In in Hz. apply Hy. tauto.
Qed.

End Ordering.

Lemma map_sorted {A B : Type} (R : B -> B -> Prop) (f : A -> B) (l : list A) :
  StronglySorted (fun a b => R (f a) (f b)) l -> StronglySorted R (map f l).
Proof.
  induction 1 as [| y t Hs IH Hy]; simpl; constructor; [exact IH |].
  rewrite Forall_forall in Hy |- *. intros z Hz.
  apply in_map_iff in Hz. destruct Hz as [a [<- Ha]]. apply Hy, Ha.
Qed.

Lemma sorted_desc_filter (f : row -> bool) (df : DataFrame) :
  sorted_desc df -> sorted_desc (filter f df).
Proof.
  unfold sorted_desc. induction df as [| r t IH]; simpl; [auto |].
  intros H. inversion H as [| x l Hs Hx]; subst.
  destruct (f r); simpl; [| auto].
  constructor; [auto |].
  rewrite Forall_forall in Hx |- *. intros z Hz.
  apply Hx. apply in_map_iff in Hz. destruct Hz as [a [<- Ha]].
  apply in_map. apply filter_In in Ha. tauto.
Qed.

Lemma read_sql_deadlines (rows : list row) :
  map LANCEMENT_AU_PLUS_TARD (read_sql rows) = map LANCEMENT_AU_PLUS_TARD rows.
Proof. unfold read_sql. rewrite map_map. reflexivity. Qed.

Lemma of_da_query_sorted (date_col : Db.row -> option date) (db : Db.database)
  (date_debut date_fin : option date)
  (statut_filter famille_filter client_filter : option string) :
  sorted_desc (read_sql (of_da_query date_col db date_debut date_fin
                           statut_filter famille_filter client_filter)).
Proof.
  unfold sorted_desc. rewrite read_sql_deadlines. unfold of_da_query.
  rewrite map_map. cbn [select_active LANCEMENT_AU_PLUS_TARD].
  apply (map_sorted (fun x y => date_leb y x = true)
           (fun j => Db.LANCEMENT_AU_PLUS_TARD (fst j))).
  apply (order_by_desc_sorted _ (fun j => Db.LANCEMENT_AU_PLUS_TARD (fst j))).
Qed.

Lemma histo_of_da_query_sorted (date_col : Db.row -> option date)
  (db : Db.database) (date_debut date_fin : option date)
  (famille_filter client_filter : option string) :
  sorted_desc (read_sql (histo_of_da_query date_col db date_debut date_fin
                           famille_filter client_filter)).
Proof.
  unfold sorted_desc. rewrite read_sql_deadlines. unfold histo_of_da_query.
  rewrite map_map. cbn [select_histo LANCEMENT_AU_PLUS_TARD].
  apply (map_sorted (fun x y => date_leb y x = true) Db.LANCEMENT_AU_PLUS_TARD).
  apply (order_by_desc_sorted _ Db.LANCEMENT_AU_PLUS_TARD).
Qed.

Lemma execute_query_sorted (self : analyzer) (lk : link) (answer : DataFrame) :
  sorted_desc answer -> sorted_desc (snd (execute_query self lk answer)).
Proof.
  intros H. destruct (execute_query_frame self lk answer) as [-> | ->];
    [exact H | constructor].
Qed.

(** What holds of the merged frame: it is the active rows followed by the
    historical rows, each block in descending order of
    LANCEMENT_AU_PLUS_TARD. *)
Lemma combined_blocks_sorted (self : analyzer) (lk_active lk_histo : link)
  (db : Db.database) (date_debut date_fin : option date)
  (statut_filter famille_filter client_filter : option string)
  (alerte_filter : option bool) :
  let active :=
    get_of_data_with_lance_le_filter self lk_active db date_debut date_fin
      statut_filter famille_filter client_filter alerte_filter in
  let historical :=
    get_histo_of_data_with_lance_le_filter (fst active) lk_histo db
      date_debut date_fin famille_filter client_filter in
  snd (get_combined_of_data self lk_active lk_histo db date_debut date_fin
         statut_filter famille_filter client_filter alerte_filter true)
  = (snd active ++ snd historical)%list /\
  sorted_desc (snd active) /\ sorted_desc (snd historical).
Proof.
  intros active historical. split; [| split].
  - unfold get_combined_of_data. fold active.
    destruct active as [self1 a]. cbn [negb fst snd] in *. fold historical.
    destruct historical as [self2 h]. cbn [snd].
    destruct a, h; cbn; rewrite ?app_nil_r; reflexivity.
  - unfold active, get_of_data_with_lance_le_filter.
    pose proof (execute_query_sorted self lk_active _
                  (of_da_query_sorted Db.LANCE_LE db date_debut date_fin
                     statut_filter famille_filter client_filter)) as H.
    destruct (execute_query self lk_active _) as [self1 df]. cbn [snd] in H.
    destruct (empty df); cbn [snd]; [constructor |].
    destruct alerte_filter as [[|] |]; try apply sorted_desc_filter; exact H.
  - unfold historical, get_histo_of_data_with_lance_le_filter.
    apply execute_query_sorted, histo_of_da_query_sorted.
Qed.

(** C5 (evaluation at the failing input).  With an active order due on day 5
    and an archived order due on day 10, both sources are non-empty and
    [get_combined_of_data] returns the active row before the archived one:
    the merged frame is not in descending order of LANCEMENT_AU_PLUS_TARD. *)
Theorem merged_frame_not_sorted :
  snd (get_of_data_with_lance_le_filter fresh link_up later_history
         None None None None None None) <> [] /\
  snd (get_histo_of_data_with_lance_le_filter fresh link_up later_history
         None None None None) <> [] /\
  map (fun r => (NUMERO_OFDA r, LANCEMENT_AU_PLUS_TARD r))
    (snd (get_combined_of_data fresh link_up link_up later_history
            None None None None None None true))
  = [("F0001", Some 5%Z); ("F0002", Some 10%Z)] /\
  ~ sorted_desc
      (snd (get_combined_of_data fresh link_up link_up later_history
              None None None None None None true)).
Proof.
  split; [vm_compute; discriminate |].
  split; [vm_compute; discriminate |].
  split; [vm_compute; reflexivity |].
  unfold sorted_desc.
  assert (E : map LANCEMENT_AU_PLUS_TARD
                (snd (get_combined_of_data fresh link_up link_up later_history
                        None None None None None None true))
              = [Some 5%Z; Some 10%Z]) by (vm_compute; reflexivity).
  rewrite E. intros H. inversion H as [| x l _ Hx]; subst.
  inversion Hx as [| y l' Hy _]; subst. discriminate Hy.
Qed.

(** * Further properties of the analyzer *)

(** ** The query layer *)

(** X1.  [execute_query] returns the whole frame of its statement or the
    empty frame, never a part of it and never an exception: the frame exactly
    when [delivers] holds.  It leaves [_sample_data_created] alone, and a
    frame delivered without the engine leaves the analyzer connected. *)
Theorem execute_query_delivers (self : analyzer) (lk : link) (answer : DataFrame) :
  snd (execute_query self lk answer) = (if delivers self lk then answer else []) /\
  _sample_data_created (fst (execute_query self lk answer))
  = _sample_data_created self /\
  (delivers self lk = true -> engine self && engine_read_ok lk = false ->
   connection (fst (execute_query self lk answer)) = true).
Proof.
  unfold execute_query, execute_query_pyodbc, delivers, _connect.
  destruct self as [c g s], lk as [er co eo cr rr].
  cbn [connection engine _sample_data_created engine_read_ok connect_ok
       engine_ok conn_read_ok retry_read_ok].
  destruct c, g, er, co, cr, rr; cbn; repeat split; intros; congruence.
Qed.

Lemma execute_query_delivers_witness :
  connection
    (fst (execute_query offline (mk_link false true false false true)
            [scenario_A_row])) = true.
Proof.
  apply (proj2 (proj2 (execute_query_delivers offline
                         (mk_link false true false false true)
                         [scenario_A_row]))); reflexivity.
Defined.

(** ** Sample data across calls *)

(** X2.  [_sample_data_created] is never reset by [get_of_data], and of two
    calls in a row that both get no row from the query layer the second
    returns the empty frame, whatever its arguments. *)
Theorem sample_data_only_once (self : analyzer) (lk lk' : link)
  (db db' : Db.database) (e e' : entropy)
  (date_debut date_fin date_debut' date_fin' : option date)
  (statut_filter famille_filter client_filter : option string)
  (statut_filter' famille_filter' client_filter' : option string)
  (alerte_filter alerte_filter' : option bool) :
  let first_call :=
    get_of_data self lk db e date_debut date_fin statut_filter famille_filter
      client_filter alerte_filter in
  let obtained :=
    snd (execute_query self lk
           (read_sql (of_da_query Db.LANCEMENT_AU_PLUS_TARD db date_debut
                        date_fin statut_filter famille_filter client_filter))) in
  let obtained' :=
    snd (execute_query (fst first_call) lk'
           (read_sql (of_da_query Db.LANCEMENT_AU_PLUS_TARD db' date_debut'
                        date_fin' statut_filter' famille_filter' client_filter'))) in
  (_sample_data_created self = true ->
   _sample_data_created (fst first_call) = true) /\
  (obtained = [] -> obtained' = [] ->
   snd (get_of_data (fst first_call) lk' db' e' date_debut' date_fin'
          statut_filter' famille_filter' client_filter' alerte_filter') = Ok []).
Proof.
  cbv zeta.
  assert (F : forall self lk db e dd df sf ff cf af,
             _sample_data_created
               (fst (get_of_data self lk db e dd df sf ff cf af)) =
             _sample_data_created self
             || empty (snd (execute_query self lk
                              (read_sql (of_da_query Db.LANCEMENT_AU_PLUS_TARD
                                           db dd df sf ff cf))))).
  { intros s0 l0 d0 e0 dd df sf ff cf af. unfold get_of_data.
    pose proof (execute_query_flag s0 l0
                  (read_sql (of_da_query Db.LANCEMENT_AU_PLUS_TARD d0 dd df sf ff cf)))
      as Hf.
    destruct (execute_query s0 l0 _) as [s1 q]. cbn [fst snd] in *.
    rewrite <- Hf.
    destruct (empty q), (_sample_data_created s1) eqn:E; cbn; auto. }
  split.
  - intros H. rewrite F, H. reflexivity.
  - intros H H'.
    pose proof (F self lk db e date_debut date_fin statut_filter famille_filter
                  client_filter alerte_filter) as Hflag.
    rewrite H in Hflag. cbn [empty] in Hflag. rewrite orb_true_r in Hflag.
    revert H' Hflag.
    generalize (fst (get_of_data self lk db e date_debut date_fin statut_filter
                       famille_filter client_filter alerte_filter)).
    intros self1 H' Hflag. unfold get_of_data.
    pose proof (execute_query_flag self1 lk'
                  (read_sql (of_da_query Db.LANCEMENT_AU_PLUS_TARD db' date_debut'
                               date_fin' statut_filter' famille_filter'
                               client_filter'))) as Hf.
    destruct (execute_query self1 lk' _) as [s2 q2]. cbn [fst snd] in *.
    subst q2. rewrite Hf, Hflag. reflexivity.
Qed.

Lemma sample_data_only_once_witness :
  _sample_data_created (fst (get_of_data_all offline_again link_up scenario_A)) = true /\
  snd (get_of_data (fst (get_of_data_all offline link_down scenario_A)) link_down
         one_alert entropy0 None None (Some "T") None None (Some true)) = Ok [].
Proof.
  split.
  - apply (proj1 (sample_data_only_once offline_again link_up link_up
                    scenario_A scenario_A entropy0 entropy0
                    None None None None None None None None None None None None)).
    reflexivity.
  - apply (proj2 (sample_data_only_once offline link_down link_down
                    scenario_A one_alert entropy0 entropy0
                    None None None None None None None (Some "T") None None
                    None (Some true))); reflexivity.
Defined.

(** ** When [get_of_data] raises *)

Lemma mapM_raises {A B : Type} (f : A -> outcome B) (l : list A) (e : exn) :
  (exists x, In x l /\ exists e', f x = Raise e') ->
  (forall x e', In x l -> f x = Raise e' -> e' = e) ->
  mapM f l = Raise e.
Proof.
  induction l as [| a t IH]; intros [x [Hin [e0 Hx]]] Hall.
  - destruct Hin.
  - cbn [mapM]. destruct (f a) as [y | e1] eqn:Ea.
    + cbn [Py.bind]. destruct Hin as [-> | Hin]; [congruence |].
      rewrite IH; [reflexivity | eauto |].
      intros z e' Hz. apply Hall. right. exact Hz.
    + cbn [Py.bind]. f_equal. apply (Hall a); [left; reflexivity | exact Ea].
Qed.

Lemma mapM_forward {A B : Type} (f : A -> outcome B) (l : list A) :
  forall l', mapM f l = Ok l' ->
  forall x, In x l -> exists y, In y l' /\ f x = Ok y.
Proof.
  induction l as [| a t IH]; intros l' H x Hin.
  - destruct Hin.
  - cbn [mapM] in H. bind_inv H y Hy. bind_inv H ys Hys.
    injection H as <-. destruct Hin as [-> | Hin].
    + exists y. split; [left; reflexivity | exact Hy].
    + destruct (IH ys Hys x Hin) as [z [Hz Hfz]].
      exists z. split; [right; exact Hz | exact Hfz].
Qed.

Lemma ratio_lambda_outcome (num den : cell) :
  (none_over num den = false ->
   exists v, ratio_lambda num den = Ok v /\ v <> PyNone) /\
  (none_over num den = true -> ratio_lambda num den = Raise TypeError).
Proof.
  unfold none_over, ratio_lambda, truthy, ne_zero, Qnonzero, div.
  destruct num as [| | n], den as [| | d]; cbn [negb andb];
    try destruct (Qeq_bool d 0); cbn [negb andb];
    split; intros H; try discriminate; try reflexivity;
    eexists; (split; [reflexivity | discriminate]).
Qed.

Lemma ratio_lambda_raises (num den : cell) (e : exn) :
  ratio_lambda num den = Raise e -> e = TypeError /\ none_over num den = true.
Proof.
  intros H. destruct (none_over num den) eqn:E.
  - rewrite (proj2 (ratio_lambda_outcome num den) E) in H.
    injection H as <-. split; reflexivity.
  - destruct (proj1 (ratio_lambda_outcome num den) E) as [v [Hv _]]. congruence.
Qed.

(** [calculated_columns] returns when no row divides [None], whatever the
    alert filter. *)
Lemma calculated_columns_returns_iff (alerte_filter : option bool) (df : DataFrame) :
  (existsb divides_none df = false ->
   exists df', calculated_columns alerte_filter df = Ok df') /\
  (existsb divides_none df = true ->
   calculated_columns alerte_filter df = Raise TypeError).
Proof.
  split.
  - intros Hnone.
    assert (Hsrc : forall r, In r df ->
              none_over (CUMUL_ENTREES r) (QUANTITE_DEMANDEE r) = false /\
              none_over (CUMUL_TEMPS_PASSES r) (DUREE_PREVUE r) = false).
    { intros r Hr. destruct (divides_none r) eqn:E.
      - assert (existsb divides_none df = true)
          by (apply existsb_exists; exists r; auto).
        congruence.
      - unfold divides_none in E. apply orb_false_iff in E. exact E. }
    unfold calculated_columns.
    destruct (mapM_returns
                (fun r => v <- ratio_lambda (CUMUL_ENTREES r) (QUANTITE_DEMANDEE r) ;;
                          Ok (set_Avancement_PROD r v)) df) as [df1 H1].
    { intros r Hr.
      destruct (proj1 (ratio_lambda_outcome _ _) (proj1 (Hsrc r Hr)))
        as [v [-> _]]. cbn. eauto. }
    assert (I1 : forall r1, In r1 df1 ->
                 none_over (CUMUL_TEMPS_PASSES r1) (DUREE_PREVUE r1) = false /\
                 exists p, Avancement_PROD r1 = Some p /\ p <> PyNone).
    { intros r1 Hr1.
      destruct (assign_In _ _ _ _ H1 r1 Hr1) as (r & v & Hr & Hv & ->).
      split; [exact (proj2 (Hsrc r Hr)) |].
      exists v. split; [reflexivity |].
      destruct (proj1 (ratio_lambda_outcome _ _) (proj1 (Hsrc r Hr)))
        as [v' [Hv' Hn]]. congruence. }
    unfold assign at 1. rewrite H1. cbn [Py.bind].
    destruct (mapM_returns
                (fun r => v <- ratio_lambda (CUMUL_TEMPS_PASSES r) (DUREE_PREVUE r) ;;
                          Ok (set_Avancement_temps r v)) df1) as [df2 H2].
    { intros r Hr.
      destruct (proj1 (ratio_lambda_outcome _ _) (proj1 (I1 r Hr)))
        as [v [-> _]]. cbn. eauto. }
    assert (I2 : forall r2, In r2 df2 ->
                 exists p t, Avancement_PROD r2 = Some p /\ p <> PyNone /\
                             Avancement_temps r2 = Some t /\ t <> PyNone).
    { intros r2 Hr2.
      destruct (assign_In _ _ _ _ H2 r2 Hr2) as (r & v & Hr & Hv & ->).
      destruct (I1 r Hr) as [Ht (p & Hp & Np)].
      exists p, v. repeat split; try assumption.
      destruct (proj1 (ratio_lambda_outcome _ _) Ht) as [v' [Hv' Hn]].
      congruence. }
    unfold assign at 1. rewrite H2. cbn [Py.bind].
    destruct (mapM_returns
                (fun r => v <- (t <- getitem (Avancement_temps r) ;;
                                p <- getitem (Avancement_PROD r) ;; gt t p) ;;
                          Ok (set_Alerte_temps r v)) df2) as [df3 H3].
    { intros r Hr. destruct (I2 r Hr) as (p & t & -> & Np & -> & Nt).
      cbn [getitem Py.bind]. destruct (gt_returns t p Nt Np) as [b ->].
      cbn. eauto. }
    assert (I3 : forall r3, In r3 df3 ->
                 exists p t, Avancement_PROD r3 = Some p /\ p <> PyNone /\
                             Avancement_temps r3 = Some t /\ t <> PyNone).
    { intros r3 Hr3.
      destruct (assign_In _ _ _ _ H3 r3 Hr3) as (r & v & Hr & Hv & ->).
      exact (I2 r Hr). }
    unfold assign at 1. rewrite H3. cbn [Py.bind].
    apply mapM_returns. intros r5 Hr5.
    assert (Hin : In r5 (map default_COMPLETION_STATUS
                           (map default_DATA_SOURCE df3))).
    { destruct alerte_filter as [[|] |]; try exact Hr5.
      apply filter_In in Hr5. tauto. }
    apply in_map_iff in Hin. destruct Hin as [r4 [<- Hin]].
    apply in_map_iff in Hin. destruct Hin as [r3 [<- Hin]].
    destruct (I3 r3 Hin) as (p & t & Hp & Np & Ht & Nt).
    destruct (defaults_keep r3) as (_ & _ & (Kp & Ka & _)).
    rewrite <- Kp in Hp. rewrite <- Ka in Ht.
    destruct (efficacite_lambda_returns _ p t Hp Ht Np Nt) as [v6 ->].
    cbn. eauto.
  - intros Hsome. apply existsb_exists in Hsome.
    destruct Hsome as [r [Hr Hbad]]. unfold calculated_columns.
    set (f1 := fun r => v <- ratio_lambda (CUMUL_ENTREES r) (QUANTITE_DEMANDEE r) ;;
                        Ok (set_Avancement_PROD r v)).
    assert (R1 : forall x e', f1 x = Raise e' -> e' = TypeError).
    { intros x e' Hx. unfold f1 in Hx.
      destruct (ratio_lambda (CUMUL_ENTREES x) (QUANTITE_DEMANDEE x)) eqn:E;
        cbn in Hx; [discriminate |].
      injection Hx as <-. apply (ratio_lambda_raises _ _ _ E). }
    destruct (mapM f1 df) as [df1 | e1] eqn:H1.
    + unfold assign at 1. fold f1. rewrite H1. cbn [Py.bind].
      destruct (mapM_forward f1 df df1 H1 r Hr) as [r1 [Hr1 Hf1]].
      unfold f1 in Hf1. bind_inv Hf1 v Hv. injection Hf1 as <-.
      assert (Hbad2 : none_over (CUMUL_TEMPS_PASSES r) (DUREE_PREVUE r) = true).
      { unfold divides_none in Hbad. apply orb_true_iff in Hbad.
        destruct Hbad as [Hb | Hb]; [| exact Hb].
        rewrite (proj2 (ratio_lambda_outcome _ _) Hb) in Hv. discriminate. }
      set (f2 := fun r => v <- ratio_lambda (CUMUL_TEMPS_PASSES r) (DUREE_PREVUE r) ;;
                          Ok (set_Avancement_temps r v)).
      assert (H2 : mapM f2 df1 = Raise TypeError).
      { apply mapM_raises.
        - exists (set_Avancement_PROD r v). split; [exact Hr1 |].
          exists TypeError. unfold f2.
          change (CUMUL_TEMPS_PASSES (set_Avancement_PROD r v))
            with (CUMUL_TEMPS_PASSES r).
          change (DUREE_PREVUE (set_Avancement_PROD r v)) with (DUREE_PREVUE r).
          rewrite (proj2 (ratio_lambda_outcome _ _) Hbad2). reflexivity.
        - intros x e' _ Hx. unfold f2 in Hx.
          destruct (ratio_lambda (CUMUL_TEMPS_PASSES x) (DUREE_PREVUE x)) eqn:E;
            cbn in Hx; [discriminate |].
          injection Hx as <-. apply (ratio_lambda_raises _ _ _ E). }
      unfold assign at 1. fold f2. rewrite H2. reflexivity.
    + unfold assign at 1. fold f1. rewrite H1. cbn [Py.bind]. f_equal.
      assert (Hex : exists x, In x df /\ exists e', f1 x = Raise e').
      { destruct (existsb (fun x => match f1 x with Raise _ => true | Ok _ => false end) df)
          eqn:E.
        - apply existsb_exists in E. destruct E as [x [Hx Hfx]].
          exists x. split; [exact Hx |]. destruct (f1 x); [discriminate | eauto].
        - destruct (mapM_returns f1 df) as [l' Hl']; [| congruence].
          intros x Hx. destruct (f1 x) as [y | e'] eqn:Efx; [eauto |].
          assert (existsb (fun x => match f1 x with Raise _ => true | Ok _ => false end) df
                  = true).
          { apply existsb_exists. exists x. rewrite Efx. auto. }
          congruence. }
      pose proof (mapM_raises f1 df TypeError Hex (fun x e' _ => R1 x e')) as HT.
      congruence.
Qed.

(** X3.  [get_of_data] raises exactly when the query layer handed back a row
    on which a calculated column divides [None] (a numerator column that
    holds NULL only, over a denominator that passes the guard); the exception
    is then [TypeError].  On an empty result, sample data or not, it
    returns. *)
Theorem get_of_data_raises_on_none_numerator (self : analyzer) (lk : link)
  (db : Db.database) (e : entropy) (date_debut date_fin : option date)
  (statut_filter famille_filter client_filter : option string)
  (alerte_filter : option bool) :
  let obtained :=
    snd (execute_query self lk
           (read_sql (of_da_query Db.LANCEMENT_AU_PLUS_TARD db date_debut
                        date_fin statut_filter famille_filter client_filter))) in
  let result :=
    snd (get_of_data self lk db e date_debut date_fin statut_filter
           famille_filter client_filter alerte_filter) in
  (existsb divides_none obtained = false -> exists df, result = Ok df) /\
  (existsb divides_none obtained = true -> result = Raise TypeError).
Proof.
  cbv zeta. unfold get_of_data.
  destruct (execute_query self lk _) as [self1 df1]. cbn [snd].
  split; intros H.
  - destruct (empty df1 && negb (_sample_data_created self1)); cbn [snd].
    + destruct (empty (sample_filters _ _ _ _ _ _)) eqn:E; cbn [negb]; [eauto |].
      apply calculated_columns_returns. intros r0 Hr0.
      apply sample_filters_subset in Hr0. unfold _create_sample_data in Hr0.
      apply in_map_iff in Hr0. destruct Hr0 as [i [<- _]].
      split; discriminate.
    + destruct (empty df1); cbn [negb]; [eauto |].
      apply (proj1 (calculated_columns_returns_iff alerte_filter df1) H).
  - destruct df1 as [| r t]; [discriminate |].
    cbn [empty andb negb snd].
    apply (proj2 (calculated_columns_returns_iff alerte_filter (r :: t)) H).
Qed.

(** A table whose produced quantities are all NULL. *)
Lemma get_of_data_raises_on_none_numerator_witness :
  (exists df, snd (get_of_data_all fresh link_up scenario_A) = Ok df) /\
  snd (get_of_data fresh link_up
         (Db.mk_database
            [order "F0001" 100 90 (Some 100) None (Some 10) (Some 4)] [])
         entropy0 None None None None None None) = Raise TypeError.
Proof.
  split.
  - apply (proj1 (get_of_data_raises_on_none_numerator fresh link_up scenario_A
                    entropy0 None None None None None None)).
    vm_compute. reflexivity.
  - apply (proj2 (get_of_data_raises_on_none_numerator fresh link_up
                    (Db.mk_database
                       [order "F0001" 100 90 (Some 100) None (Some 10) (Some 4)] [])
                    entropy0 None None None None None None)).
    vm_compute. reflexivity.
Defined.

(** ** The alert filter *)

Lemma mapM_filter {A B : Type} (f : A -> outcome B) (p : A -> bool) (q : B -> bool)
  (l : list A) :
  (forall x y, f x = Ok y -> q y = p x) ->
  forall l', mapM f l = Ok l' -> mapM f (filter p l) = Ok (filter q l').
Proof.
  intros Hpq. induction l as [| a t IH]; intros l' H.
  - cbn in H. injection H as <-. reflexivity.
  - cbn [mapM] in H. bind_inv H y Hy. bind_inv H ys Hys. injection H as <-.
    cbn [filter]. rewrite (Hpq a y Hy). destruct (p a).
    + cbn [mapM]. rewrite Hy. cbn [Py.bind]. rewrite (IH ys Hys). reflexivity.
    + exact (IH ys Hys).
Qed.

(** X4.  [get_of_data] with [alerte_filter=True] returns the alerted rows of
    what it returns without alert filter, in the same order, and leaves the
    analyzer in the same state. *)
Theorem get_of_data_alert_filter_selects (self : analyzer) (lk : link)
  (db : Db.database) (e : entropy) (date_debut date_fin : option date)
  (statut_filter famille_filter client_filter : option string) (df : DataFrame) :
  snd (get_of_data self lk db e date_debut date_fin statut_filter
         famille_filter client_filter None) = Ok df ->
  snd (get_of_data self lk db e date_debut date_fin statut_filter
         famille_filter client_filter (Some true)) = Ok (filter alerted df) /\
  fst (get_of_data self lk db e date_debut date_fin statut_filter
         famille_filter client_filter (Some true))
  = fst (get_of_data self lk db e date_debut date_fin statut_filter
           famille_filter client_filter None).
Proof.
  unfold get_of_data.
  destruct (execute_query self lk _) as [self1 df1].
  destruct (if empty df1 && negb (_sample_data_created self1)
            then _ else _) as [self2 df2].
  cbn [fst snd]. intros H. split; [| reflexivity].
  destruct (empty df2) eqn:E; cbn [negb] in *.
  - injection H as <-. destruct df2; [reflexivity | discriminate].
  - unfold calculated_columns in *.
    bind_inv H d1 H1. bind_inv H d2 H2. bind_inv H d3 H3.
    rewrite H1. cbn [Py.bind]. rewrite H2. cbn [Py.bind]. rewrite H3.
    cbn [Py.bind].
    apply (mapM_filter _ alerted alerted); [| exact H].
    intros x y Hxy. bind_inv Hxy v Hv. injection Hxy as <-. reflexivity.
Qed.

Lemma get_of_data_alert_filter_selects_witness :
  snd (get_of_data fresh link_up one_alert entropy0 None None None None None
         (Some true))
  = Ok (filter alerted
          (frame_or_empty (snd (get_of_data_all fresh link_up one_alert)))).
Proof.
  assert (H : snd (get_of_data fresh link_up one_alert entropy0 None None None
                     None None None)
               = Ok (frame_or_empty (snd (get_of_data_all fresh link_up one_alert))))
    by (vm_compute; reflexivity).
  apply (proj1 (get_of_data_alert_filter_selects fresh link_up one_alert
                  entropy0 None None None None None _ H)).
Defined.

(** X5.  In [get_of_data_with_lance_le_filter] the alert filter partitions
    the unfiltered answer: [True] keeps the rows whose alert is 1, [False]
    those whose alert is 0, every row is in exactly one of the two, and the
    filter does not change what happens to the analyzer. *)
Theorem lance_le_alert_filter_partitions (self : analyzer) (lk : link)
  (db : Db.database) (date_debut date_fin : option date)
  (statut_filter famille_filter client_filter : option string) :
  let answer af :=
    get_of_data_with_lance_le_filter self lk db date_debut date_fin
      statut_filter famille_filter client_filter af in
  snd (answer (Some true)) = filter (alerte_is true) (snd (answer None)) /\
  snd (answer (Some false)) = filter (alerte_is false) (snd (answer None)) /\
  Forall (fun r => alerte_is true r = negb (alerte_is false r)) (snd (answer None)) /\
  (List.length (snd (answer (Some true))) + List.length (snd (answer (Some false))))%nat
  = List.length (snd (answer None)) /\
  fst (answer (Some true)) = fst (answer None) /\
  fst (answer (Some false)) = fst (answer None).
Proof.
  cbv zeta.
  assert (P : Forall (fun r => alerte_is true r = negb (alerte_is false r))
                (snd (get_of_data_with_lance_le_filter self lk db date_debut
                        date_fin statut_filter famille_filter client_filter None))).
  { apply Forall_forall. intros r Hr.
    apply lance_le_alert_is_time_overrun in Hr. unfold alerte_is.
    destruct (Alerte_temps r) as [[|] |]; [reflexivity | reflexivity | discriminate]. }
  revert P. unfold get_of_data_with_lance_le_filter.
  destruct (execute_query self lk _) as [self1 df1].
  destruct (empty df1) eqn:E; cbn [fst snd]; intros P.
  - repeat split; constructor.
  - refine (conj eq_refl (conj eq_refl (conj P (conj _ (conj eq_refl eq_refl))))).
    clear E. induction df1 as [| r t IH]; [reflexivity |].
    inversion P as [| r' t' Hr Ht]; subst. cbn [filter]. rewrite Hr.
    destruct (alerte_is false r); cbn [negb List.length];
      specialize (IH Ht); lia.
Qed.

(** ** The statements, row by row *)

Lemma read_sql_In_markers (rows : list row) (r : row) :
  In r (read_sql rows) ->
  exists s mQD mCE mDP mTP mTU mAP mAT,
    In s rows /\ r = coerce_row mQD mCE mDP mTP mTU mAP mAT s /\
    isna mQD = true /\ isna mCE = true /\ isna mDP = true /\ isna mTP = true /\
    isna mAP = true /\ isna mAT = true.
Proof.
  unfold read_sql. rewrite in_map_iff. intros [s [<- Hs]].
  do 8 eexists. split; [exact Hs |]. split; [reflexivity |].
  repeat split; apply null_marker_isna.
Qed.

Lemma Qgt_bool_lt (a b : Q) : Qgt_bool a b = true -> b < a.
Proof.
  unfold Qgt_bool. intros H. apply negb_true_iff in H.
  apply Qnot_le_lt. intros Hle. apply Qle_bool_iff in Hle. congruence.
Qed.

Lemma Qgt_bool_le (a b : Q) : Qgt_bool a b = false -> a <= b.
Proof.
  unfold Qgt_bool. intros H. apply negb_false_iff in H.
  apply Qle_bool_iff. exact H.
Qed.

(** The [CASE] expression, once its operands and its value have gone through
    [read_sql]. *)
Lemma case_ratio_cells (mN mD mR : cell) (num den : option Q) :
  isna mN = true -> isna mD = true -> isna mR = true ->
  agrees (Some (coerce mR (Sql.to_cell (case_ratio num den))))
         (statement_ratio (coerce mN (Sql.to_cell num)) (coerce mD (Sql.to_cell den))).
Proof.
  intros HN HD HR. unfold case_ratio, statement_ratio, agrees.
  destruct den as [d |]; cbn [Sql.to_cell coerce Sql.gt Sql.holds].
  - destruct (Qgt_bool d 0); cbn [Sql.holds].
    + destruct num as [n |]; cbn [Sql.div Sql.to_cell coerce]; [reflexivity |].
      destruct mN; try discriminate; destruct mR; try discriminate; reflexivity.
    + reflexivity.
  - destruct mD; try discriminate; reflexivity.
Qed.

Lemma statement_ratio_bounds (n d : Q) :
  0 <= n -> n <= d ->
  exists p, statement_ratio (Num n) (Num d) = Some p /\ 0 <= p /\ p <= 1.
Proof.
  intros Hn Hd. unfold statement_ratio.
  destruct (Qgt_bool d 0) eqn:E.
  - apply Qgt_bool_lt in E. exists (n / d). split; [reflexivity |]. split.
    + apply Qle_shift_div_l; [exact E |]. rewrite Qmult_0_l. exact Hn.
    + apply Qle_shift_div_r; [exact E |]. rewrite Qmult_1_l. exact Hd.
  - exists 0. split; [reflexivity |]. split; [apply Qle_refl | discriminate].
Qed.

(** X6.  In the frames whose progress columns come from the statement
    ([get_of_data_with_lance_le_filter] and the two historical functions) the
    progress is the quotient when the denominator is a positive number, and 0
    when the denominator is missing, zero or negative; it is missing only for
    a missing numerator over a positive denominator.  With
    [0 <= produced <= requested] it lies between 0 and 1. *)
Theorem statement_progress_rule (self : analyzer) (lk : link) (db : Db.database)
  (date_debut date_fin : option date)
  (statut_filter famille_filter client_filter : option string)
  (alerte_filter : option bool) (r : row) :
  In r (snd (get_of_data_with_lance_le_filter self lk db date_debut date_fin
               statut_filter famille_filter client_filter alerte_filter)) \/
  In r (snd (get_histo_of_data self lk db date_debut date_fin
               famille_filter client_filter)) \/
  In r (snd (get_histo_of_data_with_lance_le_filter self lk db date_debut
               date_fin famille_filter client_filter)) ->
  agrees (Avancement_PROD r)
         (statement_ratio (CUMUL_ENTREES r) (QUANTITE_DEMANDEE r)) /\
  agrees (Avancement_temps r)
         (statement_ratio (CUMUL_TEMPS_PASSES r) (DUREE_PREVUE r)) /\
  (forall n d, CUMUL_ENTREES r = Num n -> QUANTITE_DEMANDEE r = Num d ->
               0 <= n -> n <= d ->
               exists p, Avancement_PROD r = Some (Num p) /\ 0 <= p /\ p <= 1).
Proof.
  intros H.
  assert (Hsrc : exists s mQD mCE mDP mTP mTU mAP mAT,
             r = coerce_row mQD mCE mDP mTP mTU mAP mAT s /\
             isna mQD = true /\ isna mCE = true /\ isna mDP = true /\
             isna mTP = true /\ isna mAP = true /\ isna mAT = true /\
             ((exists j, s = select_active j) \/ (exists h, s = select_histo h))).
  { destruct H as [H | [H | H]].
    - assert (Hin : In r (snd (execute_query self lk
                                 (read_sql (of_da_query Db.LANCE_LE db date_debut
                                              date_fin statut_filter
                                              famille_filter client_filter))))).
      { revert H. unfold get_of_data_with_lance_le_filter.
        destruct (execute_query self lk _) as [self1 df1]. cbn [snd].
        destruct (empty df1); [intros [] |].
        destruct alerte_filter as [[|] |]; try (intros H; exact H);
          intros H; apply filter_In in H; tauto. }
      apply execute_query_In in Hin. apply read_sql_In_markers in Hin.
      destruct Hin as (s & mQD & mCE & mDP & mTP & mTU & mAP & mAT & Hs & Hr & K).
      apply of_da_query_row in Hs. destruct Hs as (a & v & _ & Hs & _).
      exists s, mQD, mCE, mDP, mTP, mTU, mAP, mAT.
      refine (conj Hr _). repeat (split; [tauto |]). left. eauto.
    - unfold get_histo_of_data in H.
      apply execute_query_In in H. apply read_sql_In_markers in H.
      destruct H as (s & mQD & mCE & mDP & mTP & mTU & mAP & mAT & Hs & Hr & K).
      apply histo_of_da_query_row in Hs. destruct Hs as (h & _ & Hs & _).
      exists s, mQD, mCE, mDP, mTP, mTU, mAP, mAT.
      refine (conj Hr _). repeat (split; [tauto |]). right. eauto.
    - unfold get_histo_of_data_with_lance_le_filter in H.
      apply execute_query_In in H. apply read_sql_In_markers in H.
      destruct H as (s & mQD & mCE & mDP & mTP & mTU & mAP & mAT & Hs & Hr & K).
      apply histo_of_da_query_row in Hs. destruct Hs as (h & _ & Hs & _).
      exists s, mQD, mCE, mDP, mTP, mTU, mAP, mAT.
      refine (conj Hr _). repeat (split; [tauto |]). right. eauto. }
  destruct Hsrc as (s & mQD & mCE & mDP & mTP & mTU & mAP & mAT & -> &
                    KQD & KCE & KDP & KTP & KAP & KAT & Hs).
  assert (P : agrees (Avancement_PROD (coerce_row mQD mCE mDP mTP mTU mAP mAT s))
                (statement_ratio
                   (CUMUL_ENTREES (coerce_row mQD mCE mDP mTP mTU mAP mAT s))
                   (QUANTITE_DEMANDEE (coerce_row mQD mCE mDP mTP mTU mAP mAT s)))).
  { destruct Hs as [[j ->] | [h ->]]; cbn [coerce_row select_active select_histo
      Avancement_PROD CUMUL_ENTREES QUANTITE_DEMANDEE option_map];
      apply case_ratio_cells; assumption. }
  refine (conj P (conj _ _)).
  - destruct Hs as [[j ->] | [h ->]]; cbn [coerce_row select_active select_histo
      Avancement_temps CUMUL_TEMPS_PASSES DUREE_PREVUE option_map];
      apply case_ratio_cells; assumption.
  - intros n d Hn Hd H0 H1. rewrite Hn, Hd in P.
    destruct (statement_ratio_bounds n d H0 H1) as (p & Hp & B0 & B1).
    rewrite Hp in P. unfold agrees in P.
    destruct (Avancement_PROD (coerce_row mQD mCE mDP mTP mTU mAP mAT s))
      as [[| | x] |]; try contradiction.
    exists p. subst x. auto.
Qed.

Lemma statement_progress_rule_witness :
  exists p,
    Avancement_PROD
      (first_row (snd (get_of_data_with_lance_le_filter fresh link_up scenario_A
                         None None None None None None))) = Some (Num p) /\
    0 <= p /\ p <= 1.
Proof.
  apply (proj2 (proj2
           (statement_progress_rule fresh link_up scenario_A None None None None
              None None
              (first_row (snd (get_of_data_with_lance_le_filter fresh link_up
                                 scenario_A None None None None None None)))
              (or_introl (or_introl eq_refl))))
         50 100); [reflexivity | reflexivity | discriminate | discriminate].
Defined.

(** ** The join with the historical baseline *)

Lemma NoDup_distinct (l : list key) : NoDup (distinct l).
Proof.
  induction l as [| k t IH]; cbn [distinct]; constructor.
  - intros Hin. apply filter_In in Hin. destruct Hin as [_ Hk].
    assert (key_eqb k k = true) by (apply key_eqb_eq; reflexivity).
    rewrite H in Hk. discriminate.
  - apply NoDup_filter. exact IH.
Qed.

Lemma filter_unique {A K : Type} (key_of : A -> K) (c : A -> bool) (l : list A) :
  NoDup (map key_of l) ->
  (forall g g', c g = true -> c g' = true -> key_of g = key_of g') ->
  filter c l = [] \/ exists g, filter c l = [g].
Proof.
  intros Hnd Hc. induction l as [| g t IH]; [left; reflexivity |].
  cbn [map] in Hnd. inversion Hnd as [| k ks Hnotin Hnd']; subst.
  cbn [filter]. destruct (c g) eqn:E; [| exact (IH Hnd')].
  right. exists g. f_equal.
  destruct (filter c t) as [| g' t'] eqn:F; [reflexivity |].
  exfalso. apply Hnotin.
  assert (Hg' : In g' (filter c t)) by (rewrite F; left; reflexivity).
  apply filter_In in Hg'. destruct Hg' as [Hin Hcg'].
  rewrite (Hc g g' E Hcg'). apply in_map. exact Hin.
Qed.

Lemma on_clause_unique (a : Db.row) (g g' : key * option Q) :
  on_clause a g = true -> on_clause a g' = true -> fst g = fst g'.
Proof.
  destruct (Db.PRODUIT a) as [p |] eqn:Ep, (Db.CATEGORIE a) as [c |] eqn:Ec.
  - intros H H'.
    apply (proj1 (on_clause_key a g p c Ep Ec)) in H.
    apply (proj1 (on_clause_key a g' p c Ep Ec)) in H'. congruence.
  - unfold on_clause, Sql.eq_str, Sql.and3, Sql.holds. rewrite Ep, Ec.
    destruct (fst (fst g)) as [s |]; [destruct (String.eqb p s) |]; discriminate.
  - unfold on_clause, Sql.eq_str, Sql.and3, Sql.holds. rewrite Ep, Ec.
    destruct (snd (fst g)) as [s |]; [destruct (String.eqb c s) |]; discriminate.
  - unfold on_clause, Sql.eq_str, Sql.and3, Sql.holds. rewrite Ep, Ec.
    discriminate.
Qed.

Lemma hist_avg_keys (HISTO : list Db.row) : NoDup (map fst (hist_avg HISTO)).
Proof.
  unfold hist_avg. rewrite map_map. cbn [fst]. rewrite map_id.
  apply NoDup_distinct.
Qed.

(** The join attaches exactly one baseline to every order. *)
Lemma left_join_one_row (ofda HISTO : list Db.row) :
  left_join ofda (hist_avg HISTO) = map (fun a => (a, hist_avg_of HISTO a)) ofda.
Proof.
  unfold left_join. induction ofda as [| a t IH]; [reflexivity |].
  cbn [flat_map]. rewrite IH. cbn [map]. unfold hist_avg_of.
  destruct (filter_unique fst (on_clause a) (hist_avg HISTO)
              (hist_avg_keys HISTO) (on_clause_unique a)) as [-> | [g ->]];
    reflexivity.
Qed.

Lemma insert_desc_map {A B : Type} (F : A -> B) (k : A -> option date)
  (k' : B -> option date) (x : A) (l : list A) :
  (forall a, k' (F a) = k a) ->
  insert_desc k' (F x) (map F l) = map F (insert_desc k x l).
Proof.
  intros Hk. induction l as [| y t IH]; [reflexivity |].
  cbn [map insert_desc]. rewrite !Hk.
  destruct (date_leb (k y) (k x)); [reflexivity |].
  cbn [map]. rewrite IH. reflexivity.
Qed.

Lemma order_by_desc_map {A B : Type} (F : A -> B) (k : A -> option date)
  (k' : B -> option date) (l : list A) :
  (forall a, k' (F a) = k a) ->
  order_by_desc k' (map F l) = map F (order_by_desc k l).
Proof.
  intros Hk. unfold order_by_desc. induction l as [| x t IH]; [reflexivity |].
  cbn [map fold_right]. rewrite IH. apply insert_desc_map. exact Hk.
Qed.

Lemma filter_map_comm {A B : Type} (F : A -> B) (p : B -> bool) (l : list A) :
  filter p (map F l) = map F (filter (fun a => p (F a)) l).
Proof.
  induction l as [| x t IH]; [reflexivity |].
  cbn [map filter]. destruct (p (F x)); cbn [map]; rewrite IH; reflexivity.
Qed.

(** The statement over [OF_DA] in normal form: the orders that pass the
    [WHERE] clause, by descending deadline, each with its baseline. *)
Lemma of_da_query_normal_form (date_col : Db.row -> option date)
  (db : Db.database) (date_debut date_fin : option date)
  (statut_filter famille_filter client_filter : option string) :
  of_da_query date_col db date_debut date_fin statut_filter famille_filter
    client_filter
  = map (fun a => select_active (a, hist_avg_of (Db.HISTO_OF_DA db) a))
      (order_by_desc Db.LANCEMENT_AU_PLUS_TARD
         (filter (of_da_where date_col date_debut date_fin statut_filter
                    famille_filter client_filter)
                 (Db.OF_DA db))).
Proof.
  unfold of_da_query. rewrite left_join_one_row.
  rewrite filter_map_comm. cbn [fst].
  rewrite (order_by_desc_map
             (fun a => (a, hist_avg_of (Db.HISTO_OF_DA db) a))
             Db.LANCEMENT_AU_PLUS_TARD
             (fun j => Db.LANCEMENT_AU_PLUS_TARD (fst j)));
    [| reflexivity].
  rewrite map_map. reflexivity.
Qed.

Lemma length_insert_desc {A : Type} (k : A -> option date) (x : A) (l : list A) :
  List.length (insert_desc k x l) = S (List.length l).
Proof.
  induction l as [| y t IH]; [reflexivity |].
  cbn [insert_desc]. destruct (date_leb (k y) (k x)); cbn [List.length];
    [reflexivity | rewrite IH; reflexivity].
Qed.

Lemma length_order_by_desc {A : Type} (k : A -> option date) (l : list A) :
  List.length (order_by_desc k l) = List.length l.
Proof.
  unfold order_by_desc. induction l as [| x t IH]; [reflexivity |].
  cbn [fold_right]. rewrite length_insert_desc. cbn [List.length].
  rewrite IH. reflexivity.
Qed.

Lemma read_sql_numbers (rows : list row) :
  map NUMERO_OFDA (read_sql rows) = map NUMERO_OFDA rows.
Proof. unfold read_sql. rewrite map_map. reflexivity. Qed.

(** X7.  The left join with the historical baseline neither drops nor
    repeats an order: the statement over [OF_DA] has one row per order that
    passes its [WHERE] clause, and when the query layer delivers,
    [get_of_data_with_lance_le_filter] returns their order numbers by
    descending deadline. *)
Theorem one_row_per_order (self : analyzer) (lk : link) (db : Db.database)
  (date_debut date_fin : option date)
  (statut_filter famille_filter client_filter : option string) :
  (forall date_col,
     List.length (of_da_query date_col db date_debut date_fin statut_filter
                    famille_filter client_filter)
     = List.length (filter (of_da_where date_col date_debut date_fin
                              statut_filter famille_filter client_filter)
                           (Db.OF_DA db))) /\
  (delivers self lk = true ->
   map NUMERO_OFDA
     (snd (get_of_data_with_lance_le_filter self lk db date_debut date_fin
             statut_filter famille_filter client_filter None))
   = map Db.NUMERO_OFDA
       (order_by_desc Db.LANCEMENT_AU_PLUS_TARD
          (filter (of_da_where Db.LANCE_LE date_debut date_fin statut_filter
                     famille_filter client_filter)
                  (Db.OF_DA db)))).
Proof.
  split.
  - intros date_col. rewrite of_da_query_normal_form.
    rewrite length_map. apply length_order_by_desc.
  - intros Hd. unfold get_of_data_with_lance_le_filter.
    assert (Hq : snd (execute_query self lk
                        (read_sql (of_da_query Db.LANCE_LE db date_debut date_fin
                                     statut_filter famille_filter client_filter)))
                 = read_sql (of_da_query Db.LANCE_LE db date_debut date_fin
                               statut_filter famille_filter client_filter)).
    { revert Hd. unfold execute_query, execute_query_pyodbc, delivers, _connect.
      destruct self as [c g s], lk as [er co eo cr rr].
      cbn [connection engine _sample_data_created engine_read_ok connect_ok
           engine_ok conn_read_ok retry_read_ok].
      destruct c, g, er, co, cr, rr; cbn; intros; congruence. }
    destruct (execute_query self lk _) as [self1 df1]. cbn [snd] in Hq. subst df1.
    assert (Hn : map NUMERO_OFDA
                   (read_sql (of_da_query Db.LANCE_LE db date_debut date_fin
                                statut_filter famille_filter client_filter))
                 = map Db.NUMERO_OFDA
                     (order_by_desc Db.LANCEMENT_AU_PLUS_TARD
                        (filter (of_da_where Db.LANCE_LE date_debut date_fin
                                   statut_filter famille_filter client_filter)
                                (Db.OF_DA db)))).
    { rewrite read_sql_numbers, of_da_query_normal_form, map_map. reflexivity. }
    destruct (empty (read_sql _)) eqn:E; cbn [snd]; [| exact Hn].
    rewrite <- Hn.
    destruct (read_sql _); [reflexivity | discriminate].
Qed.

(** Two orders whose launch dates and deadlines come in opposite order. *)
Lemma one_row_per_order_witness :
  map NUMERO_OFDA
    (snd (get_of_data_with_lance_le_filter fresh link_up diverging_dates
            None None None None None None))
  = map Db.NUMERO_OFDA
      (order_by_desc Db.LANCEMENT_AU_PLUS_TARD
         (filter (of_da_where Db.LANCE_LE None None None None None)
                 (Db.OF_DA diverging_dates))).
Proof.
  apply (proj2 (one_row_per_order fresh link_up diverging_dates
                  None None None None None)).
  reflexivity.
Defined.

(** ** What the returned rows say about the arguments *)

Lemma str_clause_eq (arg : option string) (col : string) :
  str_clause arg col = true -> truthy_str arg = true -> Some col = arg.
Proof.
  unfold str_clause. intros H T. rewrite T in H.
  destruct arg as [s |]; [| discriminate]. cbn in H.
  destruct (String.eqb_spec col s); [congruence | discriminate].
Qed.

(** A row of the frame read from the statement over [OF_DA]. *)
Lemma of_da_frame_row (date_col : Db.row -> option date) (db : Db.database)
  (date_debut date_fin : option date)
  (statut_filter famille_filter client_filter : option string) (r : row) :
  In r (read_sql (of_da_query date_col db date_debut date_fin statut_filter
                    famille_filter client_filter)) ->
  exists a,
    In a (Db.OF_DA db) /\
    of_da_where date_col date_debut date_fin statut_filter famille_filter
      client_filter a = true /\
    NUMERO_OFDA r = Db.NUMERO_OFDA a /\
    STATUT r = Some (Db.STATUT a) /\
    FAMILLE_TECHNIQUE r = Sql.COALESCE (Db.CATEGORIE a) sentinel_famille /\
    CLIENT r = Sql.COALESCE (Db.CLIENT a) sentinel_client /\
    DATA_SOURCE r = Some "ACTIVE" /\
    COMPLETION_STATUS r
    = Some (if status_in_T_A (STATUT r) then "COMPLETED" else "IN_PROGRESS").
Proof.
  intros H. apply read_sql_In in H.
  destruct H as (s & mQD & mCE & mDP & mTP & mTU & mAP & mAT & Hs & -> & _).
  rewrite of_da_query_normal_form in Hs. apply in_map_iff in Hs.
  destruct Hs as [a [<- Ha]]. apply In_order_by_desc in Ha.
  apply filter_In in Ha. destruct Ha as [Ha Hw].
  exists a. repeat split; assumption.
Qed.

Lemma histo_frame_row (date_col : Db.row -> option date) (db : Db.database)
  (date_debut date_fin : option date)
  (famille_filter client_filter : option string) (r : row) :
  In r (read_sql (histo_of_da_query date_col db date_debut date_fin
                    famille_filter client_filter)) ->
  exists h,
    In h (Db.HISTO_OF_DA db) /\
    NUMERO_OFDA r = Db.NUMERO_OFDA h /\
    STATUT r = Some (Db.STATUT h) /\
    DATA_SOURCE r = Some "HISTORICAL" /\
    COMPLETION_STATUS r = Some "COMPLETED" /\
    Alerte_temps r = Some false.
Proof.
  intros H. apply read_sql_In in H.
  destruct H as (s & mQD & mCE & mDP & mTP & mTU & mAP & mAT & Hs & -> & _).
  apply histo_of_da_query_row in Hs. destruct Hs as (h & Hh & -> & _).
  exists h. repeat split; assumption.
Qed.

Lemma of_da_where_clauses (date_col : Db.row -> option date)
  (date_debut date_fin : option date)
  (statut_filter famille_filter client_filter : option string) (a : Db.row) :
  of_da_where date_col date_debut date_fin statut_filter famille_filter
    client_filter a = true ->
  like_F (Db.NUMERO_OFDA a) = true /\
  (truthy_str statut_filter = true -> Some (Db.STATUT a) = statut_filter) /\
  (truthy_str famille_filter = true ->
   Some (Sql.COALESCE (Db.CATEGORIE a) sentinel_famille) = famille_filter) /\
  (truthy_str client_filter = true ->
   Some (Sql.COALESCE (Db.CLIENT a) sentinel_client) = client_filter).
Proof.
  unfold of_da_where. repeat rewrite andb_true_iff.
  intros (((((HF & Hs) & _) & _) & Hf) & Hc).
  repeat split; [exact HF | | |]; apply str_clause_eq; assumption.
Qed.

Lemma sample_filters_In (date_debut date_fin : option date)
  (statut_filter famille_filter client_filter : option string)
  (df : DataFrame) (r : row) :
  In r (sample_filters date_debut date_fin statut_filter famille_filter
          client_filter df) ->
  In r df /\
  (truthy_str statut_filter = true -> STATUT r = statut_filter) /\
  (truthy_str famille_filter = true -> Some (FAMILLE_TECHNIQUE r) = famille_filter) /\
  (truthy_str client_filter = true -> Some (CLIENT r) = client_filter).
Proof.
  unfold sample_filters. intros H.
  assert (H1 : In r (if truthy_str client_filter
                     then filter (fun r => opt_str_eqb (Some (CLIENT r)) client_filter)
                            (if truthy_str famille_filter
                             then filter (fun r => opt_str_eqb
                                                     (Some (FAMILLE_TECHNIQUE r))
                                                     famille_filter)
                                    (if truthy_str statut_filter
                                     then filter (fun r => opt_str_eqb
                                                             (STATUT r)
                                                             statut_filter) df
                                     else df)
                             else if truthy_str statut_filter
                                  then filter (fun r => opt_str_eqb
                                                          (STATUT r)
                                                          statut_filter) df
                                  else df)
                     else if truthy_str famille_filter
                          then filter (fun r => opt_str_eqb
                                                  (Some (FAMILLE_TECHNIQUE r))
                                                  famille_filter)
                                 (if truthy_str statut_filter
                                  then filter (fun r => opt_str_eqb
                                                          (STATUT r)
                                                          statut_filter) df
                                  else df)
                          else if truthy_str statut_filter
                               then filter (fun r => opt_str_eqb
                                                       (STATUT r)
                                                       statut_filter) df
                               else df)).
  { destruct date_fin, date_debut;
      repeat (apply filter_In in H; destruct H as [H _]);
      destruct (truthy_str client_filter), (truthy_str famille_filter),
        (truthy_str statut_filter); exact H. }
  clear H.
  destruct (truthy_str client_filter), (truthy_str famille_filter),
    (truthy_str statut_filter);
    repeat match type of H1 with
           | In _ (filter _ _) =>
               let K := fresh "K" in
               apply filter_In in H1; destruct H1 as [H1 K];
               apply opt_str_eqb_eq in K
           end;
    repeat split; try assumption; intros; try discriminate; assumption.
Qed.

Lemma calc_row_tags (r0 r : row) :
  calc_row r0 = Ok r ->
  CLIENT r = CLIENT r0 /\
  DATA_SOURCE r = Some match DATA_SOURCE r0 with
                       | Some s => s
                       | None => "ACTIVE"
                       end /\
  COMPLETION_STATUS r
  = Some match COMPLETION_STATUS r0 with
         | Some s => s
         | None => if status_in_T_A (STATUT r0) then "COMPLETED" else "IN_PROGRESS"
         end.
Proof.
  unfold calc_row. intros H.
  bind_inv H v1 H1.
  bind_inv H v2 H2.
  bind_inv H v3 H3.
  bind_inv H v6 H6.
  inversion H; subst r; clear H.
  unfold default_COMPLETION_STATUS, default_DATA_SOURCE.
  destruct (DATA_SOURCE r0) eqn:ED; cbn; rewrite ?ED; cbn;
    destruct (COMPLETION_STATUS r0) eqn:EC; cbn; rewrite ?EC, ?ED; cbn;
    repeat split; reflexivity.
Qed.

Lemma like_F_sample (e : entropy) (i : nat) :
  like_F (NUMERO_OFDA (sample_record e i)) = true.
Proof.
  cbn [sample_record NUMERO_OFDA]. unfold like_F. cbn [append prefix].
  match goal with
  | |- match ?d with left _ => _ | right _ => _ end = true =>
      destruct d as [_ | N]; [| congruence]
  end.
  destruct (zfill 4 (decimal (1000 + i))); reflexivity.
Qed.

(** X8.  Every row that [get_of_data] returns, from the database or from the
    sample records, has an order number starting with F, carries the status,
    family and client asked for by the arguments that are not empty, is
    tagged ACTIVE, and is COMPLETED exactly when its status is T or A. *)
Theorem get_of_data_rows_match_filters (self : analyzer) (lk : link)
  (db : Db.database) (e : entropy) (date_debut date_fin : option date)
  (statut_filter famille_filter client_filter : option string)
  (alerte_filter : option bool) (df : DataFrame) (r : row) :
  snd (get_of_data self lk db e date_debut date_fin statut_filter
         famille_filter client_filter alerte_filter) = Ok df ->
  In r df ->
  like_F (NUMERO_OFDA r) = true /\
  (truthy_str statut_filter = true -> STATUT r = statut_filter) /\
  (truthy_str famille_filter = true -> Some (FAMILLE_TECHNIQUE r) = famille_filter) /\
  (truthy_str client_filter = true -> Some (CLIENT r) = client_filter) /\
  DATA_SOURCE r = Some "ACTIVE" /\
  COMPLETION_STATUS r
  = Some (if status_in_T_A (STATUT r) then "COMPLETED" else "IN_PROGRESS").
Proof.
  intros H Hr.
  destruct (get_of_data_rows _ _ _ _ _ _ _ _ _ _ _ H r Hr) as [r0 [Hc Hsrc]].
  destruct (calc_row_keeps r0 r Hc) as (Kn & _ & Ks & _ & _ & Kf & _).
  destruct (calc_row_tags r0 r Hc) as (Kc & Kd & Kcs).
  rewrite Kn, Ks, Kf, Kc, Kd, Kcs.
  destruct Hsrc as [Hin | [_ Hin]].
  - apply execute_query_In in Hin. apply of_da_frame_row in Hin.
    destruct Hin as (a & _ & Hw & -> & Hs & -> & -> & -> & ->).
    rewrite Hs.
    destruct (of_da_where_clauses _ _ _ _ _ _ _ Hw) as (HF & H1 & H2 & H3).
    repeat split; assumption.
  - apply sample_filters_In in Hin. destruct Hin as (Hin & H1 & H2 & H3).
    unfold _create_sample_data in Hin. apply in_map_iff in Hin.
    destruct Hin as [i [<- _]].
    repeat split; try assumption; try reflexivity. apply like_F_sample.
Qed.

Lemma get_of_data_rows_match_filters_witness :
  STATUT
    (first_row
       (frame_or_empty
          (snd (get_of_data fresh link_up one_alert entropy0 None None
                  (Some "C") None None None)))) = Some "C".
Proof.
  assert (H : snd (get_of_data fresh link_up one_alert entropy0 None None
                     (Some "C") None None None)
               = Ok (frame_or_empty
                       (snd (get_of_data fresh link_up one_alert entropy0
                               None None (Some "C") None None None))))
    by (vm_compute; reflexivity).
  refine (proj1 (proj2 (get_of_data_rows_match_filters fresh link_up one_alert
                          entropy0 None None (Some "C") None None None
                          _ _ H _)) eq_refl).
  vm_compute. left. reflexivity.
Defined.

(** ** The sample records *)

Lemma randint_range (a b r : Z) : (a <= b)%Z -> (a <= randint a b r <= b)%Z.
Proof.
  intros H. unfold randint.
  pose proof (Z.mod_pos_bound r (b - a + 1)) as B. lia.
Qed.

Lemma choice_In {A : Type} (l : list A) (d : A) (r : Z) :
  l <> [] -> In (choice l d r) l.
Proof.
  intros H. unfold choice. apply nth_In.
  destruct l as [| x t]; [contradiction |].
  pose proof (Z.mod_pos_bound r (Z.of_nat (List.length (x :: t)))) as B.
  cbn [List.length] in *. lia.
Qed.

Lemma NoDup_by_nodup (l : list string) : nodup string_dec l = l -> NoDup l.
Proof. intros H. rewrite <- H. apply NoDup_nodup. Qed.

(** The quantities behind the record of iteration [i]. *)
Lemma sample_record_range (e : entropy) (i : nat) :
  exists q c d t : Z,
    QUANTITE_DEMANDEE (sample_record e i) = Num (inject_Z q) /\
    CUMUL_ENTREES (sample_record e i) = Num (inject_Z c) /\
    DUREE_PREVUE (sample_record e i) = Num (inject_Z d) /\
    CUMUL_TEMPS_PASSES (sample_record e i) = Num (inject_Z t) /\
    (10 <= q <= 1000)%Z /\ (0 <= c <= q)%Z /\
    (10 <= d <= 200)%Z /\ (0 <= t)%Z /\ (2 * t <= 3 * d)%Z.
Proof.
  cbn [sample_record QUANTITE_DEMANDEE CUMUL_ENTREES DUREE_PREVUE
       CUMUL_TEMPS_PASSES].
  set (q := randint 10 1000 (rand e i 1%nat)).
  set (d := randint 10 200 (rand e i 3%nat)).
  assert (Hq : (10 <= q <= 1000)%Z) by (apply randint_range; lia).
  assert (Hd : (10 <= d <= 200)%Z) by (apply randint_range; lia).
  assert (Hh : (0 <= 3 * d / 2)%Z) by (apply Z.div_pos; lia).
  pose proof (randint_range 0 q (rand e i 2%nat) ltac:(lia)) as Hc.
  pose proof (randint_range 0 (3 * d / 2) (rand e i 4%nat) Hh) as Ht.
  pose proof (Z.mul_div_le (3 * d) 2 ltac:(lia)) as Hm.
  exists q, (randint 0 q (rand e i 2%nat)), d,
    (randint 0 (3 * d / 2) (rand e i 4%nat)).
  repeat split; try reflexivity; lia.
Qed.

(** X9.  [_create_sample_data] builds 50 records numbered F1000 to F1049
    without repetition; whatever the clock and the random generator, each has
    a status among C, T, A, a family and a client of the fixed lists, a launch
    date equal to its deadline and at most 180 days back or 30 days ahead,
    between 10 and 1000 units requested and not more produced, between 10 and
    200 hours planned and at most one and a half times as much spent. *)
Theorem sample_records_in_range (e : entropy) :
  map NUMERO_OFDA (_create_sample_data e)
  = map (fun i => "F" ++ decimal (1000 + i)) (seq 0 50) /\
  NoDup (map NUMERO_OFDA (_create_sample_data e)) /\
  Forall (fun r =>
            In (STATUT r) (map Some statuts) /\ In (FAMILLE_TECHNIQUE r) familles /\
            In (CLIENT r) clients /\
            LANCE_LE r = LANCEMENT_AU_PLUS_TARD r /\
            (exists day, LANCEMENT_AU_PLUS_TARD r = Some day /\
                         (now e - 180 <= day <= now e + 30)%Z) /\
            exists q c d t : Z,
              QUANTITE_DEMANDEE r = Num (inject_Z q) /\
              CUMUL_ENTREES r = Num (inject_Z c) /\
              DUREE_PREVUE r = Num (inject_Z d) /\
              CUMUL_TEMPS_PASSES r = Num (inject_Z t) /\
              (10 <= q <= 1000)%Z /\ (0 <= c <= q)%Z /\
              (10 <= d <= 200)%Z /\ (0 <= t)%Z /\ (2 * t <= 3 * d)%Z)
         (_create_sample_data e).
Proof.
  assert (N : map NUMERO_OFDA (_create_sample_data e)
              = map (fun i => "F" ++ decimal (1000 + i)) (seq 0 50)).
  { vm_compute. reflexivity. }
  split; [exact N |]. split.
  - rewrite N. apply NoDup_by_nodup. vm_compute. reflexivity.
  - apply Forall_forall. intros r Hr. unfold _create_sample_data in Hr.
    apply in_map_iff in Hr. destruct Hr as [i [<- _]].
    split; [cbn [sample_record STATUT]; apply in_map; apply choice_In;
            discriminate |].
    split; [apply choice_In; discriminate |].
    split; [apply choice_In; discriminate |].
    split; [reflexivity |].
    split; [| apply sample_record_range].
    cbn [sample_record LANCEMENT_AU_PLUS_TARD]. eexists. split; [reflexivity |].
    pose proof (randint_range (-180) 30 (rand e i 0%nat) ltac:(lia)). lia.
Qed.

Lemma safe_div_within (n d k : Q) :
  0 <= n -> 0 <= d -> 0 <= k -> n <= k * d ->
  0 <= safe_div n (Num d) /\ safe_div n (Num d) <= k.
Proof.
  intros Hn Hd Hk H. unfold safe_div.
  destruct (Qeq_bool d 0) eqn:E; [split; [apply Qle_refl | exact Hk] |].
  assert (Hpos : 0 < d).
  { apply Qle_lteq in Hd. destruct Hd as [Hd | Hd]; [exact Hd |].
    apply Qeq_sym in Hd. apply Qeq_bool_iff in Hd. congruence. }
  split.
  - apply Qle_shift_div_l; [exact Hpos |]. rewrite Qmult_0_l. exact Hn.
  - apply Qle_shift_div_r; [exact Hpos | exact H].
Qed.

(** X10.  The rows that [get_of_data] makes out of sample records have a
    progress between 0 and 1 and a time progress between 0 and 3/2, and no
    historical baseline column. *)
Theorem sample_rows_progress_bounded (self : analyzer) (lk : link)
  (db : Db.database) (e : entropy) (date_debut date_fin : option date)
  (statut_filter famille_filter client_filter : option string)
  (alerte_filter : option bool) (df : DataFrame) (r : row) :
  snd (execute_query self lk
         (read_sql (of_da_query Db.LANCEMENT_AU_PLUS_TARD db date_debut
                      date_fin statut_filter famille_filter client_filter))) = [] ->
  snd (get_of_data self lk db e date_debut date_fin statut_filter
         famille_filter client_filter alerte_filter) = Ok df ->
  In r df ->
  (exists p t,
     Avancement_PROD r = Some (Num p) /\ 0 <= p /\ p <= 1 /\
     Avancement_temps r = Some (Num t) /\ 0 <= t /\ t <= 3 # 2) /\
  TEMPS_UNITAIRE_HISTORIQUE r = None /\
  In (NUMERO_OFDA r) (map NUMERO_OFDA (_create_sample_data e)).
Proof.
  intros Hq H Hr.
  destruct (get_of_data_rows _ _ _ _ _ _ _ _ _ _ _ H r Hr) as [r0 [Hc Hsrc]].
  assert (Hin : In r0 (_create_sample_data e)).
  { destruct Hsrc as [Hin | [_ Hin]].
    - rewrite Hq in Hin. destruct Hin.
    - apply sample_filters_subset in Hin. exact Hin. }
  destruct (calc_row_keeps r0 r Hc) as (Kn & _ & _ & _ & _ & _ & Ku).
  split; [| split].
  - unfold _create_sample_data in Hin. apply in_map_iff in Hin.
    destruct Hin as [i [<- _]].
    destruct (sample_record_range e i)
      as (q & c & d & t & Eq & Ec & Ed & Et & Bq & Bc & Bd & Bt & Bt').
    destruct (calc_row_inv _ _ Hc)
      as (v1 & v2 & v3 & v6 & R1 & R2 & _ & _ & -> & -> & _).
    rewrite Eq, Ec in R1. rewrite Ed, Et in R2.
    apply ratio_lambda_safe_div in R1; [| discriminate].
    apply ratio_lambda_safe_div in R2; [| discriminate].
    subst v1 v2.
    destruct (safe_div_within (inject_Z c) (inject_Z q) 1) as [P0 P1].
    { change (inject_Z 0 <= inject_Z c). rewrite <- Zle_Qle. lia. }
    { change (inject_Z 0 <= inject_Z q). rewrite <- Zle_Qle. lia. }
    { discriminate. }
    { rewrite Qmult_1_l. rewrite <- Zle_Qle. lia. }
    destruct (safe_div_within (inject_Z t) (inject_Z d) (3 # 2)) as [T0 T1].
    { change (inject_Z 0 <= inject_Z t). rewrite <- Zle_Qle. lia. }
    { change (inject_Z 0 <= inject_Z d). rewrite <- Zle_Qle. lia. }
    { discriminate. }
    { unfold Qle, Qmult, inject_Z. cbn [Qnum Qden]. lia. }
    do 2 eexists. repeat split; eassumption.
  - rewrite Ku. unfold _create_sample_data in Hin. apply in_map_iff in Hin.
    destruct Hin as [i [<- _]]. reflexivity.
  - rewrite Kn. apply in_map. exact Hin.
Qed.

Lemma sample_rows_progress_bounded_witness :
  (exists p t,
     Avancement_PROD
       (first_row (frame_or_empty (snd (get_of_data_all offline link_down scenario_A))))
     = Some (Num p) /\ 0 <= p /\ p <= 1 /\
     Avancement_temps
       (first_row (frame_or_empty (snd (get_of_data_all offline link_down scenario_A))))
     = Some (Num t) /\ 0 <= t /\ t <= 3 # 2).
Proof.
  assert (H : snd (get_of_data offline link_down scenario_A entropy0
                     None None None None None None)
               = Ok (frame_or_empty
                       (snd (get_of_data_all offline link_down scenario_A))))
    by (vm_compute; reflexivity).
  refine (proj1 (sample_rows_progress_bounded offline link_down scenario_A
                   entropy0 None None None None None None _ _ eq_refl H _)).
  vm_compute. left. reflexivity.
Defined.

(** ** The merged frame *)

Lemma lance_le_frame_In (self : analyzer) (lk : link) (db : Db.database)
  (date_debut date_fin : option date)
  (statut_filter famille_filter client_filter : option string)
  (alerte_filter : option bool) (r : row) :
  In r (snd (get_of_data_with_lance_le_filter self lk db date_debut date_fin
               statut_filter famille_filter client_filter alerte_filter)) ->
  In r (read_sql (of_da_query Db.LANCE_LE db date_debut date_fin statut_filter
                    famille_filter client_filter)).
Proof.
  unfold get_of_data_with_lance_le_filter.
  pose proof (execute_query_In self lk
                (read_sql (of_da_query Db.LANCE_LE db date_debut date_fin
                             statut_filter famille_filter client_filter)) r) as K.
  destruct (execute_query self lk _) as [self1 df1]. cbn [snd] in *.
  destruct (empty df1); cbn [snd]; [intros [] |].
  destruct alerte_filter as [[|] |]; intros H;
    try (apply filter_In in H; destruct H as [H _]); apply K; exact H.
Qed.

(** X11.  [get_comprehensive_of_data] returns the active rows, launched in
    the date range and with the status asked for, followed by the historical
    rows of the range, which the status argument does not restrict; the
    first are tagged ACTIVE, the second HISTORICAL and COMPLETED.  Without
    [include_historical] only the active rows are returned.
    [get_dashboard_data] carries the merged frame and three frames without
    rows. *)
Theorem merged_rows_provenance (self : analyzer) (lk_active lk_histo : link)
  (db : Db.database) (date_debut date_fin : option date)
  (statut_filter : option string) :
  let active :=
    get_of_data_with_lance_le_filter self lk_active db date_debut date_fin
      statut_filter None None None in
  let historical :=
    get_histo_of_data_with_lance_le_filter (fst active) lk_histo db date_debut
      date_fin None None in
  let dashboard :=
    snd (get_dashboard_data self lk_active lk_histo db date_debut date_fin
           statut_filter) in
  snd (get_comprehensive_of_data self lk_active lk_histo db date_debut date_fin
         statut_filter true) = (snd active ++ snd historical)%list /\
  get_comprehensive_of_data self lk_active lk_histo db date_debut date_fin
    statut_filter false = active /\
  Forall (fun r => DATA_SOURCE r = Some "ACTIVE" /\
                   (truthy_str statut_filter = true ->
                    STATUT r = statut_filter))
         (snd active) /\
  Forall (fun r => DATA_SOURCE r = Some "HISTORICAL" /\
                   COMPLETION_STATUS r = Some "COMPLETED")
         (snd historical) /\
  Dashboard.main_of_data dashboard = (snd active ++ snd historical)%list /\
  Dashboard.charge_data dashboard = [] /\
  Dashboard.backlog_data dashboard = [] /\
  Dashboard.personnel_data dashboard = [].
Proof.
  cbv zeta.
  pose proof (combined_blocks_sorted self lk_active lk_histo db date_debut
                date_fin statut_filter None None None) as [Hc _].
  cbv zeta in Hc.
  assert (Hd : Dashboard.main_of_data
                 (snd (get_dashboard_data self lk_active lk_histo db date_debut
                         date_fin statut_filter))
               = snd (get_comprehensive_of_data self lk_active lk_histo db
                        date_debut date_fin statut_filter true)).
  { unfold get_dashboard_data.
    destruct (get_comprehensive_of_data _ _ _ _ _ _ _ _) as [s m]. reflexivity. }
  refine (conj Hc (conj _ (conj _ (conj _ (conj _ _))))).
  - unfold get_comprehensive_of_data, get_combined_of_data.
    destruct (get_of_data_with_lance_le_filter _ _ _ _ _ _ _ _ _) as [s a].
    reflexivity.
  - apply Forall_forall. intros r Hr.
    apply lance_le_frame_In in Hr. apply of_da_frame_row in Hr.
    destruct Hr as (a & _ & Hw & _ & Hs & _ & _ & Hd' & _).
    split; [exact Hd' |]. rewrite Hs.
    apply (of_da_where_clauses _ _ _ _ _ _ _ Hw).
  - apply Forall_forall. intros r Hr.
    unfold get_histo_of_data_with_lance_le_filter in Hr.
    apply execute_query_In in Hr. apply histo_frame_row in Hr.
    destruct Hr as (h & _ & _ & _ & H1 & H2 & _). split; assumption.
  - rewrite Hd. exact Hc.
  - unfold get_dashboard_data.
    destruct (get_comprehensive_of_data _ _ _ _ _ _ _ _) as [s m].
    repeat split.
Qed.

(** Status 'H' matches no active order of [later_history]; its archived
    order is returned all the same. *)
Lemma merged_rows_provenance_witness :
  STATUT
    (first_row
       (snd (get_of_data_with_lance_le_filter fresh link_up one_alert
               None None (Some "C") None None None))) = Some "C" /\
  map NUMERO_OFDA
    (snd (get_comprehensive_of_data fresh link_up link_up later_history
            None None (Some "H") true)) = ["F0002"].
Proof.
  split.
  - pose proof (merged_rows_provenance fresh link_up link_up one_alert
                  None None (Some "C")) as (_ & _ & Ha & _).
    rewrite Forall_forall in Ha.
    refine (proj2 (Ha _ _) eq_refl). vm_compute. left. reflexivity.
  - pose proof (merged_rows_provenance fresh link_up link_up later_history
                  None None (Some "H")) as (Hm & _).
    rewrite Hm. reflexivity.
Defined.

(** * Properties of the dashboard controller *)

Lemma in_columns_false {A : Type} (col : row -> option A) (data : DataFrame) :
  in_columns col data = false -> forall r, In r data -> col r = None.
Proof.
  unfold in_columns. intros H r Hr.
  destruct (col r) eqn:E; [| reflexivity].
  assert (existsb (fun r => match col r with Some _ => true | None => false end) data
          = true).
  { apply existsb_exists. exists r. rewrite E. auto. }
  congruence.
Qed.

Lemma filter_none {A : Type} (f : A -> bool) (l : list A) :
  (forall x, In x l -> f x = false) -> filter f l = [].
Proof.
  induction l as [| x t IH]; intros H; [reflexivity |].
  cbn [filter]. rewrite (H x (or_introl eq_refl)).
  apply IH. intros y Hy. apply H. right. exact Hy.
Qed.

Lemma length_filter_le {A : Type} (f : A -> bool) (l : list A) :
  (List.length (filter f l) <= List.length l)%nat.
Proof.
  induction l as [| x t IH]; [apply le_n |].
  cbn [filter]. destruct (f x); cbn [List.length]; lia.
Qed.

(** ** Alerts of the overview *)

(** X12.  [_get_overview_alerts] reports at most two alerts, the time
    overrun before the low progress; each is present exactly when some row of
    the frame is concerned and counts these rows, so that no alert has count
    0.  A frame without the column concerned gives no alert of that type. *)
Theorem overview_alerts_count_rows (data : DataFrame) :
  let n_time := List.length (filter alerted data) in
  let n_low := List.length (filter low_advancement data) in
  _get_overview_alerts data
  = ((if (0 <? n_time)%nat
      then [Alert.mk "time_overrun" "warning" n_time
              (decimal n_time ++ " commandes dépassent le temps prévu")]
      else [])
     ++
     (if (0 <? n_low)%nat
      then [Alert.mk "low_advancement" "info" n_low
              (decimal n_low ++ " commandes avec avancement faible (<30%)")]
      else []))%list /\
  Forall (fun a => (0 < Alert.count a <= List.length data)%nat)
         (_get_overview_alerts data) /\
  (List.length (_get_overview_alerts data) <= 2)%nat.
Proof.
  cbv zeta.
  assert (E : _get_overview_alerts data
              = ((if (0 <? List.length (filter alerted data))%nat
                  then [Alert.mk "time_overrun" "warning"
                          (List.length (filter alerted data))
                          (decimal (List.length (filter alerted data))
                           ++ " commandes dépassent le temps prévu")]
                  else [])
                 ++
                 (if (0 <? List.length (filter low_advancement data))%nat
                  then [Alert.mk "low_advancement" "info"
                          (List.length (filter low_advancement data))
                          (decimal (List.length (filter low_advancement data))
                           ++ " commandes avec avancement faible (<30%)")]
                  else []))%list).
  { unfold _get_overview_alerts. destruct data as [| r0 t]; [reflexivity |].
    cbn [empty].
    assert (T : in_columns Alerte_temps (r0 :: t) = false ->
                filter alerted (r0 :: t) = []).
    { intros H. apply filter_none. intros r Hr. unfold alerted.
      rewrite (in_columns_false _ _ H r Hr). reflexivity. }
    assert (L : in_columns Avancement_PROD (r0 :: t) = false ->
                filter low_advancement (r0 :: t) = []).
    { intros H. apply filter_none. intros r Hr. unfold low_advancement.
      rewrite (in_columns_false _ _ H r Hr). reflexivity. }
    destruct (in_columns Alerte_temps (r0 :: t));
      [| rewrite (T eq_refl)];
      (destruct (in_columns Avancement_PROD (r0 :: t));
       [| rewrite (L eq_refl)]);
      try destruct (filter alerted (r0 :: t));
      try destruct (filter low_advancement (r0 :: t)); reflexivity. }
  split; [exact E |]. rewrite E.
  pose proof (length_filter_le alerted data) as B1.
  pose proof (length_filter_le low_advancement data) as B2.
  split.
  - apply Forall_app. split.
    + destruct (0 <? List.length (filter alerted data))%nat eqn:P;
        [| constructor].
      apply Nat.ltb_lt in P. repeat constructor; cbn; lia.
    + destruct (0 <? List.length (filter low_advancement data))%nat eqn:P;
        [| constructor].
      apply Nat.ltb_lt in P. repeat constructor; cbn; lia.
  - rewrite length_app.
    destruct (0 <? List.length (filter alerted data))%nat,
      (0 <? List.length (filter low_advancement data))%nat; cbn; lia.
Qed.

(** ** Indicators of the overview *)

Lemma disjoint_filters_le {A : Type} (f g : A -> bool) (l : list A) :
  (forall x, f x = true -> g x = false) ->
  (List.length (filter f l) + List.length (filter g l) <= List.length l)%nat.
Proof.
  intros H. induction l as [| x t IH]; [apply le_n |].
  cbn [filter]. destruct (f x) eqn:E.
  - rewrite (H x E). cbn [List.length]. lia.
  - destruct (g x); cbn [List.length]; lia.
Qed.

Lemma complementary_filters {A : Type} (f g : A -> bool) (l : list A) :
  Forall (fun x => f x = negb (g x)) l ->
  (List.length (filter f l) + List.length (filter g l))%nat = List.length l.
Proof.
  induction 1 as [| x t Hx _ IH]; [reflexivity |].
  cbn [filter]. rewrite Hx. destruct (g x); cbn [negb List.length]; lia.
Qed.

Lemma filter_implies_le {A : Type} (f g : A -> bool) (l : list A) :
  Forall (fun x => f x = true -> g x = true) l ->
  (List.length (filter f l) <= List.length (filter g l))%nat.
Proof.
  induction 1 as [| x t Hx _ IH]; [apply le_n |].
  cbn [filter]. destruct (f x) eqn:E.
  - rewrite (Hx eq_refl). cbn [List.length]. lia.
  - destruct (g x); cbn [List.length]; lia.
Qed.

Lemma percentage_bounds (count total : nat) :
  (count <= total)%nat -> (0 < total)%nat ->
  0 <= percentage count total /\ percentage count total <= 100.
Proof.
  intros Hc Ht. unfold percentage.
  assert (Hpos : 0 < inject_Z (Z.of_nat total)).
  { change (inject_Z 0 < inject_Z (Z.of_nat total)). rewrite <- Zlt_Qlt. lia. }
  assert (H0 : 0 <= inject_Z (Z.of_nat count) / inject_Z (Z.of_nat total)).
  { apply Qle_shift_div_l; [exact Hpos |]. rewrite Qmult_0_l.
    change (inject_Z 0 <= inject_Z (Z.of_nat count)). rewrite <- Zle_Qle. lia. }
  assert (H1 : inject_Z (Z.of_nat count) / inject_Z (Z.of_nat total) <= 1).
  { apply Qle_shift_div_r; [exact Hpos |]. rewrite Qmult_1_l.
    rewrite <- Zle_Qle. lia. }
  split.
  - apply Qmult_le_0_compat; [exact H0 | discriminate].
  - setoid_replace 100 with (1 * 100) at 2 by reflexivity.
    apply Qmult_le_compat_r; [exact H1 | discriminate].
Qed.

Lemma opt_str_eqb_distinct (x : option string) (a b : string) :
  a <> b -> opt_str_eqb x (Some a) = true -> opt_str_eqb x (Some b) = false.
Proof.
  intros Hab H. apply opt_str_eqb_eq in H. subst x.
  destruct (opt_str_eqb (Some a) (Some b)) eqn:E; [| reflexivity].
  apply opt_str_eqb_eq in E. congruence.
Qed.

(** X13.  On a frame with rows [_calculate_overview_kpis] counts each row at
    most once as ACTIVE or HISTORICAL, and the completion and alert rates lie
    between 0 and 100.  When every row is tagged ACTIVE or HISTORICAL the two
    counts add up to the total, and when every HISTORICAL row is COMPLETED
    the completed rows are at least the historical ones.  The empty frame
    gives the empty dictionary. *)
Theorem overview_kpis_within_bounds (data : DataFrame) :
  data <> [] ->
  exists k,
    _calculate_overview_kpis data = Some k /\
    Kpis.total_orders k = List.length data /\
    (Kpis.active_orders k + Kpis.historical_orders k <= Kpis.total_orders k)%nat /\
    (Kpis.completed_orders k <= Kpis.total_orders k)%nat /\
    (Kpis.alerts_count k <= Kpis.total_orders k)%nat /\
    Kpis.completion_rate k
    = percentage (Kpis.completed_orders k) (Kpis.total_orders k) /\
    Kpis.alert_rate k = percentage (Kpis.alerts_count k) (Kpis.total_orders k) /\
    (0 <= Kpis.completion_rate k /\ Kpis.completion_rate k <= 100) /\
    (0 <= Kpis.alert_rate k /\ Kpis.alert_rate k <= 100) /\
    (Forall (fun r => DATA_SOURCE r = Some "ACTIVE" \/
                      DATA_SOURCE r = Some "HISTORICAL") data ->
     (Kpis.active_orders k + Kpis.historical_orders k)%nat = Kpis.total_orders k) /\
    (Forall (fun r => DATA_SOURCE r = Some "HISTORICAL" ->
                      COMPLETION_STATUS r = Some "COMPLETED") data ->
     (Kpis.historical_orders k <= Kpis.completed_orders k)%nat) /\
    (Qgt_bool (Kpis.total_quantity_demanded k) 0 = false ->
     Kpis.production_rate k = 0) /\
    _calculate_overview_kpis [] = None.
Proof.
  intros Hne. destruct data as [| r0 t]; [contradiction |].
  set (data := r0 :: t). unfold _calculate_overview_kpis.
  change (empty data) with false. cbv iota.
  assert (Hlen : (0 < List.length data)%nat) by (cbn; lia).
  assert (Hltb : (0 <? List.length data)%nat = true) by (apply Nat.ltb_lt; exact Hlen).
  rewrite Hltb.
  set (active := if in_columns DATA_SOURCE data
                 then count_eq DATA_SOURCE "ACTIVE" data else 0%nat).
  set (historical := if in_columns DATA_SOURCE data
                     then count_eq DATA_SOURCE "HISTORICAL" data else 0%nat).
  set (completed := if in_columns COMPLETION_STATUS data
                    then count_eq COMPLETION_STATUS "COMPLETED" data else 0%nat).
  set (alerts_n := if in_columns Alerte_temps data
                   then List.length (filter alerted data) else 0%nat).
  assert (Ea : active = count_eq DATA_SOURCE "ACTIVE" data).
  { unfold active. destruct (in_columns DATA_SOURCE data) eqn:E; [reflexivity |].
    unfold count_eq. rewrite filter_none; [reflexivity |].
    intros r Hr. rewrite (in_columns_false _ _ E r Hr). reflexivity. }
  assert (Eh : historical = count_eq DATA_SOURCE "HISTORICAL" data).
  { unfold historical. destruct (in_columns DATA_SOURCE data) eqn:E; [reflexivity |].
    unfold count_eq. rewrite filter_none; [reflexivity |].
    intros r Hr. rewrite (in_columns_false _ _ E r Hr). reflexivity. }
  assert (Ec : completed = count_eq COMPLETION_STATUS "COMPLETED" data).
  { unfold completed.
    destruct (in_columns COMPLETION_STATUS data) eqn:E; [reflexivity |].
    unfold count_eq. rewrite filter_none; [reflexivity |].
    intros r Hr. rewrite (in_columns_false _ _ E r Hr). reflexivity. }
  assert (Bc : (completed <= List.length data)%nat).
  { rewrite Ec. apply length_filter_le. }
  assert (Bn : (alerts_n <= List.length data)%nat).
  { unfold alerts_n. destruct (in_columns Alerte_temps data);
      [apply length_filter_le | lia]. }
  eexists. split; [reflexivity |].
  cbn [Kpis.total_orders Kpis.active_orders Kpis.historical_orders
       Kpis.completed_orders Kpis.alerts_count Kpis.completion_rate
       Kpis.alert_rate Kpis.production_rate Kpis.total_quantity_demanded].
  split; [reflexivity |].
  split.
  { rewrite Ea, Eh. apply disjoint_filters_le. intros r.
    apply opt_str_eqb_distinct. discriminate. }
  split; [exact Bc |]. split; [exact Bn |].
  split; [reflexivity |]. split; [reflexivity |].
  split; [apply percentage_bounds; assumption |].
  split; [apply percentage_bounds; assumption |].
  split.
  { intros Hall. rewrite Ea, Eh. apply complementary_filters.
    eapply Forall_impl; [| exact Hall]. intros r [H | H]; rewrite H; reflexivity. }
  split.
  { intros Hall. rewrite Eh, Ec. apply filter_implies_le.
    eapply Forall_impl; [| exact Hall]. intros r H E.
    apply opt_str_eqb_eq in E. rewrite (H E). reflexivity. }
  split.
  { intros H. rewrite H. reflexivity. }
  reflexivity.
Qed.

Lemma overview_kpis_within_bounds_witness :
  exists k,
    _calculate_overview_kpis [scenario_A_row; late_history_row] = Some k /\
    (Kpis.active_orders k + Kpis.historical_orders k)%nat = Kpis.total_orders k /\
    (Kpis.historical_orders k <= Kpis.completed_orders k)%nat.
Proof.
  destruct (overview_kpis_within_bounds [scenario_A_row; late_history_row])
    as (k & Hk & _ & _ & _ & _ & _ & _ & _ & _ & Ha & Hh & _).
  - discriminate.
  - exists k. split; [exact Hk |]. split.
    + apply Ha. apply Forall_cons; [left; reflexivity |].
      apply Forall_cons; [right; reflexivity | apply Forall_nil].
    + apply Hh. apply Forall_cons; [discriminate |].
      apply Forall_cons; [reflexivity | apply Forall_nil].
Defined.

(** ** Recent activity *)

Lemma sorted_app_before {A : Type} (R : A -> A -> Prop) (l1 l2 : list A) :
  StronglySorted R (l1 ++ l2)%list ->
  forall x y, In x l1 -> In y l2 -> R x y.
Proof.
  induction l1 as [| a t IH]; intros H x y Hx Hy; [destruct Hx |].
  cbn in H. inversion H as [| a' l' Hs Hall]; subst.
  destruct Hx as [-> | Hx].
  - rewrite Forall_forall in Hall. apply Hall. apply in_or_app. right. exact Hy.
  - apply (IH Hs x y Hx Hy).
Qed.

Lemma sorted_firstn {A : Type} (R : A -> A -> Prop) (n : nat) (l : list A) :
  StronglySorted R l -> StronglySorted R (firstn n l).
Proof.
  intros H. revert n. induction H as [| a t Hs IH Hall]; intros n.
  - rewrite firstn_nil. constructor.
  - destruct n as [| n]; [constructor |]. cbn [firstn]. constructor.
    + apply IH.
    + rewrite Forall_forall in *. intros x Hx. apply Hall.
      assert (K : In x (firstn n t ++ skipn n t)%list)
        by (apply in_or_app; left; exact Hx).
      rewrite firstn_skipn in K. exact K.
Qed.

(** X14.  [_get_recent_activity] returns the ten rows with the latest
    deadlines, or all of them when there are fewer, latest first and rows
    without deadline last: every row left out is due no later than every row
    shown.  On a frame with rows but without the progress column the column
    selection raises [KeyError]; on every other frame the list is returned. *)
Theorem recent_activity_latest_ten (data : DataFrame) :
  (forall items,
     _get_recent_activity data = Ok items ->
     List.length items = Nat.min 10 (List.length data) /\
     StronglySorted
       (fun x y => date_leb (Activity.LANCEMENT_AU_PLUS_TARD y)
                            (Activity.LANCEMENT_AU_PLUS_TARD x) = true) items /\
     exists shown rest,
       items = map (fun r => Activity.mk (NUMERO_OFDA r) (PRODUIT r) (STATUT r)
                               (LANCEMENT_AU_PLUS_TARD r)
                               (cell_of (Avancement_PROD r))) shown /\
       (forall r, In r data <-> In r shown \/ In r rest) /\
       (forall r s, In r rest -> In s shown ->
                    date_leb (LANCEMENT_AU_PLUS_TARD r)
                             (LANCEMENT_AU_PLUS_TARD s) = true)) /\
  (data <> [] -> in_columns Avancement_PROD data = false ->
   _get_recent_activity data = Raise KeyError) /\
  (data = [] \/ in_columns Avancement_PROD data = true ->
   exists items, _get_recent_activity data = Ok items).
Proof.
  split; [| split].
  - intros items H.
    assert (E : items
                = map (fun r => Activity.mk (NUMERO_OFDA r) (PRODUIT r) (STATUT r)
                                  (LANCEMENT_AU_PLUS_TARD r)
                                  (cell_of (Avancement_PROD r)))
                    (firstn 10 (order_by_desc LANCEMENT_AU_PLUS_TARD data))).
    { unfold _get_recent_activity in H. destruct data as [| r0 t].
      - cbn in H. injection H as <-. reflexivity.
      - cbn [empty] in H.
        destruct (in_columns Avancement_PROD (r0 :: t)); [| discriminate].
        injection H as <-. reflexivity. }
    pose proof (order_by_desc_sorted row LANCEMENT_AU_PLUS_TARD data) as S.
    split; [| split].
    + rewrite E, length_map, length_firstn, length_order_by_desc. reflexivity.
    + rewrite E. apply map_sorted.
      apply (sorted_firstn _ 10) in S. exact S.
    + exists (firstn 10 (order_by_desc LANCEMENT_AU_PLUS_TARD data)),
        (skipn 10 (order_by_desc LANCEMENT_AU_PLUS_TARD data)).
      split; [exact E |]. split.
      * intros r. rewrite <- in_app_iff, firstn_skipn.
        symmetry. apply In_order_by_desc.
      * intros r s Hr Hs. rewrite <- (firstn_skipn 10) in S.
        exact (sorted_app_before _ _ _ S s r Hs Hr).
  - intros Hne Hc. unfold _get_recent_activity.
    destruct data as [| r0 t]; [contradiction |].
    cbn [empty]. rewrite Hc. reflexivity.
  - intros H. unfold _get_recent_activity.
    destruct data as [| r0 t]; [exists []; reflexivity |].
    destruct H as [H | H]; [discriminate |].
    cbn [empty]. rewrite H. eexists. reflexivity.
Qed.

(** The sample records carry no calculated column. *)
Lemma recent_activity_latest_ten_witness :
  List.length (map Activity.NUMERO_OFDA
                 [Activity.mk "F0001" (Some "P1") (Some "C") (Some 100%Z)
                    (Num (50 / 100))])
  = Nat.min 10 (List.length [scenario_A_row]) /\
  _get_recent_activity (_create_sample_data entropy0) = Raise KeyError.
Proof.
  split.
  - rewrite length_map.
    apply (proj1 (recent_activity_latest_ten [scenario_A_row])
             [Activity.mk "F0001" (Some "P1") (Some "C") (Some 100%Z)
                    (Num (50 / 100))]).
    reflexivity.
  - apply (proj1 (proj2 (recent_activity_latest_ten
                            (_create_sample_data entropy0)))).
    + discriminate.
    + vm_compute. reflexivity.
Defined.

(** ** Status codes in use *)





(** ** Distributions *)

Lemma Qle_bool_trans (x a b : Q) :
  a <= b -> Qle_bool x a = true -> Qle_bool x b = true.
Proof.
  intros Hab H. apply Qle_bool_iff. apply Qle_bool_iff in H.
  exact (Qle_trans _ _ _ H Hab).
Qed.

Lemma Qle_bool_trans_l (x a b : Q) :
  a <= b -> Qle_bool b x = true -> Qle_bool a x = true.
Proof.
  intros Hab H. apply Qle_bool_iff. apply Qle_bool_iff in H.
  exact (Qle_trans _ _ _ Hab H).
Qed.

Lemma Qle_bool_total (x a b : Q) :
  a <= b -> Qle_bool x b = false -> Qle_bool a x = true.
Proof.
  intros Hab H. apply Qle_bool_iff.
  destruct (Qlt_le_dec b x) as [L | L].
  - apply Qlt_le_weak. exact (Qle_lt_trans _ _ _ Hab L).
  - apply Qle_bool_iff in L. congruence.
Qed.

Lemma advancement_buckets_total (col : list cell) :
  Buckets.total (production_advancement_distribution col)
  = List.length (numbers col).
Proof.
  unfold production_advancement_distribution, Buckets.total, count_where.
  cbn [Buckets.first Buckets.second Buckets.third Buckets.fourth].
  induction col as [| c t IH]; [reflexivity |].
  cbn [filter numbers]. destruct c as [| | x]; cbn [le_scalar gt_scalar andb];
    try exact IH.
  unfold Qgt_bool.
  destruct (Qle_bool x (25 # 100)) eqn:L1.
  - rewrite (Qle_bool_trans x (25 # 100) (5 # 10)) by (discriminate || exact L1).
    rewrite (Qle_bool_trans x (25 # 100) (75 # 100)) by (discriminate || exact L1).
    cbn [negb andb List.length]. lia.
  - destruct (Qle_bool x (5 # 10)) eqn:L2.
    + rewrite (Qle_bool_trans x (5 # 10) (75 # 100)) by (discriminate || exact L2).
      cbn [negb andb List.length]. lia.
    + destruct (Qle_bool x (75 # 100)); cbn [negb andb List.length]; lia.
Qed.

Lemma length_numbers_le (col : list cell) :
  (List.length (numbers col) <= List.length col)%nat.
Proof.
  induction col as [| c t IH]; [apply le_n |].
  destruct c; cbn [numbers List.length]; lia.
Qed.

(** X16.  The four classes of [_calculate_advancement_metrics] partition the
    rows whose progress is a number: their counts add up to the number of
    such rows, rows with a missing progress being in no class.  The
    distribution is absent exactly when the frame has no progress column,
    which includes the frame without rows; a historical frame with rows is
    reported as 100 percent complete with its number of rows. *)
Theorem advancement_classes_partition (current_data historical_data : DataFrame) :
  let m := _calculate_advancement_metrics current_data historical_data in
  let progress := map (fun r => cell_of (Avancement_PROD r)) current_data in
  match Advancement.production_advancement_distribution
          (Advancement.current_metrics m) with
  | Some d =>
      in_columns Avancement_PROD current_data = true /\
      Buckets.total d = List.length (numbers progress) /\
      (Buckets.total d <= List.length current_data)%nat
  | None => in_columns Avancement_PROD current_data = false
  end /\
  match Advancement.historical_metrics m with
  | Some h =>
      Advancement.completion_rate h = 100 /\
      Advancement.total_completed h = List.length historical_data /\
      historical_data <> []
  | None => historical_data = []
  end.
Proof.
  cbv zeta. unfold _calculate_advancement_metrics.
  cbn [Advancement.current_metrics Advancement.historical_metrics].
  split.
  - destruct current_data as [| r0 t]; [reflexivity |].
    cbn [empty negb Advancement.production_advancement_distribution].
    destruct (in_columns Avancement_PROD (r0 :: t)); [| reflexivity].
    split; [reflexivity |].
    rewrite advancement_buckets_total. split; [reflexivity |].
    etransitivity; [apply length_numbers_le |].
    rewrite length_map. apply le_n.
  - destruct historical_data as [| r0 t]; [reflexivity |].
    cbn [empty negb Advancement.completion_rate Advancement.total_completed].
    repeat split. discriminate.
Qed.

Lemma efficiency_buckets_total (ratios : list Q) :
  Buckets.total (efficiency_distribution ratios) = List.length ratios.
Proof.
  unfold efficiency_distribution, Buckets.total.
  cbn [Buckets.first Buckets.second Buckets.third Buckets.fourth].
  induction ratios as [| x t IH]; [reflexivity |].
  cbn [filter]. unfold Qgt_bool in *.
  destruct (Qle_bool (8 # 10) x) eqn:B.
  - rewrite (Qle_bool_trans_l x (5 # 10) (8 # 10)) by (discriminate || exact B).
    destruct (Qle_bool x 1); cbn [negb andb List.length]; lia.
  - destruct (Qle_bool x 1) eqn:C.
    + destruct (Qle_bool (5 # 10) x); cbn [negb andb List.length]; lia.
    + rewrite (Qle_bool_total x (8 # 10) 1) in B by (discriminate || exact C).
      discriminate.
Qed.

(** X17.  [_get_efficiency_trends] computes the efficiency over the rows
    whose progress is a number and whose time progress is a positive number;
    its four classes partition these rows.  Without such a row, and on a
    frame without the two columns, there is no current efficiency; rows whose
    time progress is 0 never enter it. *)
Theorem efficiency_classes_partition (current_data historical_data : DataFrame) :
  let kept := filter efficiency_row current_data in
  match Efficiency.current_efficiency
          (_get_efficiency_trends current_data historical_data) with
  | Some c =>
      kept <> [] /\
      Efficiency.avg_efficiency c = Sql.mean (map efficiency_ratio kept) /\
      Buckets.total (Efficiency.efficiency_distribution c) = List.length kept /\
      (Buckets.total (Efficiency.efficiency_distribution c)
       <= List.length current_data)%nat
  | None => kept = []
  end /\
  Forall (fun r => exists p t,
                     Avancement_PROD r = Some (Num p) /\
                     Avancement_temps r = Some (Num t) /\ 0 < t /\
                     efficiency_ratio r = p / t)
         kept.
Proof.
  cbv zeta. split.
  - unfold _get_efficiency_trends. cbn [Efficiency.current_efficiency].
    destruct (negb (empty current_data) && in_columns Avancement_PROD current_data
              && in_columns Avancement_temps current_data) eqn:G.
    + destruct (filter efficiency_row current_data) as [| r0 t] eqn:K;
        [reflexivity |].
      cbn [empty negb Efficiency.avg_efficiency Efficiency.efficiency_distribution].
      split; [discriminate |]. split; [reflexivity |].
      rewrite efficiency_buckets_total, length_map. split; [reflexivity |].
      rewrite <- K. apply length_filter_le.
    + apply filter_none. intros r Hr.
      destruct current_data as [| r0 t]; [destruct Hr |].
      cbn [empty negb andb] in G. apply andb_false_iff in G.
      unfold efficiency_row. destruct G as [G | G];
        rewrite (in_columns_false _ _ G r Hr); cbn [cell_of].
      * destruct (gt_scalar (cell_of (Avancement_temps r)) 0); reflexivity.
      * reflexivity.
  - apply Forall_forall. intros r Hr. apply filter_In in Hr.
    destruct Hr as [_ Hr]. unfold efficiency_row, efficiency_ratio in *.
    destruct (Avancement_PROD r) as [[| | p] |]; cbn [cell_of isna negb] in *;
      try (rewrite andb_false_r in Hr; discriminate);
      try (destruct (gt_scalar _ 0); discriminate).
    destruct (Avancement_temps r) as [[| | t] |]; cbn [cell_of gt_scalar] in *;
      try discriminate.
    exists p, t. repeat split. apply Qgt_bool_lt.
    destruct (Qgt_bool t 0); [reflexivity | discriminate].
Qed.

(** * Properties of the order controller *)

Lemma get_of_data_raises_TypeError (self : analyzer) (lk : link)
  (db : Db.database) (e : entropy) (date_debut date_fin : option date)
  (statut_filter famille_filter client_filter : option string)
  (alerte_filter : option bool) (x : exn) :
  snd (get_of_data self lk db e date_debut date_fin statut_filter
         famille_filter client_filter alerte_filter) = Raise x ->
  x = TypeError.
Proof.
  unfold get_of_data.
  destruct (execute_query self lk _) as [self1 df1].
  destruct (if empty df1 && negb (_sample_data_created self1)
            then _ else _) as [self2 df2].
  cbn [snd]. destruct (negb (empty df2)); [| discriminate].
  destruct (calculated_columns_returns_iff alerte_filter df2) as [H0 H1].
  destruct (existsb divides_none df2).
  - rewrite (H1 eq_refl). intros H. injection H as <-. reflexivity.
  - destruct (H0 eq_refl) as [df' ->]. discriminate.
Qed.

Lemma frame_or_nothing (df : DataFrame) :
  (if negb (empty df) then df else []) = df.
Proof. destruct df; reflexivity. Qed.

(** X18.  [get_of_en_cours] asks [get_of_data] for status 'C' when it is
    given no status; an empty status string is passed on and filters
    nothing.  The count it returns is the length of its list, and the only
    failure it can report is the [TypeError] of [get_of_data], under its own
    message. *)
Theorem of_en_cours_default_status (self : analyzer) (lk : link)
  (db : Db.database) (e : entropy) (date_debut date_fin : option date)
  (famille_filter client_filter : option string) :
  let answer sf :=
    get_of_en_cours self lk db e date_debut date_fin sf famille_filter
      client_filter in
  answer None = answer (Some "C") /\
  (forall s,
     fst (answer (Some s))
     = fst (get_of_data self lk db e date_debut date_fin (Some s)
              famille_filter client_filter None) /\
     snd (answer (Some s))
     = wrap "Error getting OF en cours: "
         (fun df => OfList.mk df (List.length df))
         (snd (get_of_data self lk db e date_debut date_fin (Some s)
                 famille_filter client_filter None))) /\
  get_of_data self lk db e date_debut date_fin (Some "") famille_filter
    client_filter None
  = get_of_data self lk db e date_debut date_fin None famille_filter
      client_filter None /\
  (forall sf d, snd (answer sf) = Done d ->
                OfList.count d = List.length (OfList.of_list d)) /\
  (forall sf context cause,
     snd (answer sf) = Failed context cause ->
     context = "Error getting OF en cours: " /\ cause = TypeError).
Proof.
  cbv zeta.
  assert (S : forall s,
             fst (get_of_en_cours self lk db e date_debut date_fin (Some s)
                    famille_filter client_filter)
             = fst (get_of_data self lk db e date_debut date_fin (Some s)
                      famille_filter client_filter None) /\
             snd (get_of_en_cours self lk db e date_debut date_fin (Some s)
                    famille_filter client_filter)
             = wrap "Error getting OF en cours: "
                 (fun df => OfList.mk df (List.length df))
                 (snd (get_of_data self lk db e date_debut date_fin (Some s)
                         famille_filter client_filter None))).
  { intros s. unfold get_of_en_cours.
    destruct (get_of_data self lk db e date_debut date_fin (Some s)
                famille_filter client_filter None) as [self1 [df | x]];
      cbn [fst snd wrap]; [rewrite frame_or_nothing |]; split; reflexivity. }
  assert (N : get_of_en_cours self lk db e date_debut date_fin None
                famille_filter client_filter
              = get_of_en_cours self lk db e date_debut date_fin (Some "C")
                  famille_filter client_filter) by reflexivity.
  refine (conj N (conj S (conj eq_refl (conj _ _)))).
  - intros sf d H.
    assert (H' : exists s, snd (get_of_en_cours self lk db e date_debut date_fin
                                  (Some s) famille_filter client_filter) = Done d).
    { destruct sf as [s |]; [exists s; exact H |].
      exists "C". rewrite <- N. exact H. }
    destruct H' as [s H']. rewrite (proj2 (S s)) in H'.
    destruct (snd (get_of_data self lk db e date_debut date_fin (Some s)
                     famille_filter client_filter None)); [| discriminate].
    cbn [wrap] in H'. injection H' as <-. reflexivity.
  - intros sf context cause H.
    assert (H' : exists s, snd (get_of_en_cours self lk db e date_debut date_fin
                                  (Some s) famille_filter client_filter)
                           = Failed context cause).
    { destruct sf as [s |]; [exists s; exact H |].
      exists "C". rewrite <- N. exact H. }
    destruct H' as [s H']. rewrite (proj2 (S s)) in H'.
    destruct (snd (get_of_data self lk db e date_debut date_fin (Some s)
                     famille_filter client_filter None)) as [df | x] eqn:G;
      [discriminate |].
    cbn [wrap] in H'. injection H' as <- <-.
    split; [reflexivity |]. exact (get_of_data_raises_TypeError _ _ _ _ _ _ _ _ _ _ _ G).
Qed.

Lemma of_en_cours_default_status_witness :
  exists d,
    snd (get_of_en_cours fresh link_up scenario_A entropy0 None None None None
           None) = Done d /\
    OfList.count d = List.length (OfList.of_list d).
Proof.
  assert (H : snd (get_of_en_cours fresh link_up scenario_A entropy0 None None
                     None None None)
              = Done (OfList.mk [scenario_A_row] 1))
    by (vm_compute; reflexivity).
  exists (OfList.mk [scenario_A_row] 1). split; [exact H |].
  exact (proj1 (proj2 (proj2 (proj2
           (of_en_cours_default_status fresh link_up scenario_A entropy0
              None None None None)))) None _ H).
Defined.

(** ** The limit of [get_of_with_filters] *)

Lemma In_firstn {A : Type} (n : nat) (l : list A) (x : A) :
  In x (firstn n l) -> In x l.
Proof.
  intros H.
  assert (K : In x (firstn n l ++ skipn n l)%list)
    by (apply in_or_app; left; exact H).
  rewrite firstn_skipn in K. exact K.
Qed.

Lemma In_head (n : Z) (df : DataFrame) (r : row) : In r (head n df) -> In r df.
Proof. unfold head. destruct (0 <=? n)%Z; apply In_firstn. Qed.

Lemma somes_all {A : Type} (l : list (option A)) :
  Forall (fun o => o <> None) l -> List.length (Sql.somes l) = List.length l.
Proof.
  induction 1 as [| o t Ho _ IH]; [reflexivity |].
  destruct o; [| contradiction]. cbn [Sql.somes List.length]. rewrite IH.
  reflexivity.
Qed.

Lemma source_value_counts_total (df : DataFrame) :
  Forall (fun r => DATA_SOURCE r <> None) df ->
  list_sum (map snd (source_value_counts df)) = List.length df.
Proof.
  intros H. unfold source_value_counts. rewrite map_map. cbn [snd].
  rewrite count_occ_nodup_sum, somes_all, length_map; [reflexivity |].
  apply Forall_map. exact H.
Qed.

Lemma in_columns_true {A : Type} (col : row -> option A) (r : row) (t : DataFrame) :
  col r <> None -> in_columns col (r :: t) = true.
Proof.
  intros H. unfold in_columns. cbn [existsb].
  destruct (col r); [reflexivity | contradiction].
Qed.

Lemma combined_rows_tagged (self : analyzer) (lk_active lk_histo : link)
  (db : Db.database) (date_debut date_fin : option date)
  (statut_filter famille_filter client_filter : option string)
  (alerte_filter : option bool) :
  Forall (fun r => DATA_SOURCE r <> None)
    (snd (get_combined_of_data self lk_active lk_histo db date_debut date_fin
            statut_filter famille_filter client_filter alerte_filter true)).
Proof.
  destruct (combined_blocks_sorted self lk_active lk_histo db date_debut
              date_fin statut_filter famille_filter client_filter alerte_filter)
    as [E _].
  cbv zeta in E. rewrite E. apply Forall_app. split; apply Forall_forall; intros r Hr.
  - apply lance_le_frame_In in Hr. apply of_da_frame_row in Hr.
    destruct Hr as (a & _ & _ & _ & _ & _ & _ & -> & _). discriminate.
  - unfold get_histo_of_data_with_lance_le_filter in Hr.
    apply execute_query_In in Hr. apply histo_frame_row in Hr.
    destruct Hr as (h & _ & _ & _ & -> & _). discriminate.
Qed.

(** X19.  [get_of_with_filters] takes the merged frame with
    [include_historical] and the frame of [get_of_data] without; a positive
    limit keeps the first rows, a negative one drops rows from the end, and
    the limit 0 is ignored like no limit.  The count is the length of the
    list; with [include_historical] the counts by source add up to it, and
    without there are none.  It answers whenever it has a frame, and fails,
    under its own message, only when [get_of_data] raises. *)
Theorem of_with_filters_limit (self : analyzer) (lk_active lk_histo : link)
  (db : Db.database) (e : entropy) (date_debut date_fin : option date)
  (statut_filter famille_filter client_filter : option string)
  (alerte_filter : option bool) (limit : option Z) (include_historical : bool) :
  let answer :=
    snd (get_of_with_filters self lk_active lk_histo db e date_debut date_fin
           statut_filter famille_filter client_filter alerte_filter limit
           include_historical) in
  let active :=
    snd (get_of_data self lk_active db e date_debut date_fin statut_filter
           famille_filter client_filter alerte_filter) in
  (forall d,
     answer = Done d ->
     exists frame,
       (if include_historical
        then frame
             = snd (get_combined_of_data self lk_active lk_histo db date_debut
                      date_fin statut_filter famille_filter client_filter
                      alerte_filter true)
        else active = Ok frame) /\
       Filtered.of_list d
       = match limit with
         | Some n => if (n =? 0)%Z then frame else head n frame
         | None => frame
         end /\
       Filtered.count d = List.length (Filtered.of_list d) /\
       (forall n, limit = Some n -> (0 < n)%Z ->
                  Filtered.count d = Nat.min (Z.to_nat n) (List.length frame)) /\
       (include_historical = true ->
        list_sum (map snd (Filtered.source_counts d)) = Filtered.count d) /\
       (include_historical = false -> Filtered.source_counts d = [])) /\
  (include_historical = true \/ (exists frame, active = Ok frame) ->
   exists d, answer = Done d) /\
  (forall context cause,
     answer = Failed context cause ->
     include_historical = false /\ active = Raise cause /\
     context = "Error getting filtered OF: ").
Proof.
  cbv zeta. unfold get_of_with_filters. split; [| split].
  2: { intros H. destruct include_historical.
       - destruct (get_combined_of_data self lk_active lk_histo db date_debut
                     date_fin statut_filter famille_filter client_filter
                     alerte_filter true) as [self1 df].
         cbn [snd wrap]. eexists. reflexivity.
       - destruct H as [H | [frame H]]; [discriminate |].
         destruct (get_of_data self lk_active db e date_debut date_fin
                     statut_filter famille_filter client_filter alerte_filter)
           as [self1 o].
         cbn [snd] in *. rewrite H. cbn [wrap]. eexists. reflexivity. }
  2: { intros context cause H. destruct include_historical.
       - destruct (get_combined_of_data self lk_active lk_histo db date_debut
                     date_fin statut_filter famille_filter client_filter
                     alerte_filter true) as [self1 df].
         cbn [snd wrap] in H. discriminate.
       - destruct (get_of_data self lk_active db e date_debut date_fin
                     statut_filter famille_filter client_filter alerte_filter)
           as [self1 [df | x]]; cbn [snd wrap] in *; [discriminate |].
         injection H as <- <-. repeat split; reflexivity. }
  intros d H.
  assert (Hf : exists frame,
             (if include_historical
              then frame
                   = snd (get_combined_of_data self lk_active lk_histo db
                            date_debut date_fin statut_filter famille_filter
                            client_filter alerte_filter true)
              else snd (get_of_data self lk_active db e date_debut date_fin
                          statut_filter famille_filter client_filter
                          alerte_filter) = Ok frame) /\
             (include_historical = true -> Forall (fun r => DATA_SOURCE r <> None) frame) /\
             Done d
             = wrap "Error getting filtered OF: "
                 (fun of_data =>
                    let of_data :=
                      match limit with
                      | Some n =>
                          if negb (n =? 0)%Z && negb (empty of_data)
                          then head n of_data else of_data
                      | None => of_data
                      end in
                    let source_counts :=
                      if include_historical && negb (empty of_data)
                         && in_columns DATA_SOURCE of_data
                      then source_value_counts of_data else [] in
                    Filtered.mk (if negb (empty of_data) then of_data else [])
                      (List.length of_data) source_counts)
                 (Ok frame)).
  { destruct include_historical.
    - pose proof (combined_rows_tagged self lk_active lk_histo db date_debut
                    date_fin statut_filter famille_filter client_filter
                    alerte_filter) as T.
      destruct (get_combined_of_data self lk_active lk_histo db date_debut
                  date_fin statut_filter famille_filter client_filter
                  alerte_filter true) as [self1 df].
      cbn [snd] in *. exists df. rewrite <- H. auto.
    - destruct (get_of_data self lk_active db e date_debut date_fin
                  statut_filter famille_filter client_filter alerte_filter)
        as [self1 [df | x]]; cbn [snd] in *; [| discriminate].
      exists df. rewrite <- H. repeat split. discriminate. }
  destruct Hf as (frame & Hsrc & Htag & Hd). exists frame.
  split; [exact Hsrc |]. clear H Hsrc. cbn [wrap] in Hd. cbv zeta in Hd.
  set (kept := match limit with
               | Some n => if (n =? 0)%Z then frame else head n frame
               | None => frame
               end).
  assert (Ek : match limit with
               | Some n =>
                   if negb (n =? 0)%Z && negb (empty frame)
                   then head n frame else frame
               | None => frame
               end = kept).
  { unfold kept. destruct limit as [n |]; [| reflexivity].
    destruct (n =? 0)%Z; [reflexivity |]. cbn [negb andb].
    destruct frame as [| r t]; [| reflexivity].
    unfold head. destruct (0 <=? n)%Z; rewrite firstn_nil; reflexivity. }
  rewrite Ek in Hd. rewrite frame_or_nothing in Hd.
  injection Hd as ->.
  cbn [Filtered.of_list Filtered.count Filtered.source_counts].
  split; [reflexivity |]. split; [reflexivity |].
  split; [| split].
  - intros n En Hn. unfold kept. rewrite En.
    destruct (Z.eqb_spec n 0) as [-> | _]; [lia |].
    unfold head. destruct (Z.leb_spec 0 n); [| lia].
    apply length_firstn.
  - intros ->. cbn [andb].
    assert (Tk : Forall (fun r => DATA_SOURCE r <> None) kept).
    { specialize (Htag eq_refl). rewrite Forall_forall in *. intros r Hr.
      apply Htag. unfold kept in Hr. destruct limit as [n |]; [| exact Hr].
      destruct (n =? 0)%Z; [exact Hr | exact (In_head _ _ _ Hr)]. }
    destruct kept as [| r t] eqn:K; [reflexivity |].
    cbn [empty negb andb].
    rewrite in_columns_true by (inversion Tk; assumption).
    apply source_value_counts_total. exact Tk.
  - intros ->. reflexivity.
Qed.

(** Limit 1 on the merged frame of [later_history]. *)
Lemma of_with_filters_limit_witness :
  exists frame,
    frame = snd (get_combined_of_data fresh link_up link_up later_history
                   None None None None None None true) /\
    map NUMERO_OFDA (if (1 =? 0)%Z then frame else head 1 frame) = ["F0001"] /\
    1%nat = Nat.min (Z.to_nat 1) (List.length frame).
Proof.
  destruct (proj1 (of_with_filters_limit fresh link_up link_up later_history
                     entropy0 None None None None None None (Some 1%Z) true)
              (Filtered.mk
                 [first_row (snd (get_combined_of_data fresh link_up link_up
                                    later_history None None None None None None
                                    true))]
                 1 [("ACTIVE", 1%nat)]))
    as (frame & Hf & Hl & _ & Hc & _).
  - vm_compute. reflexivity.
  - exists frame. split; [exact Hf |]. split.
    + rewrite <- Hl. reflexivity.
    + apply (Hc 1%Z eq_refl). lia.
Defined.

(** * Properties of the connection *)

Lemma execute_query_on_delivers {A : Type} (self : analyzer) (lk : link)
  (answer : list A) :
  snd (execute_query_on self lk answer)
  = (if delivers self lk then answer else []) /\
  (delivers self lk = true -> engine self && engine_read_ok lk = false ->
   connection (fst (execute_query_on self lk answer)) = true).
Proof.
  unfold execute_query_on, execute_query_pyodbc_on, _connect, delivers.
  destruct self as [c g s], lk as [a b c' d e]; cbn.
  destruct g, a, c, b, d, e; cbn; split; auto; discriminate.
Qed.

(** X20.  [_close_connection] leaves an analyzer without connection and
    without engine, keeps [_sample_data_created], and closing twice is closing
    once.  A closed analyzer is not lost: the next [execute_query] reconnects
    and returns the frame of its statement exactly when the connection can be
    made and one of the two reads through it succeeds.
    [DataService.test_connection] answers [True] exactly when the query layer
    delivers, on a closed analyzer exactly when it can reconnect and read, and
    then leaves it connected; [get_database_info] reports "healthy" in this
    case and "disconnected" otherwise. *)
Theorem closed_analyzer_reconnects (self : analyzer) (lk : link) :
  let closed := _close_connection self in
  let reachable := connect_ok lk && (conn_read_ok lk || retry_read_ok lk) in
  closed = mk_analyzer false false (_sample_data_created self) /\
  _close_connection closed = closed /\
  (forall answer : DataFrame,
     snd (execute_query closed lk answer) = (if reachable then answer else [])) /\
  snd (test_connection self lk) = delivers self lk /\
  snd (test_connection closed lk) = reachable /\
  (snd (test_connection closed lk) = true ->
   connection (fst (test_connection closed lk)) = true) /\
  DatabaseInfo.connected (snd (get_database_info self lk)) = delivers self lk /\
  DatabaseInfo.status (snd (get_database_info self lk))
  = (if delivers self lk then "healthy" else "disconnected").
Proof.
  cbv zeta.
  assert (C : _close_connection self
              = mk_analyzer false false (_sample_data_created self)).
  { unfold _close_connection. destruct self as [c g s]. destruct c, g; reflexivity. }
  assert (T : forall an, snd (test_connection an lk) = delivers an lk).
  { intros an. unfold test_connection.
    pose proof (proj1 (execute_query_on_delivers an lk [1%Z])) as D.
    destruct (execute_query_on an lk [1%Z]) as [an1 result].
    cbn [snd] in *. rewrite D. destruct (delivers an lk); reflexivity. }
  rewrite C.
  split; [reflexivity |]. split; [reflexivity |]. split.
  { intros answer. unfold execute_query, execute_query_pyodbc, _connect.
    destruct lk as [a b c' d e]; cbn. destruct b, d, e; reflexivity. }
  split; [apply T |]. split.
  { rewrite T. unfold delivers. cbn [engine connection andb orb].
    destruct (connect_ok lk); reflexivity. }
  split.
  { unfold test_connection, execute_query_on, execute_query_pyodbc_on, _connect.
    destruct lk as [a b c' d e]; cbn. destruct b, d, e; cbn; auto. }
  unfold get_database_info. specialize (T self).
  destruct (test_connection self lk) as [self1 is_connected].
  cbn [snd] in *. subst is_connected.
  cbn [DatabaseInfo.connected DatabaseInfo.status]. split; reflexivity.
Qed.

(** A closed analyzer is connected again after one probe of a working link. *)
Lemma closed_analyzer_reconnects_witness :
  connection (fst (test_connection (_close_connection fresh) link_up)) = true.
Proof.
  apply (proj1 (proj2 (proj2 (proj2 (proj2 (proj2
           (closed_analyzer_reconnects fresh link_up))))))).
  reflexivity.
Defined.

(** * Further properties of the dashboard controller *)

(** ** Unit times *)

Lemma Qsum_pos (l : list Q) :
  l <> [] -> Forall (fun q => 0 < q) l -> 0 < Sql.Qsum l.
Proof.
  intros Hne H. induction H as [| q t Hq Ht IH]; [contradiction |].
  cbn [Sql.Qsum fold_right]. destruct t as [| q' t'].
  - cbn [fold_right]. rewrite Qplus_0_r. exact Hq.
  - assert (I : 0 < Sql.Qsum (q' :: t')) by (apply IH; discriminate).
    unfold Sql.Qsum in I.
    setoid_replace 0 with (0 + 0) at 1 by reflexivity.
    apply Qplus_lt_le_compat; [exact Hq | apply Qlt_le_weak; exact I].
Qed.

Lemma mean_pos (l : list Q) :
  l <> [] -> Forall (fun q => 0 < q) l -> 0 < Sql.mean l.
Proof.
  intros Hne H. unfold Sql.mean.
  apply Qlt_shift_div_l.
  - destruct l as [| q t]; [contradiction |].
    change (inject_Z 0 < inject_Z (Z.of_nat (List.length (q :: t)))).
    rewrite <- Zlt_Qlt. cbn [List.length]. lia.
  - rewrite Qmult_0_l. apply Qsum_pos; assumption.
Qed.

Lemma numbers_positive (col : list cell) :
  forallb (fun c => gt_scalar c 0) col = true ->
  Forall (fun q => 0 < q) (numbers col) /\
  List.length (numbers col) = List.length col.
Proof.
  induction col as [| c t IH]; intros H; [split; [constructor | reflexivity] |].
  cbn [forallb] in H. apply andb_true_iff in H. destruct H as [Hc Ht].
  destruct (IH Ht) as [I1 I2].
  destruct c as [| | x]; cbn [gt_scalar] in Hc; try discriminate.
  cbn [numbers List.length]. split; [| rewrite I2; reflexivity].
  constructor; [apply Qgt_bool_lt; exact Hc | exact I1].
Qed.

Lemma unit_time_mean_positive (data : DataFrame) :
  data <> [] ->
  forallb (fun r => gt_scalar (cell_of (TEMPS_UNITAIRE_HISTORIQUE r)) 0) data = true ->
  gt_scalar (unit_time_mean data) 0 = true.
Proof.
  intros Hne H. unfold unit_time_mean.
  destruct data as [| r0 t]; [contradiction |].
  assert (Hc : in_columns TEMPS_UNITAIRE_HISTORIQUE (r0 :: t) = true).
  { apply in_columns_true. cbn [forallb] in H. apply andb_true_iff in H.
    destruct H as [H _]. destruct (TEMPS_UNITAIRE_HISTORIQUE r0); [discriminate |].
    cbn in H. discriminate. }
  rewrite Hc. cbn [empty negb andb].
  assert (Hf : forallb (fun c => gt_scalar c 0)
                 (map (fun r => cell_of (TEMPS_UNITAIRE_HISTORIQUE r)) (r0 :: t))
               = true).
  { rewrite forallb_forall in *. intros c Hin. apply in_map_iff in Hin.
    destruct Hin as [r [<- Hr]]. exact (H r Hr). }
  destruct (numbers_positive _ Hf) as [P L].
  unfold series_mean.
  destruct (numbers (map (fun r => cell_of (TEMPS_UNITAIRE_HISTORIQUE r)) (r0 :: t)))
    as [| q qs] eqn:E.
  - rewrite length_map in L. discriminate L.
  - cbn [gt_scalar]. unfold Qgt_bool. apply negb_true_iff.
    destruct (Qle_bool (Sql.mean (q :: qs)) 0) eqn:B; [| reflexivity].
    apply Qle_bool_iff in B.
    assert (M : 0 < Sql.mean (q :: qs)) by (apply mean_pos; [discriminate | exact P]).
    exfalso. exact (Qlt_not_le _ _ M B).
Qed.

Lemma percentage_change_above (c h : Q) :
  0 < c -> 0 < h -> - (100) < (c - h) / h * 100.
Proof.
  intros Hc Hh.
  assert (Hn : ~ h == 0).
  { intros E. rewrite E in Hh. exact (Qlt_irrefl 0 Hh). }
  apply Qlt_minus_iff.
  setoid_replace ((c - h) / h * 100 + - - (100)) with (c / h * 100)
    by (field; exact Hn).
  apply Qmult_lt_0_compat; [| reflexivity].
  apply Qlt_shift_div_l; [exact Hh |]. rewrite Qmult_0_l. exact Hc.
Qed.

Lemma percentage_change_sign (c h : Q) :
  0 < h -> ((c - h) / h * 100 < 0 <-> c < h).
Proof.
  intros Hh.
  assert (Hn : ~ h == 0).
  { intros E. rewrite E in Hh. exact (Qlt_irrefl 0 Hh). }
  split.
  - intros Hp. destruct (Qlt_le_dec c h) as [L | L]; [exact L |].
    exfalso. apply (Qlt_not_le _ _ Hp).
    apply Qmult_le_0_compat; [| discriminate].
    apply Qle_shift_div_l; [exact Hh |]. rewrite Qmult_0_l.
    apply (Qplus_le_l _ _ h). rewrite Qplus_0_l.
    setoid_replace (c - h + h) with c by ring. exact L.
  - intros L. apply Qlt_minus_iff.
    setoid_replace (0 + - ((c - h) / h * 100)) with ((h - c) / h * 100)
      by (field; exact Hn).
    apply Qmult_lt_0_compat; [| reflexivity].
    apply Qlt_shift_div_l; [exact Hh |]. rewrite Qmult_0_l.
    apply (Qplus_lt_l _ _ c). rewrite Qplus_0_l.
    setoid_replace (h - c + c) with h by ring. exact L.
Qed.

(** X21.  [_analyze_unit_times] reports a comparison exactly when both
    averages are positive numbers, so never when an average is [nan] or when
    the current frame lacks the baseline column (its average then stays 0).
    The difference is current minus historical; the percentage change is the
    difference relative to the historical average, it is above -100 and
    negative exactly when the current average is the lower one.  Two frames
    with rows whose baselines are all positive always get a comparison. *)
Theorem unit_time_comparison_rule (current_data historical_data : DataFrame) :
  let a := _analyze_unit_times current_data historical_data in
  let positive := fun r => gt_scalar (cell_of (TEMPS_UNITAIRE_HISTORIQUE r)) 0 in
  (forall k,
     UnitTimes.comparison a = Some k ->
     exists c h,
       UnitTimes.current_avg_unit_time a = Num c /\
       UnitTimes.historical_avg_unit_time a = Num h /\
       0 < c /\ 0 < h /\
       UnitTimes.difference k = c - h /\
       UnitTimes.percentage_change k * h == UnitTimes.difference k * 100 /\
       - (100) < UnitTimes.percentage_change k /\
       (UnitTimes.percentage_change k < 0 <-> c < h)) /\
  (UnitTimes.comparison a = None <->
   gt_scalar (UnitTimes.current_avg_unit_time a) 0 = false \/
   gt_scalar (UnitTimes.historical_avg_unit_time a) 0 = false) /\
  (in_columns TEMPS_UNITAIRE_HISTORIQUE current_data = false ->
   UnitTimes.current_avg_unit_time a = Num 0 /\
   UnitTimes.comparison a = None) /\
  (current_data <> [] -> historical_data <> [] ->
   forallb positive current_data = true ->
   forallb positive historical_data = true ->
   UnitTimes.comparison a <> None).
Proof.
  cbv zeta. unfold _analyze_unit_times.
  cbn [UnitTimes.comparison UnitTimes.current_avg_unit_time
       UnitTimes.historical_avg_unit_time].
  assert (R : UnitTimes.comparison
                (_analyze_unit_times current_data historical_data) = None <->
              gt_scalar (unit_time_mean current_data) 0 = false \/
              gt_scalar (unit_time_mean historical_data) 0 = false).
  { unfold _analyze_unit_times. cbn [UnitTimes.comparison].
    destruct (unit_time_mean current_data) as [| | c],
      (unit_time_mean historical_data) as [| | h]; cbn [gt_scalar andb];
      try (split; [auto | reflexivity]).
    - split; [auto | intros _; destruct (Qgt_bool c 0); reflexivity].
    - split; [auto | intros _; destruct (Qgt_bool c 0); reflexivity].
    - destruct (Qgt_bool c 0), (Qgt_bool h 0); cbn [andb];
        split; auto; try discriminate; intros [H | H]; discriminate. }
  unfold _analyze_unit_times in R. cbn [UnitTimes.comparison] in R.
  split; [| split; [exact R | split]].
  - intros k Hk.
    destruct (unit_time_mean current_data) as [| | c]; cbn [gt_scalar andb] in Hk;
      try discriminate.
    destruct (unit_time_mean historical_data) as [| | h];
      cbn [gt_scalar andb] in Hk;
      try (destruct (Qgt_bool c 0); discriminate).
    destruct (Qgt_bool c 0) eqn:Pc; [| discriminate].
    destruct (Qgt_bool h 0) eqn:Ph; [| discriminate].
    cbn [andb] in Hk. injection Hk as <-.
    apply Qgt_bool_lt in Pc. apply Qgt_bool_lt in Ph.
    assert (Hn : ~ h == 0).
    { intros E. rewrite E in Ph. exact (Qlt_irrefl 0 Ph). }
    exists c, h. cbn [UnitTimes.difference UnitTimes.percentage_change].
    repeat split; try assumption.
    + field. exact Hn.
    + apply percentage_change_above; assumption.
    + apply percentage_change_sign. exact Ph.
    + apply percentage_change_sign. exact Ph.
  - intros Hc.
    assert (E : unit_time_mean current_data = Num 0).
    { unfold unit_time_mean. rewrite Hc, andb_false_r. reflexivity. }
    split; [exact E |]. apply R. left. rewrite E. reflexivity.
  - intros N1 N2 P1 P2 H. apply R in H.
    rewrite (unit_time_mean_positive _ N1 P1),
      (unit_time_mean_positive _ N2 P2) in H.
    destruct H; discriminate.
Qed.

(** The frame of [late_history] against itself: equal averages, no change. *)
Lemma unit_time_comparison_rule_witness :
  UnitTimes.comparison (_analyze_unit_times [late_history_row] [late_history_row])
  <> None.
Proof.
  apply (proj2 (proj2 (proj2
           (unit_time_comparison_rule [late_history_row] [late_history_row])))).
  - discriminate.
  - discriminate.
  - reflexivity.
  - reflexivity.
Defined.

(** ** Status distributions *)



(** * Orders by status *)

Lemma get_of_data_rows_status (self : analyzer) (lk : link) (db : Db.database)
  (e : entropy) (date_debut date_fin : option date)
  (statut_filter famille_filter client_filter : option string)
  (alerte_filter : option bool) (df : DataFrame) (r : row) :
  snd (get_of_data self lk db e date_debut date_fin statut_filter
         famille_filter client_filter alerte_filter) = Ok df ->
  In r df ->
  like_F (NUMERO_OFDA r) = true /\
  (truthy_str statut_filter = true -> STATUT r = statut_filter).
Proof.
  intros H Hr.
  destruct (get_of_data_rows _ _ _ _ _ _ _ _ _ _ _ H r Hr) as [r0 [Hc Hsrc]].
  destruct (calc_row_keeps r0 r Hc) as (Kn & _ & Ks & _).
  rewrite Kn, Ks.
  destruct Hsrc as [Hin | [_ Hin]].
  - apply execute_query_In in Hin. apply of_da_frame_row in Hin.
    destruct Hin as (a & _ & Hw & -> & -> & _).
    destruct (of_da_where_clauses _ _ _ _ _ _ _ Hw) as (HF & H1 & _).
    split; assumption.
  - apply sample_filters_In in Hin. destruct Hin as (Hin & H1 & _).
    unfold _create_sample_data in Hin. apply in_map_iff in Hin.
    destruct Hin as [i [<- _]].
    split; [apply like_F_sample | exact H1].
Qed.

Lemma valid_statuses_In (status : string) :
  existsb (String.eqb status) valid_statuses = true <-> In status valid_statuses.
Proof.
  rewrite existsb_exists. split.
  - intros [s [Hs E]]. apply String.eqb_eq in E. subst s. exact Hs.
  - intros H. exists status. split; [exact H | apply String.eqb_refl].
Qed.

(** X23.  [get_of_by_status] refuses every status other than C, T and A
    without asking the analyzer, with the message of its [ValueError] under
    its own prefix.  For a valid status it hands on what [get_of_data] does
    with this status as only filter: the rows listed all carry the status and
    an order number starting with F, the count is their number, the status is
    echoed, and the only other outcome is the [TypeError] of
    [get_of_data]. *)
Theorem of_by_status_validates (self : analyzer) (lk : link)
  (db : Db.database) (e : entropy) (status : string) :
  let answer := get_of_by_status self lk db e status in
  let active :=
    get_of_data self lk db e None None (Some status) None None None in
  let context := "Error getting OF by status " ++ status ++ ": " in
  (~ In status valid_statuses ->
   answer
   = (self,
      Invalid (context ++ "Invalid status. Must be one of: ['C', 'T', 'A']"))) /\
  (In status valid_statuses ->
   fst answer = fst active /\
   ((exists df,
       snd active = Ok df /\
       snd answer = Listed (ByStatus.mk df (List.length df) status)) \/
    (snd active = Raise TypeError /\ snd answer = Broken context TypeError))) /\
  (forall d,
     snd answer = Listed d ->
     In status valid_statuses /\
     ByStatus.status d = status /\
     ByStatus.count d = List.length (ByStatus.of_list d) /\
     Forall (fun r => STATUT r = Some status /\ like_F (NUMERO_OFDA r) = true)
            (ByStatus.of_list d)).
Proof.
  cbv zeta.
  assert (V : In status valid_statuses ->
              fst (get_of_by_status self lk db e status)
              = fst (get_of_data self lk db e None None (Some status) None None
                       None) /\
              ((exists df,
                  snd (get_of_data self lk db e None None (Some status) None
                         None None) = Ok df /\
                  snd (get_of_by_status self lk db e status)
                  = Listed (ByStatus.mk df (List.length df) status)) \/
               (snd (get_of_data self lk db e None None (Some status) None None
                       None) = Raise TypeError /\
                snd (get_of_by_status self lk db e status)
                = Broken ("Error getting OF by status " ++ status ++ ": ")
                    TypeError))).
  { intros Hv. unfold get_of_by_status.
    rewrite (proj2 (valid_statuses_In status) Hv). cbn [negb].
    pose proof (get_of_data_raises_TypeError self lk db e None None
                  (Some status) None None None) as T.
    destruct (get_of_data self lk db e None None (Some status) None None None)
      as [self1 [df | x]]; cbn [fst snd] in *.
    - split; [reflexivity |]. left. exists df.
      rewrite frame_or_nothing. split; reflexivity.
    - split; [reflexivity |]. right. rewrite (T x eq_refl).
      split; reflexivity. }
  split; [| split; [exact V |]].
  - intros Hn. unfold get_of_by_status.
    destruct (existsb (String.eqb status) valid_statuses) eqn:E;
      [| reflexivity].
    apply valid_statuses_In in E. contradiction.
  - intros d Hd.
    assert (Hv : In status valid_statuses).
    { destruct (existsb (String.eqb status) valid_statuses) eqn:E;
        [apply valid_statuses_In; exact E |].
      unfold get_of_by_status in Hd. rewrite E in Hd. discriminate Hd. }
    split; [exact Hv |].
    destruct (V Hv) as [_ [[df [Ha Hl]] | [_ Hb]]];
      [| rewrite Hb in Hd; discriminate].
    rewrite Hl in Hd. injection Hd as <-.
    cbn [ByStatus.status ByStatus.count ByStatus.of_list].
    split; [reflexivity |]. split; [reflexivity |].
    apply Forall_forall. intros r Hr.
    destruct (get_of_data_rows_status _ _ _ _ _ _ _ _ _ _ _ r Ha Hr) as [HF Hs].
    split; [| exact HF].
    assert (Ht : truthy_str (Some status) = true).
    { cbn [valid_statuses In] in Hv.
      destruct Hv as [<- | [<- | [<- | []]]]; reflexivity. }
    exact (Hs Ht).
Qed.

(** Status 'X' is refused; status 'C' lists the two orders of [one_alert]. *)
Lemma of_by_status_validates_witness :
  snd (get_of_by_status fresh link_up one_alert entropy0 "X")
  = Invalid "Error getting OF by status X: Invalid status. Must be one of: ['C', 'T', 'A']" /\
  exists d,
    snd (get_of_by_status fresh link_up one_alert entropy0 "C") = Listed d /\
    ByStatus.count d = 2%nat /\
    Forall (fun r => STATUT r = Some "C" /\ like_F (NUMERO_OFDA r) = true)
           (ByStatus.of_list d).
Proof.
  pose proof (of_by_status_validates fresh link_up one_alert entropy0 "X")
    as (HX & _ & _).
  pose proof (of_by_status_validates fresh link_up one_alert entropy0 "C")
    as (_ & _ & HC).
  cbv zeta in HX, HC. split.
  - rewrite HX; [reflexivity |].
    cbn [valid_statuses In]. intros [H | [H | [H | []]]]; discriminate H.
  - assert (H : exists d,
               snd (get_of_by_status fresh link_up one_alert entropy0 "C")
               = Listed d /\ ByStatus.count d = 2%nat).
    { eexists. split; vm_compute; reflexivity. }
    destruct H as (d & Hd & Hn). exists d.
    split; [exact Hd |]. split; [exact Hn |].
    exact (proj2 (proj2 (proj2 (HC d Hd)))).
Defined.

(** * Filter options *)

Lemma In_somes {A : Type} (l : list (option A)) (a : A) :
  In a (Sql.somes l) <-> In (Some a) l.
Proof.
  induction l as [| o t IH]; [reflexivity |].
  destruct o as [b |]; cbn [Sql.somes In]; rewrite IH; split.
  - intros [-> | H]; auto.
  - intros [H | H]; [injection H as ->; auto | auto].
  - auto.
  - intros [H | H]; [discriminate | exact H].
Qed.

Lemma fold_min_spec (d : Z) (t : list Z) :
  In (fold_right Z.min d t) (d :: t) /\
  forall x, In x (d :: t) -> (fold_right Z.min d t <= x)%Z.
Proof.
  induction t as [| y t IH]; cbn [fold_right].
  - split; [left; reflexivity |]. intros x [<- | []]. lia.
  - destruct IH as [I1 I2]. split.
    + destruct (Z.min_spec y (fold_right Z.min d t)) as [[_ ->] | [_ ->]].
      * right. left. reflexivity.
      * destruct I1 as [I1 | I1]; [left; exact I1 | right; right; exact I1].
    + intros x [<- | [<- | H]].
      * specialize (I2 d (or_introl eq_refl)). lia.
      * lia.
      * specialize (I2 x (or_intror H)). lia.
Qed.

Lemma fold_max_spec (d : Z) (t : list Z) :
  In (fold_right Z.max d t) (d :: t) /\
  forall x, In x (d :: t) -> (x <= fold_right Z.max d t)%Z.
Proof.
  induction t as [| y t IH]; cbn [fold_right].
  - split; [left; reflexivity |]. intros x [<- | []]. lia.
  - destruct IH as [I1 I2]. split.
    + destruct (Z.max_spec y (fold_right Z.max d t)) as [[_ ->] | [_ ->]].
      * destruct I1 as [I1 | I1]; [left; exact I1 | right; right; exact I1].
      * right. left. reflexivity.
    + intros x [<- | [<- | H]].
      * specialize (I2 d (or_introl eq_refl)). lia.
      * lia.
      * specialize (I2 x (or_intror H)). lia.
Qed.

(** X24.  [get_filter_options] never fails: an exception of [get_of_data]
    ends in a dictionary with the entry "error", no date range and 0 records.
    Otherwise the number of records is the number of rows of the unfiltered
    [get_of_data]; the range is absent exactly when no row has a deadline,
    and else its two ends are deadlines of rows that enclose the deadline of
    every row. *)
Theorem filter_options_date_range (self : analyzer) (lk : link)
  (db : Db.database) (e : entropy) :
  let active := get_of_data self lk db e None None None None None None in
  let options := snd (get_filter_options self lk db e) in
  fst (get_filter_options self lk db e) = fst active /\
  (forall x, snd active = Raise x ->
             options = FilterOptions.mk None None 0 None (Some TypeError)) /\
  (forall of_data,
     snd active = Ok of_data ->
     FilterOptions.error options = None /\
     FilterOptions.total_records options = List.length of_data /\
     (FilterOptions.message options = None <-> of_data = []) /\
     match FilterOptions.date_range_min options,
           FilterOptions.date_range_max options with
     | Some lo, Some hi =>
         (exists r, In r of_data /\ LANCEMENT_AU_PLUS_TARD r = Some lo) /\
         (exists r, In r of_data /\ LANCEMENT_AU_PLUS_TARD r = Some hi) /\
         (forall r d, In r of_data -> LANCEMENT_AU_PLUS_TARD r = Some d ->
                      (lo <= d <= hi)%Z)
     | None, None =>
         forall r, In r of_data -> LANCEMENT_AU_PLUS_TARD r = None
     | _, _ => False
     end).
Proof.
  cbv zeta. unfold get_filter_options.
  pose proof (get_of_data_raises_TypeError self lk db e None None None None None
                None) as T.
  destruct (get_of_data self lk db e None None None None None None)
    as [self1 [df | x0]]; cbn [fst snd] in *.
  - split; [reflexivity |]. split; [discriminate |].
    intros of_data H. injection H as <-.
    destruct df as [| r0 t] eqn:Ed.
    { cbn. repeat split; try reflexivity. intros r []. }
    rewrite <- Ed. assert (He : empty df = false) by (rewrite Ed; reflexivity).
    rewrite He.
    cbn [FilterOptions.error FilterOptions.total_records FilterOptions.message
         FilterOptions.date_range_min FilterOptions.date_range_max].
    split; [reflexivity |]. split; [reflexivity |]. split.
    { split; [discriminate | intros H; rewrite Ed in H; discriminate]. }
    destruct (Sql.somes (map LANCEMENT_AU_PLUS_TARD df)) as [| d ds] eqn:S;
      cbn [fst snd].
    + intros r Hr. destruct (LANCEMENT_AU_PLUS_TARD r) as [d |] eqn:L;
        [| reflexivity].
      assert (I : In d (Sql.somes (map LANCEMENT_AU_PLUS_TARD df))).
      { apply In_somes. rewrite <- L. apply in_map. exact Hr. }
      rewrite S in I. destruct I.
    + destruct (fold_min_spec d ds) as [M1 M2].
      destruct (fold_max_spec d ds) as [X1 X2].
      assert (W : forall z, In z (d :: ds) ->
                            exists r, In r df /\ LANCEMENT_AU_PLUS_TARD r = Some z).
      { intros z Hz. rewrite <- S in Hz. apply In_somes in Hz.
        apply in_map_iff in Hz. destruct Hz as [r [Hr Hin]]. exists r. auto. }
      split; [exact (W _ M1) |]. split; [exact (W _ X1) |].
      intros r z Hr L.
      assert (I : In z (d :: ds)).
      { rewrite <- S. apply In_somes. rewrite <- L. apply in_map. exact Hr. }
      split; [exact (M2 z I) | exact (X2 z I)].
  - split; [reflexivity |]. split; [| discriminate].
    intros x _. rewrite (T x0 eq_refl). reflexivity.
Qed.

(** The active order of [later_history]. *)
Lemma filter_options_date_range_witness :
  FilterOptions.total_records
    (snd (get_filter_options fresh link_up later_history entropy0)) = 1%nat /\
  FilterOptions.error
    (snd (get_filter_options fresh link_up later_history entropy0)) = None.
Proof.
  assert (H : snd (get_of_data fresh link_up later_history entropy0 None None
                     None None None None)
              = Ok (frame_or_empty
                      (snd (get_of_data fresh link_up later_history entropy0
                              None None None None None None))))
    by (vm_compute; reflexivity).
  destruct (proj2 (proj2 (filter_options_date_range fresh link_up later_history
                            entropy0)) _ H) as (He & Hn & _).
  split; [rewrite Hn; vm_compute; reflexivity | exact He].
Defined.

(** * States of an analyzer *)

Lemma connect_engine (lk : link) (self : analyzer) :
  engine (_connect lk self) = true -> connection (_connect lk self) = true.
Proof. unfold _connect. destruct (connect_ok lk); cbn; auto. Qed.

Lemma execute_query_engine (self : analyzer) (lk : link) (answer : DataFrame) :
  (engine self = true -> connection self = true) ->
  engine (fst (execute_query self lk answer)) = true ->
  connection (fst (execute_query self lk answer)) = true.
Proof.
  unfold execute_query, execute_query_pyodbc, _connect.
  destruct self as [c g s], lk as [a b c' d e]; cbn.
  destruct g, a, c, b, d, e, c'; cbn; auto.
Qed.

Lemma lance_le_engine (self : analyzer) (lk : link) (db : Db.database)
  (date_debut date_fin : option date)
  (statut_filter famille_filter client_filter : option string)
  (alerte_filter : option bool) :
  fst (get_of_data_with_lance_le_filter self lk db date_debut date_fin
         statut_filter famille_filter client_filter alerte_filter)
  = fst (execute_query self lk
           (read_sql (of_da_query Db.LANCE_LE db date_debut date_fin
                        statut_filter famille_filter client_filter))).
Proof.
  unfold get_of_data_with_lance_le_filter.
  destruct (execute_query self lk _) as [self1 df].
  destruct (empty df); reflexivity.
Qed.

(** X25.  An analyzer never holds an engine without a connection: this holds
    after [__init__] and is kept by [_connect], [_close_connection],
    [execute_query] and the retrieval functions, whatever the link does.  A
    new analyzer is connected exactly when [pyodbc.connect] succeeded, has an
    engine exactly when the engine could be created as well, and has not
    created sample data.  The query of an analyzer with an engine delivers
    when the engine reads, when the connection it holds reads, or when the
    read after a reconnection does. *)
Theorem engine_needs_connection :
  (forall self, reachable self -> engine self = true -> connection self = true) /\
  (forall lk,
     connection (__init__ lk) = connect_ok lk /\
     engine (__init__ lk) = connect_ok lk && engine_ok lk /\
     _sample_data_created (__init__ lk) = false) /\
  (forall self lk,
     reachable self -> engine self = true ->
     delivers self lk
     = engine_read_ok lk || conn_read_ok lk || (connect_ok lk && retry_read_ok lk)).
Proof.
  assert (I : forall self, reachable self ->
                           engine self = true -> connection self = true).
  { induction 1 as [lk | lk self _ _ | self _ _ | lk answer self _ IH
                    | lk db e dd df sf ff cf af self _ IH
                    | lk db dd df ff cf self _ IH
                    | lka lkh db dd df sf ff cf af ih self _ IH].
    - apply connect_engine.
    - apply connect_engine.
    - unfold _close_connection. destruct self as [c g s].
      destruct c, g; cbn; auto.
    - apply execute_query_engine. exact IH.
    - unfold get_of_data.
      pose proof (execute_query_engine self lk
                    (read_sql (of_da_query Db.LANCEMENT_AU_PLUS_TARD db dd df
                                 sf ff cf)) IH) as Q.
      destruct (execute_query self lk _) as [self1 df1]. cbn [fst] in Q.
      destruct (empty df1 && negb (_sample_data_created self1)); cbn [fst];
        exact Q.
    - unfold get_histo_of_data. apply execute_query_engine. exact IH.
    - unfold get_combined_of_data.
      pose proof (lance_le_engine self lka db dd df sf ff cf af) as E.
      pose proof (execute_query_engine self lka
                    (read_sql (of_da_query Db.LANCE_LE db dd df sf ff cf)) IH)
        as Q.
      rewrite <- E in Q.
      destruct (get_of_data_with_lance_le_filter self lka db dd df sf ff cf af)
        as [self1 active_data].
      cbn [fst] in Q. destruct ih; cbn [negb fst]; [| exact Q].
      unfold get_histo_of_data_with_lance_le_filter.
      pose proof (execute_query_engine self1 lkh
                    (read_sql (histo_of_da_query Db.LANCE_LE db dd df ff cf)) Q)
        as Q2.
      destruct (execute_query self1 lkh _) as [self2 historical_data].
      exact Q2. }
  split; [exact I |]. split.
  - intros lk. unfold __init__, _connect. destruct (connect_ok lk); cbn; auto.
  - intros self lk R G. specialize (I self R G). unfold delivers.
    rewrite G, I. cbn [andb orb]. apply orb_assoc.
Qed.

(** An analyzer made while the database was away, after one query. *)
Lemma engine_needs_connection_witness :
  connection
    (fst (get_of_data (__init__ link_down) link_up scenario_A entropy0 None None
            None None None None)) = true.
Proof.
  apply (proj1 engine_needs_connection).
  - apply after_get_of_data. apply after_init.
  - reflexivity.
Defined.
